(** * export-meshes.py: a shallow embedding and its specification

    The script [meshes/export-meshes.py] runs inside Blender.  It walks the
    mesh objects of a scene, appends one fixed-size record per triangle
    corner to a byte buffer [data], the UTF-8 object names to [strings] and
    four unsigned 32-bit offsets per object to [index], checks the size of
    [data] and writes the three buffers as tagged chunks to [outfile].

    What is embedded here is the script from line 47 on.  The Blender calls
    of lines 27-35 and 49-70 (opening the file, looking the object up by the
    name its own collection gave, selecting it, the triangulation operator,
    [calc_normals_split]) are the host's business: their result, the name
    and the mesh that line 69 binds for every entry of [to_write], is the
    input of the model.  What the machine decides, whether [sys.stdout] can
    encode a line, whether [outfile] can be created and whether the disk
    takes the bytes, is a parameter of the run, a [Host.t]; a terminal that
    is closed, memory that runs out and signals are not modelled.  Python
    values are modelled as follows: [int] is [Z]; [float] is an IEEE-754
    binary64 value, a [spec_float] of the standard library (one NaN, payloads
    are not kept); [str] is a list of code points; [bytes] is [list byte].
    [struct] is used in native mode by the script; the model is the one of a
    little-endian host with 4-byte [unsigned int] and [float]. *)

From Stdlib Require Import ZArith List Bool Lia String Ascii.
From Stdlib Require Import Strings.Byte.
From Stdlib Require Import Floats.SpecFloat.
From Stdlib Require Import DecimalString DecimalPos.
From Stdlib Require QArith Qround.
Import ListNotations.
Local Open Scope Z_scope.

(** ** Python values *)

(** The [assert] statements of the embedded lines. *)
Inductive check : Type :=
| check_triangle      (* line 91: len(poly.loop_indices) == 3 *)
| check_loop_vertex   (* line 93: loop vertex equals polygon vertex *)
| check_data_length.  (* line 116: vertex_count * 28 == len(data) *)

(** The exceptions the embedded lines can raise. *)
Inductive exn : Type :=
| AssertionError (c : check)
| AttributeError
| IndexError
| ValueError
| OverflowError
| StructError
| UnicodeEncodeError
| OSError.

Definition result (A : Type) : Type := (exn + A)%type.

Definition bytes : Type := list byte.

(** A Python [str]: its code points. *)
Definition pystr : Type := list Z.

Definition float : Type := spec_float.

Definition byte_of_Z (z : Z) : byte :=
  match Byte.of_N (Z.to_N z) with
  | Some b => b
  | None => x00
  end.

Definition Z_of_byte (b : byte) : Z := Z.of_N (Byte.to_N b).

(** [len(b)] *)
Definition len {A : Type} (l : list A) : Z := Z.of_nat (List.length l).

(** [l[i]] on a sequence, for the indices Blender hands out (none is
    negative). *)
Definition getitem {A : Type} (l : list A) (i : nat) : result A :=
  match nth_error l i with
  | Some a => inr a
  | None => inl IndexError
  end.

(** [b[lo:hi]] for [0 <= lo <= hi]. *)
Definition slice {A : Type} (l : list A) (lo hi : Z) : list A :=
  firstn (Z.to_nat (hi - lo)) (skipn (Z.to_nat lo) l).

(** A string literal of the script as a [str]. *)
Definition lit (s : string) : pystr :=
  map (fun a => Z.of_N (N_of_ascii a)) (list_ascii_of_string s).

(** [str(n)] for an [int]. *)
Definition str (n : Z) : pystr := lit (NilZero.string_of_int (Z.to_int n)).

(** ** [bytes(s, "utf8")] and its inverse *)

Definition utf8_char (c : Z) : result bytes :=
  if c <? 0 then inl UnicodeEncodeError
  else if c <? 0x80 then inr [byte_of_Z c]
  else if c <? 0x800 then
    inr [byte_of_Z (0xC0 + c / 64); byte_of_Z (0x80 + c mod 64)]
  else if c <? 0x10000 then
    if (0xD800 <=? c) && (c <=? 0xDFFF) then inl UnicodeEncodeError
    else inr [byte_of_Z (0xE0 + c / 4096);
              byte_of_Z (0x80 + (c / 64) mod 64);
              byte_of_Z (0x80 + c mod 64)]
  else if c <? 0x110000 then
    inr [byte_of_Z (0xF0 + c / 262144);
         byte_of_Z (0x80 + (c / 4096) mod 64);
         byte_of_Z (0x80 + (c / 64) mod 64);
         byte_of_Z (0x80 + c mod 64)]
  else inl UnicodeEncodeError.

Fixpoint utf8 (s : pystr) : result bytes :=
  match s with
  | [] => inr []
  | c :: s' =>
      match utf8_char c with
      | inl e => inl e
      | inr b =>
          match utf8 s' with
          | inl e => inl e
          | inr bs => inr (b ++ bs)
          end
      end
  end.

Definition continuation (b : Z) : bool := (0x80 <=? b) && (b <? 0xC0).

(** [b.decode("utf8")]: strict decoding, [None] for an invalid sequence. *)
Fixpoint utf8_decode (b : bytes) : option pystr :=
  match b with
  | [] => Some []
  | b0 :: r0 =>
      let z0 := Z_of_byte b0 in
      if z0 <? 0x80 then option_map (cons z0) (utf8_decode r0)
      else if z0 <? 0xC2 then None
      else if z0 <? 0xE0 then
        match r0 with
        | b1 :: r1 =>
            let z1 := Z_of_byte b1 in
            if continuation z1
            then option_map (cons ((z0 - 0xC0) * 64 + (z1 - 0x80)))
                            (utf8_decode r1)
            else None
        | _ => None
        end
      else if z0 <? 0xF0 then
        match r0 with
        | b1 :: b2 :: r2 =>
            let z1 := Z_of_byte b1 in
            let z2 := Z_of_byte b2 in
            let c := (z0 - 0xE0) * 4096 + (z1 - 0x80) * 64 + (z2 - 0x80) in
            if continuation z1 && continuation z2 && (0x800 <=? c)
               && negb ((0xD800 <=? c) && (c <=? 0xDFFF))
            then option_map (cons c) (utf8_decode r2)
            else None
        | _ => None
        end
      else if z0 <? 0xF5 then
        match r0 with
        | b1 :: b2 :: b3 :: r3 =>
            let z1 := Z_of_byte b1 in
            let z2 := Z_of_byte b2 in
            let z3 := Z_of_byte b3 in
            let c := (z0 - 0xF0) * 262144 + (z1 - 0x80) * 4096
                     + (z2 - 0x80) * 64 + (z3 - 0x80) in
            if continuation z1 && continuation z2 && continuation z3
               && (0x10000 <=? c) && (c <? 0x110000)
            then option_map (cons c) (utf8_decode r3)
            else None
        | _ => None
        end
      else None
  end.

(** ** [struct.pack] *)

(** Four bytes, least significant first. *)
Definition le32 (n : Z) : bytes :=
  [byte_of_Z (n mod 256); byte_of_Z ((n / 256) mod 256);
   byte_of_Z ((n / 65536) mod 256); byte_of_Z ((n / 16777216) mod 256)].

(** [struct.pack('I', n)] *)
Definition pack_I (n : Z) : result bytes :=
  if (0 <=? n) && (n <? 4294967296) then inr (le32 n) else inl StructError.

(** [struct.unpack('I', b)[0]] on four bytes. *)
Definition unpack_I (b : bytes) : option Z :=
  match b with
  | [b0; b1; b2; b3] =>
      Some (Z_of_byte b0 + 256 * Z_of_byte b1 + 65536 * Z_of_byte b2
            + 16777216 * Z_of_byte b3)
  | _ => None
  end.

(** [struct.pack('B', n)] checks the range of its argument. *)
Definition ubyte (n : Z) : result byte :=
  if (0 <=? n) && (n <=? 255) then inr (byte_of_Z n) else inl StructError.

(** The binary32 encoding of a float that is already a binary32 value.
    A [float] here has one NaN, without sign or payload, and it is written
    as the quiet NaN [7fc00000]; [struct.pack] copies the sign of a Python
    NaN, so for a negative NaN the real bytes are [ffc00000].  The bytes of
    a NaN are used by no statement below. *)
Definition sign_bit (s : bool) : Z := if s then 2147483648 else 0.

Definition bits_of_b32 (x : float) : Z :=
  match x with
  | S754_zero s => sign_bit s
  | S754_infinity s => sign_bit s + 2139095040
  | S754_nan => 2143289344
  | S754_finite s m e =>
      if Zpos m <? 8388608 then sign_bit s + Zpos m
      else sign_bit s + (e + 150) * 8388608 + (Zpos m - 8388608)
  end.

Definition b32_of_bits (n : Z) : float :=
  let s := 2147483648 <=? n in
  let e := (n / 8388608) mod 256 in
  let f := n mod 8388608 in
  if e =? 0 then
    match f with
    | Zpos m => S754_finite s m (-149)
    | _ => S754_zero s
    end
  else if e =? 255 then
    if f =? 0 then S754_infinity s else S754_nan
  else
    match f + 8388608 with
    | Zpos m => S754_finite s m (e - 150)
    | _ => S754_nan
    end.

(** The C cast [(float)x] of a double: round to nearest even, to an
    infinity when the value is too large. *)
Definition to_b32 (x : float) : float :=
  match x with
  | S754_finite s m e => binary_round 24 128 s m e
  | _ => x
  end.

(** [struct.pack('f', x)]: native mode casts and copies, it raises nothing. *)
Definition pack_f (x : float) : bytes := le32 (bits_of_b32 (to_b32 x)).

(** [struct.unpack('f', b)[0]], as a binary32 value. *)
Definition unpack_f (b : bytes) : option float :=
  option_map b32_of_bits (unpack_I b).

(** ** [float] arithmetic of line 105 *)

(** An [int] operand of a float operation is converted first. *)
Definition float_of_int (n : Z) : float := binary_normalize 53 1024 n 0 false.

(** [x * y] on floats. *)
Definition fmul (x y : float) : float := SFmul 53 1024 x y.

(** [int(x)]: truncation toward zero. *)
Definition int_of_float (x : float) : result Z :=
  match x with
  | S754_zero _ => inr 0
  | S754_infinity _ => inl OverflowError
  | S754_nan => inl ValueError
  | S754_finite s m e =>
      let n := cond_Zopp s (Zpos m) in
      inr (match e with
           | Zneg p => Z.quot n (Z.pow_pos 2 p)
           | _ => n * 2 ^ e
           end)
  end.

(** [struct.pack('BBBB', r, g, b, a)]: the arguments are checked in order. *)
Definition pack_BBBB (r g b a : Z) : result bytes :=
  match ubyte r with
  | inl e => inl e
  | inr r' =>
      match ubyte g with
      | inl e => inl e
      | inr g' =>
          match ubyte b with
          | inl e => inl e
          | inr b' =>
              match ubyte a with
              | inl e => inl e
              | inr a' => inr [r'; g'; b'; a']
              end
          end
      end
  end.

(** [struct.pack('4s', b)]: [b] cut or padded with zero bytes to four. *)
Definition pack_4s (b : bytes) : bytes := firstn 4 (b ++ repeat x00 4).

(** ** The Blender data the script reads *)

Module Vector.
Record t : Type := { x : float; y : float; z : float }.
(** The order in which [for x in v] yields the components. *)
Definition items (v : t) : list float := [x v; y v; z v].
End Vector.

Module Vector2.
Record t : Type := { x : float; y : float }.
End Vector2.

Module Color.
Record t : Type := { r : float; g : float; b : float }.
End Color.

Module MeshVertex.
Record t : Type := { co : Vector.t }.
End MeshVertex.

Module MeshLoop.
Record t : Type := { vertex_index : nat; normal : Vector.t }.
End MeshLoop.

Module MeshPolygon.
Record t : Type := { loop_indices : list nat; vertices : list nat }.
End MeshPolygon.

Module MeshLoopColor.
Record t : Type := { color : Color.t }.
End MeshLoopColor.

Module MeshUVLoop.
Record t : Type := { uv : Vector2.t }.
End MeshUVLoop.

(** [mesh.vertex_colors]: [active] is the [data] of the active layer, [None]
    when the mesh has no active layer. *)
Module LoopColors.
Record t : Type := { active : option (list MeshLoopColor.t) }.
End LoopColors.

(** [mesh.uv_layers]: the number of layers and the [data] of the active
    one. *)
Module UVLoopLayers.
Record t : Type := { count : nat; active : option (list MeshUVLoop.t) }.
End UVLoopLayers.

Module Mesh.
Record t : Type := {
  vertices : list MeshVertex.t;
  loops : list MeshLoop.t;
  polygons : list MeshPolygon.t;
  vertex_colors : LoopColors.t;
  uv_layers : UVLoopLayers.t
}.
End Mesh.

(** One entry of [to_write] with the mesh line 69 finds for it. *)
Module Object.
Record t : Type := { name : pystr; data : Mesh.t }.
End Object.

(** The right-hand side of line 105: the three conversions are evaluated
    left to right, then [struct.pack] checks the four arguments. *)
Definition pack_color (col : Color.t) : result bytes :=
  match int_of_float (fmul (Color.r col) (float_of_int 255)) with
  | inl e => inl e
  | inr r =>
      match int_of_float (fmul (Color.g col) (float_of_int 255)) with
      | inl e => inl e
      | inr g =>
          match int_of_float (fmul (Color.b col) (float_of_int 255)) with
          | inl e => inl e
          | inr b => pack_BBBB r g b 255
          end
      end
  end.

(** ** The state of the script and its monad *)

(** What the machine the script runs on decides: the code points
    [sys.stdout] can encode ([print] raises [UnicodeEncodeError] on a line
    with another one), the paths [open(path, 'wb')] can create (it raises
    [OSError] on the others), and the number of bytes the file may hold
    ([blob.write] raises [OSError] when the file would grow beyond it). *)
Module Host.
Record t : Type := {
  encodes : Z -> bool;
  opens : pystr -> bool;
  room : Z
}.
End Host.

(** The variables of lines 38-46, what was printed, the content of the
    file at [outfile] ([None] as long as the script has not opened it), and
    the machine. *)
Record world : Type := {
  data : bytes;
  strings : bytes;
  index : bytes;
  vertex_count : Z;
  stdout : list pystr;
  blob : option bytes;
  host : Host.t
}.

Definition M (A : Type) : Type := world -> result A * world.

Definition ret {A : Type} (a : A) : M A := fun w => (inr a, w).

Definition bind {A B : Type} (m : M A) (k : A -> M B) : M B :=
  fun w =>
    match m w with
    | (inl e, w') => (inl e, w')
    | (inr a, w') => k a w'
    end.

Declare Scope py_scope.
Delimit Scope py_scope with py.
Notation "x <- m ;; k" := (bind m (fun x => k))
  (at level 61, m at next level, right associativity) : py_scope.
Notation "m ;; k" := (bind m (fun _ => k))
  (at level 61, right associativity) : py_scope.
Local Open Scope py_scope.

Definition raise {A : Type} (e : exn) : M A := fun w => (inl e, w).

Definition lift {A : Type} (r : result A) : M A := fun w => (r, w).

Definition gets {A : Type} (f : world -> A) : M A := fun w => (inr (f w), w).

Definition assert (c : check) (b : bool) : M unit :=
  if b then ret tt else raise (AssertionError c).

Fixpoint for_each {A : Type} (l : list A) (body : A -> M unit) : M unit :=
  match l with
  | [] => ret tt
  | a :: l' => body a ;; for_each l' body
  end.

(** Assignments to the variables of the state. *)
Definition with_data (w : world) (d : bytes) : world :=
  {| data := d; strings := strings w; index := index w;
     vertex_count := vertex_count w; stdout := stdout w; blob := blob w;
     host := host w |}.

Definition with_strings (w : world) (s : bytes) : world :=
  {| data := data w; strings := s; index := index w;
     vertex_count := vertex_count w; stdout := stdout w; blob := blob w;
     host := host w |}.

Definition with_index (w : world) (i : bytes) : world :=
  {| data := data w; strings := strings w; index := i;
     vertex_count := vertex_count w; stdout := stdout w; blob := blob w;
     host := host w |}.

Definition with_vertex_count (w : world) (n : Z) : world :=
  {| data := data w; strings := strings w; index := index w;
     vertex_count := n; stdout := stdout w; blob := blob w;
     host := host w |}.

Definition with_stdout (w : world) (o : list pystr) : world :=
  {| data := data w; strings := strings w; index := index w;
     vertex_count := vertex_count w; stdout := o; blob := blob w;
     host := host w |}.

Definition with_blob (w : world) (f : option bytes) : world :=
  {| data := data w; strings := strings w; index := index w;
     vertex_count := vertex_count w; stdout := stdout w; blob := f;
     host := host w |}.

(** [print(s)]: the line goes to [sys.stdout], whose error handler is
    [strict]. *)
Definition print (s : pystr) : M unit :=
  fun w =>
    if forallb (Host.encodes (host w)) s
    then (inr tt, with_stdout w (stdout w ++ [s]))
    else (inl UnicodeEncodeError, w).

(** [data += b] *)
Definition data_add (b : bytes) : M unit :=
  fun w => (inr tt, with_data w (data w ++ b)).

(** [strings += b] *)
Definition strings_add (b : bytes) : M unit :=
  fun w => (inr tt, with_strings w (strings w ++ b)).

(** [index += b] *)
Definition index_add (b : bytes) : M unit :=
  fun w => (inr tt, with_index w (index w ++ b)).

(** [vertex_count += n] *)
Definition vertex_count_add (n : Z) : M unit :=
  fun w => (inr tt, with_vertex_count w (vertex_count w + n)).

(** [blob = open(path, 'wb')]: the file exists and is empty, or the
    machine refuses. *)
Definition open_wb (path : pystr) : M unit :=
  fun w =>
    if Host.opens (host w) path
    then (inr tt, with_blob w (Some []))
    else (inl OSError, w).

(** [blob.write(b)] *)
Definition write (b : bytes) : M unit :=
  fun w =>
    match blob w with
    | Some f =>
        if len (f ++ b) <=? Host.room (host w)
        then (inr tt, with_blob w (Some (f ++ b)))
        else (inl OSError, w)
    | None => (inl ValueError, w)
    end.

(** [blob.tell()] *)
Definition tell : M Z :=
  fun w =>
    match blob w with
    | Some f => (inr (len f), w)
    | None => (inl ValueError, w)
    end.

(** ** The script, lines 47-135 *)

(** Lines 93-112, for corner [i] of [poly]. *)
Definition write_corner (do_texcoord : bool) (mesh : Mesh.t)
    (uvs : option (list MeshUVLoop.t)) (poly : MeshPolygon.t) (i : nat)
    : M unit :=
  (* 93 *)
  li <- lift (getitem (MeshPolygon.loop_indices poly) i) ;;
  l <- lift (getitem (Mesh.loops mesh) li) ;;
  v <- lift (getitem (MeshPolygon.vertices poly) i) ;;
  assert check_loop_vertex (MeshLoop.vertex_index l =? v)%nat ;;
  (* 94 *)
  li <- lift (getitem (MeshPolygon.loop_indices poly) i) ;;
  loop <- lift (getitem (Mesh.loops mesh) li) ;;
  (* 95 *)
  _ <- lift (getitem (Mesh.vertices mesh) (MeshLoop.vertex_index loop)) ;;
  (* 96-97 *)
  vertex <- lift (getitem (Mesh.vertices mesh) (MeshLoop.vertex_index loop)) ;;
  for_each (Vector.items (MeshVertex.co vertex))
           (fun x => data_add (pack_f x)) ;;
  (* 98-99 *)
  for_each (Vector.items (MeshLoop.normal loop))
           (fun x => data_add (pack_f x)) ;;
  (* 104 *)
  layer <- lift (match LoopColors.active (Mesh.vertex_colors mesh) with
                 | Some d => inr d
                 | None => inl AttributeError
                 end) ;;
  v <- lift (getitem (MeshPolygon.vertices poly) i) ;;
  c <- lift (getitem layer v) ;;
  let col := MeshLoopColor.color c in
  (* 105 *)
  p <- lift (pack_color col) ;;
  data_add p ;;
  (* 107-112 *)
  if do_texcoord then
    match uvs with
    | Some uvs =>
        li <- lift (getitem (MeshPolygon.loop_indices poly) i) ;;
        u <- lift (getitem uvs li) ;;
        let uv := MeshUVLoop.uv u in
        data_add (pack_f (Vector2.x uv) ++ pack_f (Vector2.y uv))
    | None =>
        data_add (pack_f (float_of_int 0) ++ pack_f (float_of_int 0))
    end
  else ret tt.

(** Lines 90-112, for one polygon. *)
Definition write_poly (do_texcoord : bool) (mesh : Mesh.t)
    (uvs : option (list MeshUVLoop.t)) (poly : MeshPolygon.t) : M unit :=
  assert check_triangle (len (MeshPolygon.loop_indices poly) =? 3) ;;
  for_each [0; 1; 2]%nat (write_corner do_texcoord mesh uvs poly).

(** Lines 82-87. *)
Definition get_uvs (do_texcoord : bool) (obj : Object.t)
    : M (option (list MeshUVLoop.t)) :=
  if do_texcoord then
    if (UVLoopLayers.count (Mesh.uv_layers (Object.data obj)) =? 0)%nat then
      print (lit "WARNING: trying to export texcoord data, but object '"
             ++ Object.name obj
             ++ lit "' does not uv data; will output (0.0, 0.0)") ;;
      ret None
    else
      match UVLoopLayers.active (Mesh.uv_layers (Object.data obj)) with
      | Some d => ret (Some d)
      | None => raise AttributeError
      end
  else ret None.

(** The body of the loop of line 47. *)
Definition write_object (do_texcoord : bool) (obj : Object.t) : M unit :=
  let name := Object.name obj in
  (* 48 *)
  print (lit "Writing '" ++ name ++ lit "'...") ;;
  (* 69 *)
  let mesh := Object.data obj in
  (* 73-77 *)
  name_begin <- gets (fun w => len (strings w)) ;;
  b <- lift (utf8 name) ;;
  strings_add b ;;
  name_end <- gets (fun w => len (strings w)) ;;
  p <- lift (pack_I name_begin) ;;
  index_add p ;;
  p <- lift (pack_I name_end) ;;
  index_add p ;;
  (* 79-80 *)
  n <- gets vertex_count ;;
  p <- lift (pack_I n) ;;
  index_add p ;;
  n <- gets vertex_count ;;
  p <- lift (pack_I (n + len (Mesh.polygons mesh) * 3)) ;;
  index_add p ;;
  (* 82-87 *)
  uvs <- get_uvs do_texcoord obj ;;
  (* 90-112 *)
  for_each (Mesh.polygons mesh) (write_poly do_texcoord mesh uvs) ;;
  (* 113 *)
  vertex_count_add (len (Mesh.polygons mesh) * 3).

(** Lines 119-135. *)
Definition write_blob (outfile : pystr) : M unit :=
  open_wb outfile ;;
  write (pack_4s (list_byte_of_string "dat0")) ;;
  n <- gets (fun w => len (data w)) ;;
  p <- lift (pack_I n) ;;
  write p ;;
  d <- gets data ;;
  write d ;;
  write (pack_4s (list_byte_of_string "str0")) ;;
  n <- gets (fun w => len (strings w)) ;;
  p <- lift (pack_I n) ;;
  write p ;;
  s <- gets strings ;;
  write s ;;
  write (pack_4s (list_byte_of_string "idx0")) ;;
  n <- gets (fun w => len (index w)) ;;
  p <- lift (pack_I n) ;;
  write p ;;
  i <- gets index ;;
  write i ;;
  t <- tell ;;
  d <- gets data ;;
  s <- gets strings ;;
  i <- gets index ;;
  print (lit "Wrote " ++ str t ++ lit " bytes [== " ++ str (len d + 8)
         ++ lit " bytes of data + " ++ str (len s + 8)
         ++ lit " bytes of strings + " ++ str (len i + 8)
         ++ lit " bytes of index] to '" ++ outfile ++ lit "'").

(** Lines 47-116: the loop over [to_write] and the check after it. *)
Definition write_objects (do_texcoord : bool) (to_write : list Object.t)
    : M unit :=
  for_each to_write (write_object do_texcoord) ;;
  n <- gets vertex_count ;;
  d <- gets data ;;
  assert check_data_length (n * (4 * 3 + 4 * 3 + 4 * 1) =? len d).

Definition script (do_texcoord : bool) (outfile : pystr)
    (to_write : list Object.t) : M unit :=
  write_objects do_texcoord to_write ;;
  write_blob outfile.

(** Lines 38-46; nothing printed yet, [outfile] not touched. *)
Definition start (h : Host.t) : world :=
  {| data := []; strings := []; index := []; vertex_count := 0;
     stdout := []; blob := None; host := h |}.

(** A run of the script on the machine [h]: how it ends, and the state it
    leaves. *)
Definition run (h : Host.t) (do_texcoord : bool) (outfile : pystr)
    (to_write : list Object.t) : result unit * world :=
  script do_texcoord outfile to_write (start h).

(** ** Reading a blob back

    The script only writes.  The readers below are what the statements
    about an exported file are phrased with. *)

(** One chunk: a 4-byte tag, the payload length as in [unpack_I], the
    payload; returns the tag, the payload and what follows. *)
Definition read_chunk (f : bytes) : option (bytes * bytes * bytes) :=
  match unpack_I (firstn 4 (skipn 4 f)) with
  | Some n =>
      if n <=? len (skipn 8 f)
      then Some (firstn 4 f, firstn (Z.to_nat n) (skipn 8 f),
                 skipn (Z.to_nat n) (skipn 8 f))
      else None
  | None => None
  end.

(** All chunks of a file, each as (tag, payload); [None] when the file does
    not split into whole chunks. *)
Fixpoint read_chunks (fuel : nat) (f : bytes) : option (list (bytes * bytes)) :=
  match f with
  | [] => Some []
  | _ =>
      match fuel with
      | O => None
      | S fuel' =>
          match read_chunk f with
          | Some (tag, payload, rest) =>
              option_map (cons (tag, payload)) (read_chunks fuel' rest)
          | None => None
          end
      end
  end.

Definition read_blob (f : bytes) : option (list (bytes * bytes)) :=
  read_chunks (List.length f) f.

(** One record of the index chunk. *)
Record entry : Type := {
  name_begin : Z;
  name_end : Z;
  vertex_begin : Z;
  vertex_end : Z
}.

Definition u32 (b0 b1 b2 b3 : byte) : Z :=
  Z_of_byte b0 + 256 * Z_of_byte b1 + 65536 * Z_of_byte b2
  + 16777216 * Z_of_byte b3.

(** The index payload as a list of 16-byte records. *)
Fixpoint read_index (b : bytes) : option (list entry) :=
  match b with
  | [] => Some []
  | a0 :: a1 :: a2 :: a3 :: b0 :: b1 :: b2 :: b3
    :: c0 :: c1 :: c2 :: c3 :: d0 :: d1 :: d2 :: d3 :: rest =>
      option_map
        (cons {| name_begin := u32 a0 a1 a2 a3; name_end := u32 b0 b1 b2 b3;
                 vertex_begin := u32 c0 c1 c2 c3;
                 vertex_end := u32 d0 d1 d2 d3 |})
        (read_index rest)
  | _ => None
  end.

(** ** Vocabulary of the specification *)

(** The size of one vertex record. *)
Definition record_size (do_texcoord : bool) : Z :=
  if do_texcoord then 36 else 28.

(** The number of triangle corners of the meshes of [to_write]. *)
Fixpoint corners (to_write : list Object.t) : Z :=
  match to_write with
  | [] => 0
  | obj :: rest => 3 * len (Mesh.polygons (Object.data obj)) + corners rest
  end.

(** The vertex ranges of [es] tile [lo, hi): each begins where the one
    before it ends. *)
Fixpoint tiles (lo : Z) (es : list entry) (hi : Z) : Prop :=
  match es with
  | [] => lo = hi
  | e :: es' =>
      vertex_begin e = lo /\ vertex_begin e <= vertex_end e
      /\ tiles (vertex_end e) es' hi
  end.

(** Each record is at or after the one before it. *)
Fixpoint ascending (es : list entry) : Prop :=
  match es with
  | e1 :: (e2 :: _) as es' =>
      vertex_begin e1 <= vertex_begin e2 /\ vertex_end e1 <= vertex_end e2
      /\ ascending es'
  | _ => True
  end.


(** [0.0 <= x <= 1.0] on a binary64 value. *)
Definition normalized (x : float) : bool :=
  valid_binary 53 1024 x
  && SFleb (float_of_int 0) x && SFleb x (float_of_int 1).

(** The bytes [24, 28) of the record that begins at offset [off]. *)
Definition color_at (d : bytes) (off : Z) : bytes :=
  slice d (off + 24) (off + 28).

(** The bytes [28, 36) of the record that begins at offset [off]. *)
Definition texcoord_at (d : bytes) (off : Z) : bytes :=
  slice d (off + 28) (off + 36).

(** A command keeps a relation between the state before and after it,
    however it ends. *)
Definition preserves (R : world -> world -> Prop) {A : Type} (m : M A) : Prop :=
  forall w, R w (snd (m w)).

(** Nothing but [data] changed. *)
Definition only_data (w w' : world) : Prop := w' = with_data w (data w').

(** The file at [outfile] is as it was. *)
Definition same_blob (w w' : world) : Prop := blob w' = blob w.

(** The machine is the one it was. *)
Definition same_host (w w' : world) : Prop := host w' = host w.

(** The texture coordinate bytes of corner [i] of [poly]. *)
Definition texcoord_bytes (do_texcoord : bool)
    (uvs : option (list MeshUVLoop.t)) (poly : MeshPolygon.t) (i : nat)
    (tex : bytes) : Prop :=
  match do_texcoord, uvs with
  | false, _ => tex = []
  | true, None => tex = pack_f (float_of_int 0) ++ pack_f (float_of_int 0)
  | true, Some uvs =>
      exists li u,
        getitem (MeshPolygon.loop_indices poly) i = inr li
        /\ getitem uvs li = inr u
        /\ tex = pack_f (Vector2.x (MeshUVLoop.uv u))
                 ++ pack_f (Vector2.y (MeshUVLoop.uv u))
  end.

(** The 16 bytes of an index record. *)
Definition entry_bytes (e : entry) : bytes :=
  le32 (name_begin e) ++ le32 (name_end e)
  ++ le32 (vertex_begin e) ++ le32 (vertex_end e).

Definition u32_range (n : Z) : Prop := 0 <= n < 4294967296.

Definition entry_range (e : entry) : Prop :=
  u32_range (name_begin e) /\ u32_range (name_end e)
  /\ u32_range (vertex_begin e) /\ u32_range (vertex_end e).

(** The index records of the objects [objs] with encoded names [nbs], when
    [ns] bytes of names and [vs] vertices precede them. *)
Fixpoint entries (ns vs : Z) (objs : list Object.t) (nbs : list bytes)
    : list entry :=
  match objs, nbs with
  | obj :: objs', nb :: nbs' =>
      let n := len (Mesh.polygons (Object.data obj)) * 3 in
      {| name_begin := ns; name_end := ns + len nb;
         vertex_begin := vs; vertex_end := vs + n |}
      :: entries (ns + len nb) (vs + n) objs' nbs'
  | _, _ => []
  end.

(** The line printed by line 85. *)
Definition uv_warning (name : pystr) : pystr :=
  lit "WARNING: trying to export texcoord data, but object '" ++ name
  ++ lit "' does not uv data; will output (0.0, 0.0)".

(** The line printed by line 133 for a file of [t] bytes with payloads of
    [d], [s] and [i] bytes. *)
Definition wrote (t d s i : Z) (outfile : pystr) : pystr :=
  lit "Wrote " ++ str t ++ lit " bytes [== " ++ str (d + 8)
  ++ lit " bytes of data + " ++ str (s + 8)
  ++ lit " bytes of strings + " ++ str (i + 8)
  ++ lit " bytes of index] to '" ++ outfile ++ lit "'".

(** The three chunks of lines 121-131. *)
Definition chunk (tag : string) (payload : bytes) : bytes :=
  list_byte_of_string tag ++ le32 (len payload) ++ payload.

(** The run ends with an exception and [outfile] was never opened. *)
Definition aborts (h : Host.t) (do_texcoord : bool) (outfile : pystr)
    (to_write : list Object.t) : Prop :=
  exists e w, run h do_texcoord outfile to_write = (inl e, w) /\ blob w = None.

(** The chunks a reader finds in a file with payloads [d], [s] and [i]. *)
Definition three_chunks (d s i : bytes) : list (bytes * bytes) :=
  [(list_byte_of_string "dat0", d); (list_byte_of_string "str0", s);
   (list_byte_of_string "idx0", i)].

(** ** Sample scenes *)

Module Scene.
Definition f0 : float := float_of_int 0.
Definition f1 : float := float_of_int 1.
(** 0.5 and the binary64 value nearest to 1/255 *)
Definition half : float := S754_finite false 4503599627370496 (-53).
Definition f255th : float := S754_finite false 4521260802379792 (-60).

Definition vec (a b c : float) : Vector.t :=
  {| Vector.x := a; Vector.y := b; Vector.z := c |}.

Definition rgb (r g b : float) : MeshLoopColor.t :=
  {| MeshLoopColor.color := {| Color.r := r; Color.g := g; Color.b := b |} |}.

Definition red : MeshLoopColor.t := rgb f1 f0 f0.
Definition blue : MeshLoopColor.t := rgb f0 f0 f1.

Definition corner (v : nat) : MeshLoop.t :=
  {| MeshLoop.vertex_index := v; MeshLoop.normal := vec f0 f0 f1 |}.

Definition no_uv : UVLoopLayers.t :=
  {| UVLoopLayers.count := 0; UVLoopLayers.active := None |}.

Definition square : list MeshVertex.t :=
  [ {| MeshVertex.co := vec f0 f0 f0 |}; {| MeshVertex.co := vec f1 f0 f0 |};
    {| MeshVertex.co := vec f1 f1 f0 |}; {| MeshVertex.co := vec f0 f1 f0 |} ].

(** One triangle, every corner red, no texture coordinates. *)
Definition triangle (colors : option (list MeshLoopColor.t)) : Mesh.t :=
  {| Mesh.vertices := firstn 3 square;
     Mesh.loops := [corner 0; corner 1; corner 2];
     Mesh.polygons :=
       [ {| MeshPolygon.loop_indices := [0; 1; 2]%nat;
            MeshPolygon.vertices := [0; 1; 2]%nat |} ];
     Mesh.vertex_colors := {| LoopColors.active := colors |};
     Mesh.uv_layers := no_uv |}.

Definition Tri : Object.t :=
  {| Object.name := lit "Tri";
     Object.data := triangle (Some [red; red; red]) |}.

(** A name with characters of two, three and four bytes. *)
Definition Cafe : Object.t :=
  {| Object.name := [67; 97; 102; 233; 8364; 128512];
     Object.data := triangle (Some [red; red; red]) |}.

(** The same triangle without a color layer. *)
Definition Grey : Object.t :=
  {| Object.name := lit "Grey"; Object.data := triangle None |}.

(** A quad the triangulation left alone. *)
Definition Quad : Object.t :=
  {| Object.name := lit "Quad";
     Object.data :=
       {| Mesh.vertices := square;
          Mesh.loops := [corner 0; corner 1; corner 2; corner 3];
          Mesh.polygons :=
            [ {| MeshPolygon.loop_indices := [0; 1; 2; 3]%nat;
                 MeshPolygon.vertices := [0; 1; 2; 3]%nat |} ];
          Mesh.vertex_colors :=
            {| LoopColors.active := Some [red; red; red; red] |};
          Mesh.uv_layers := no_uv |} |}.

(** Vertices only: no polygon, no color layer. *)
Definition Points : Object.t :=
  {| Object.name := lit "Points";
     Object.data :=
       {| Mesh.vertices := square; Mesh.loops := []; Mesh.polygons := [];
          Mesh.vertex_colors := {| LoopColors.active := None |};
          Mesh.uv_layers := no_uv |} |}.

(** A square of two triangles; the corners of the first are red, those of
    the second blue, so vertices 0 and 2 carry both colors. *)
Definition seam_poly : MeshPolygon.t :=
  {| MeshPolygon.loop_indices := [3; 4; 5]%nat;
     MeshPolygon.vertices := [0; 2; 3]%nat |}.

Definition seam_mesh : Mesh.t :=
  {| Mesh.vertices := square;
     Mesh.loops := [corner 0; corner 1; corner 2;
                    corner 0; corner 2; corner 3];
     Mesh.polygons :=
       [ {| MeshPolygon.loop_indices := [0; 1; 2]%nat;
            MeshPolygon.vertices := [0; 1; 2]%nat |};
         seam_poly ];
     Mesh.vertex_colors :=
       {| LoopColors.active := Some [red; red; red; blue; blue; blue] |};
     Mesh.uv_layers := no_uv |}.

Definition Seam : Object.t :=
  {| Object.name := lit "Seam"; Object.data := seam_mesh |}.

Definition out : pystr := lit "out.blob".

(** A machine with a UTF-8 terminal, which encodes every code point but the
    surrogates; any path that is not empty can be created and a file may
    hold 1 MiB. *)
Definition machine : Host.t :=
  {| Host.encodes := fun c => negb ((0xD800 <=? c) && (c <? 0xE000));
     Host.opens := fun path => negb (len path =? 0);
     Host.room := 1048576 |}.
End Scene.

(** ** Lines 10-20: the command line *)

(** [a == b] on two [str]. *)
Fixpoint str_eqb (a b : pystr) : bool :=
  match a, b with
  | [], [] => true
  | x :: a', y :: b' => (x =? y) && str_eqb a' b'
  | _, _ => false
  end.

(** The loop of lines 11-13 over the elements of [sys.argv] not yet seen,
    [args] being the value the variable has so far. *)
Fixpoint scan_args (argv args : list pystr) : list pystr :=
  match argv with
  | [] => args
  | a :: rest =>
      scan_args rest (if str_eqb a (lit "--") then rest else args)
  end.

(** Lines 10-13. *)
Definition parse_args (argv : list pystr) : list pystr := scan_args argv [].

(** The text of line 16. *)
Definition usage : pystr :=
  [10; 10] ++ lit "Usage:" ++ [10]
  ++ lit "blender --background --python export-meshes.py -- <infile.blend> <outfile.blob>"
  ++ [10]
  ++ lit "Exports the meshes referenced by all objects to a binary blob, indexed by the names of the objects that reference them."
  ++ [10].

(** Lines 10-20: either what is printed and the status of [exit], or
    [infile] and [outfile]. *)
Definition command_line (argv : list pystr)
    : (list pystr * Z) + (pystr * pystr) :=
  let args := parse_args argv in
  if negb (len args =? 2) then inl ([usage], 1)
  else inr (nth 0 args [], nth 1 args []).

(** ** The geometry of a mesh as a value

    Lines 82-112 again, without the state: what they append to [data], or
    the exception they raise.  The lemmas of the last part show that the
    commands above compute these values. *)

Definition rbind {A B : Type} (r : result A) (k : A -> result B) : result B :=
  match r with
  | inl e => inl e
  | inr a => k a
  end.

Notation "'do' x <- r ; k" := (rbind r (fun x => k))
  (at level 10, x name, r at level 100, k at level 200) : py_scope.

(** Lines 82-87 without the warning. *)
Definition uvs_of (do_texcoord : bool) (obj : Object.t)
    : result (option (list MeshUVLoop.t)) :=
  if do_texcoord then
    if (UVLoopLayers.count (Mesh.uv_layers (Object.data obj)) =? 0)%nat
    then inr None
    else
      match UVLoopLayers.active (Mesh.uv_layers (Object.data obj)) with
      | Some d => inr (Some d)
      | None => inl AttributeError
      end
  else inr None.

(** Lines 107-112. *)
Definition texcoord_record (do_texcoord : bool)
    (uvs : option (list MeshUVLoop.t)) (poly : MeshPolygon.t) (i : nat)
    : result bytes :=
  if do_texcoord then
    match uvs with
    | Some uvs =>
        do li <- getitem (MeshPolygon.loop_indices poly) i;
        do u <- getitem uvs li;
        inr (pack_f (Vector2.x (MeshUVLoop.uv u))
             ++ pack_f (Vector2.y (MeshUVLoop.uv u)))
    | None => inr (pack_f (float_of_int 0) ++ pack_f (float_of_int 0))
    end
  else inr [].

(** Lines 93-112: the record of corner [i] of [poly]. *)
Definition corner_record (do_texcoord : bool) (mesh : Mesh.t)
    (uvs : option (list MeshUVLoop.t)) (poly : MeshPolygon.t) (i : nat)
    : result bytes :=
  do li <- getitem (MeshPolygon.loop_indices poly) i;
  do loop <- getitem (Mesh.loops mesh) li;
  do v <- getitem (MeshPolygon.vertices poly) i;
  if negb (MeshLoop.vertex_index loop =? v)%nat
  then inl (AssertionError check_loop_vertex)
  else
    do vertex <- getitem (Mesh.vertices mesh) (MeshLoop.vertex_index loop);
    do layer <- match LoopColors.active (Mesh.vertex_colors mesh) with
                | Some d => inr d
                | None => inl AttributeError
                end;
    do c <- getitem layer v;
    do col <- pack_color (MeshLoopColor.color c);
    do tex <- texcoord_record do_texcoord uvs poly i;
    inr (List.concat (map pack_f (Vector.items (MeshVertex.co vertex)))
         ++ List.concat (map pack_f (Vector.items (MeshLoop.normal loop)))
         ++ col ++ tex).

(** Lines 90-112 for one polygon. *)
Definition poly_records (do_texcoord : bool) (mesh : Mesh.t)
    (uvs : option (list MeshUVLoop.t)) (poly : MeshPolygon.t) : result bytes :=
  if negb (len (MeshPolygon.loop_indices poly) =? 3)
  then inl (AssertionError check_triangle)
  else
    do r0 <- corner_record do_texcoord mesh uvs poly 0;
    do r1 <- corner_record do_texcoord mesh uvs poly 1;
    do r2 <- corner_record do_texcoord mesh uvs poly 2;
    inr (r0 ++ r1 ++ r2).

(** Lines 90-112 for the polygons [polys] of [mesh]. *)
Fixpoint polys_records (do_texcoord : bool) (mesh : Mesh.t)
    (uvs : option (list MeshUVLoop.t)) (polys : list MeshPolygon.t)
    : result bytes :=
  match polys with
  | [] => inr []
  | poly :: rest =>
      do d <- poly_records do_texcoord mesh uvs poly;
      do ds <- polys_records do_texcoord mesh uvs rest;
      inr (d ++ ds)
  end.

(** What the mesh of [obj] adds to [data]. *)
Definition geometry (do_texcoord : bool) (obj : Object.t) : result bytes :=
  do uvs <- uvs_of do_texcoord obj;
  polys_records do_texcoord (Object.data obj) uvs
                (Mesh.polygons (Object.data obj)).

(** ** Well-formed input *)

(** A code point [bytes(name, "utf8")] can encode. *)
Definition scalar (c : Z) : bool :=
  ((0 <=? c) && (c <? 0xD800)) || ((0xE000 <=? c) && (c <? 0x110000)).

(** Corner [i] of [poly] names a loop of the mesh, that loop and the polygon
    agree on the vertex, and the vertex has a position and an entry in the
    active color layer. *)
Definition corner_ok (mesh : Mesh.t) (poly : MeshPolygon.t) (i : nat) : bool :=
  match nth_error (MeshPolygon.loop_indices poly) i,
        nth_error (MeshPolygon.vertices poly) i with
  | Some li, Some v =>
      match nth_error (Mesh.loops mesh) li,
            LoopColors.active (Mesh.vertex_colors mesh) with
      | Some loop, Some layer =>
          (MeshLoop.vertex_index loop =? v)%nat
          && (v <? List.length (Mesh.vertices mesh))%nat
          && (v <? List.length layer)%nat
      | _, _ => false
      end
  | _, _ => false
  end.

Definition poly_ok (mesh : Mesh.t) (poly : MeshPolygon.t) : bool :=
  (List.length (MeshPolygon.loop_indices poly) =? 3)%nat
  && corner_ok mesh poly 0 && corner_ok mesh poly 1 && corner_ok mesh poly 2.

Definition color_normalized (c : MeshLoopColor.t) : bool :=
  normalized (Color.r (MeshLoopColor.color c))
  && normalized (Color.g (MeshLoopColor.color c))
  && normalized (Color.b (MeshLoopColor.color c)).

(** Every polygon is a consistent triangle and every entry of the active
    color layer has its channels in [0, 1]. *)
Definition mesh_ok (mesh : Mesh.t) : bool :=
  forallb (poly_ok mesh) (Mesh.polygons mesh)
  && match LoopColors.active (Mesh.vertex_colors mesh) with
     | Some layer => forallb color_normalized layer
     | None => true
     end.

Definition object_ok (obj : Object.t) : bool :=
  forallb scalar (Object.name obj) && mesh_ok (Object.data obj).

(** The number of code points of all names. *)
Fixpoint name_chars (to_write : list Object.t) : Z :=
  match to_write with
  | [] => 0
  | obj :: rest => len (Object.name obj) + name_chars rest
  end.

(** The mesh of [obj] with other uv layers. *)
Definition with_uv_layers (uv : UVLoopLayers.t) (obj : Object.t) : Object.t :=
  {| Object.name := Object.name obj;
     Object.data :=
       {| Mesh.vertices := Mesh.vertices (Object.data obj);
          Mesh.loops := Mesh.loops (Object.data obj);
          Mesh.polygons := Mesh.polygons (Object.data obj);
          Mesh.vertex_colors := Mesh.vertex_colors (Object.data obj);
          Mesh.uv_layers := uv |} |}.

(** ** More sample objects *)

Module Case.
(** The triangle of [Scene.Tri] whose polygon lists its vertices in another
    order than its loops do. *)
Definition Twisted : Object.t :=
  {| Object.name := lit "Twisted";
     Object.data :=
       {| Mesh.vertices := firstn 3 Scene.square;
          Mesh.loops := [Scene.corner 0; Scene.corner 1; Scene.corner 2];
          Mesh.polygons :=
            [ {| MeshPolygon.loop_indices := [0; 1; 2]%nat;
                 MeshPolygon.vertices := [0; 2; 1]%nat |} ];
          Mesh.vertex_colors :=
            {| LoopColors.active :=
                 Some [Scene.red; Scene.red; Scene.red] |};
          Mesh.uv_layers := Scene.no_uv |} |}.

(** A name with a lone surrogate. *)
Definition Lone : Object.t :=
  {| Object.name := [76; 55296];
     Object.data := Scene.triangle (Some [Scene.red; Scene.red; Scene.red]) |}.

(** The triangle of [Scene.Tri] with a uv layer. *)
Definition uv (u v : float) : MeshUVLoop.t :=
  {| MeshUVLoop.uv := {| Vector2.x := u; Vector2.y := v |} |}.

Definition one_uv : UVLoopLayers.t :=
  {| UVLoopLayers.count := 1;
     UVLoopLayers.active :=
       Some [uv Scene.f0 Scene.f0; uv Scene.f1 Scene.f0;
             uv Scene.half Scene.f255th] |}.

Definition Textured : Object.t := with_uv_layers one_uv Scene.Tri.
End Case.

(** ** Printed lines, record readers, bare objects *)

(** The printable ASCII characters, which the literals of the script and
    the digits of [str] are made of. *)
Definition ascii : list Z := map Z.of_nat (seq 32 95).





(** A decimal digit. *)
Definition digit (c : Z) : bool := (48 <=? c) && (c <=? 57).



(** [sys.stdout] of [h] can encode the printable ASCII characters and the
    text [s]. *)
Definition prints (h : Host.t) (s : pystr) : bool :=
  forallb (Host.encodes h) ascii && forallb (Host.encodes h) s.

(** What the loop of line 47 prints for one object: line 48, and line 85
    when texture coordinates are asked for and the mesh has no uv layer. *)
Definition progress (do_texcoord : bool) (obj : Object.t) : list pystr :=
  (lit "Writing '" ++ Object.name obj ++ lit "'...")
  :: (if do_texcoord
         && (UVLoopLayers.count (Mesh.uv_layers (Object.data obj)) =? 0)%nat
      then [uv_warning (Object.name obj)]
      else []).

(** A run of 4-byte words read as floats, each as in [unpack_f]. *)
Fixpoint unpack_floats (b : bytes) : option (list float) :=
  match b with
  | [] => Some []
  | b0 :: b1 :: b2 :: b3 :: rest =>
      match unpack_f [b0; b1; b2; b3], unpack_floats rest with
      | Some x, Some xs => Some (x :: xs)
      | _, _ => None
      end
  | _ => None
  end.
(** An object the script gets through with [do_texcoord] set: its name can
    be encoded, its mesh has no polygon, and the mesh has no uv layer or an
    active one. *)
Definition bare (obj : Object.t) : bool :=
  forallb scalar (Object.name obj)
  && (len (Mesh.polygons (Object.data obj)) =? 0)
  && ((UVLoopLayers.count (Mesh.uv_layers (Object.data obj)) =? 0)%nat
      || match UVLoopLayers.active (Mesh.uv_layers (Object.data obj)) with
         | Some _ => true
         | None => false
         end).


(** The machine of [Scene.machine] with a disk that takes 100 bytes. *)
Definition small_disk : Host.t :=
  {| Host.encodes := Host.encodes Scene.machine;
     Host.opens := Host.opens Scene.machine;
     Host.room := 100 |}.

(** * Properties *)

(** ** Bytes and integers *)

Lemma Z_of_byte_of_Z (z : Z) : 0 <= z < 256 -> Z_of_byte (byte_of_Z z) = z.
Proof.
  intros Hz. unfold Z_of_byte, byte_of_Z.
  destruct (Byte.of_N (Z.to_N z)) as [b|] eqn:E.
  - apply Byte.to_of_N in E. rewrite E. lia.
  - apply Byte.of_N_None_iff in E. lia.
Qed.

Lemma len_app {A : Type} (l1 l2 : list A) : len (l1 ++ l2) = len l1 + len l2.
Proof. unfold len. rewrite length_app. lia. Qed.

Lemma len_nonneg {A : Type} (l : list A) : 0 <= len l.
Proof. unfold len. lia. Qed.

Lemma len_le32 (n : Z) : len (le32 n) = 4.
Proof. reflexivity. Qed.

Lemma u32_le32 (n : Z) :
  0 <= n < 4294967296 ->
  u32 (byte_of_Z (n mod 256)) (byte_of_Z ((n / 256) mod 256))
      (byte_of_Z ((n / 65536) mod 256)) (byte_of_Z ((n / 16777216) mod 256))
  = n.
Proof.
  intros Hn. unfold u32.
  rewrite !Z_of_byte_of_Z by (apply Z.mod_pos_bound; lia).
  replace (n / 65536) with (n / 256 / 256)
    by (rewrite Z.div_div by lia; reflexivity).
  replace (n / 16777216) with (n / 256 / 256 / 256)
    by (rewrite !Z.div_div by lia; reflexivity).
  assert (H3 : n / 256 / 256 / 256 < 256)
    by (apply Z.div_lt_upper_bound; [lia|];
        apply Z.div_lt_upper_bound; [lia|];
        apply Z.div_lt_upper_bound; lia).
  assert (H0 : 0 <= n / 256 / 256 / 256) by (repeat apply Z.div_pos; lia).
  rewrite (Z.mod_small (n / 256 / 256 / 256)) by lia.
  pose proof (Z.div_mod n 256).
  pose proof (Z.div_mod (n / 256) 256).
  pose proof (Z.div_mod (n / 256 / 256) 256).
  lia.
Qed.

Lemma unpack_le32 (n : Z) :
  0 <= n < 4294967296 -> unpack_I (le32 n) = Some n.
Proof.
  intros Hn. unfold le32, unpack_I. f_equal. now apply u32_le32.
Qed.

Lemma pack_I_inr (n : Z) (p : bytes) :
  pack_I n = inr p -> p = le32 n /\ 0 <= n < 4294967296.
Proof.
  unfold pack_I. destruct (0 <=? n) eqn:E1; destruct (n <? 4294967296) eqn:E2;
    simpl; intros H; inversion H; subst. split; [reflexivity | lia].
Qed.

Lemma len_pack_f (x : float) : len (pack_f x) = 4.
Proof. reflexivity. Qed.

Lemma inr_inj {A B : Type} (a b : B) : @inr A B a = inr b -> a = b.
Proof. congruence. Qed.

Lemma slice_app_exact {A : Type} (l m r : list A) :
  slice (l ++ m ++ r) (len l) (len l + len m) = m.
Proof.
  unfold slice, len.
  replace (Z.of_nat (List.length l) + Z.of_nat (List.length m)
           - Z.of_nat (List.length l))
    with (Z.of_nat (List.length m)) by lia.
  rewrite !Nat2Z.id, skipn_app, skipn_all, Nat.sub_diag. simpl.
  rewrite firstn_app, firstn_all, Nat.sub_diag. simpl. apply app_nil_r.
Qed.

(** ** UTF-8 *)

Ltac decide_tests :=
  repeat match goal with
    | |- context [?a <? ?b] => destruct (Z.ltb_spec a b); try lia
    | |- context [?a <=? ?b] => destruct (Z.leb_spec a b); try lia
    end.

Lemma utf8_char_decode (c : Z) (b r : bytes) :
  utf8_char c = inr b ->
  utf8_decode (b ++ r) = option_map (cons c) (utf8_decode r).
Proof.
  unfold utf8_char.
  destruct (Z.ltb_spec c 0); [discriminate|].
  destruct (Z.ltb_spec c 128).
  { intros E; apply inr_inj in E; subst b. cbn [app utf8_decode].
    rewrite Z_of_byte_of_Z by lia. decide_tests. reflexivity. }
  pose proof (Z.div_mod c 64 ltac:(lia)) as D0.
  pose proof (Z.mod_pos_bound c 64 ltac:(lia)) as B0.
  destruct (Z.ltb_spec c 2048).
  { intros E; apply inr_inj in E; subst b. cbn [app utf8_decode].
    assert (2 <= c / 64 < 32)
      by (split; [apply Z.div_le_lower_bound | apply Z.div_lt_upper_bound];
          lia).
    rewrite !Z_of_byte_of_Z by lia. unfold continuation.
    decide_tests. cbn [andb]. do 2 f_equal. lia. }
  pose proof (Z.div_mod (c / 64) 64 ltac:(lia)) as D1.
  pose proof (Z.mod_pos_bound (c / 64) 64 ltac:(lia)) as B1.
  assert (E1 : c / 4096 = c / 64 / 64)
    by (rewrite Z.div_div by lia; reflexivity).
  destruct (Z.ltb_spec c 65536).
  { destruct (Z.leb_spec 55296 c); destruct (Z.leb_spec c 57343);
      cbn [andb]; try discriminate;
      intros E; apply inr_inj in E; subst b; cbn [app utf8_decode];
      rewrite E1;
      assert (0 <= c / 64 / 64 < 16)
        by (split; [apply Z.div_le_lower_bound | apply Z.div_lt_upper_bound];
            lia);
      rewrite !Z_of_byte_of_Z by lia; unfold continuation;
      decide_tests; cbn [andb negb]; do 2 f_equal; lia. }
  pose proof (Z.div_mod (c / 64 / 64) 64 ltac:(lia)) as D2.
  pose proof (Z.mod_pos_bound (c / 64 / 64) 64 ltac:(lia)) as B2.
  assert (E2 : c / 262144 = c / 64 / 64 / 64)
    by (rewrite !Z.div_div by lia; reflexivity).
  destruct (Z.ltb_spec c 1114112); [|discriminate].
  intros E; apply inr_inj in E; subst b. cbn [app utf8_decode].
  rewrite E1, E2.
  assert (0 <= c / 64 / 64 / 64 < 5)
    by (split; [apply Z.div_le_lower_bound | apply Z.div_lt_upper_bound]; lia).
  rewrite !Z_of_byte_of_Z by lia. unfold continuation.
  decide_tests. cbn [andb]. do 2 f_equal. lia.
Qed.

Lemma utf8_decode_app (s : pystr) :
  forall b r, utf8 s = inr b ->
  utf8_decode (b ++ r) = option_map (app s) (utf8_decode r).
Proof.
  induction s as [|c s IH]; intros b r; cbn [utf8].
  - intros E; apply inr_inj in E; subst b. simpl.
    now destruct (utf8_decode r).
  - destruct (utf8_char c) as [e|bc] eqn:Ec; [discriminate|].
    destruct (utf8 s) as [e|bs] eqn:Es; [discriminate|].
    intros E; apply inr_inj in E; subst b.
    rewrite <- app_assoc, (utf8_char_decode _ _ _ Ec), (IH bs r eq_refl).
    now destruct (utf8_decode r).
Qed.

Lemma utf8_decode_utf8 (s : pystr) (b : bytes) :
  utf8 s = inr b -> utf8_decode b = Some s.
Proof.
  intros E. rewrite <- (app_nil_r b), (utf8_decode_app _ _ [] E). simpl.
  now rewrite app_nil_r.
Qed.

(** ** The monad *)

Lemma bind_inr {A B : Type} (m : M A) (k : A -> M B) (w w' : world) (b : B) :
  bind m k w = (inr b, w') ->
  exists a w1, m w = (inr a, w1) /\ k a w1 = (inr b, w').
Proof.
  unfold bind. destruct (m w) as [[e|a] w1]; [discriminate|].
  intros H. now exists a, w1.
Qed.

Lemma bind_run_inr {A B : Type} (m : M A) (k : A -> M B) (w w1 : world) (a : A) :
  m w = (inr a, w1) -> bind m k w = k a w1.
Proof. unfold bind. now intros ->. Qed.

Lemma bind_run_inl {A B : Type} (m : M A) (k : A -> M B) (w w1 : world) (e : exn) :
  m w = (inl e, w1) -> bind m k w = (inl e, w1).
Proof. unfold bind. now intros ->. Qed.

Lemma lift_inr {A : Type} (r : result A) (w w' : world) (a : A) :
  lift r w = (inr a, w') -> r = inr a /\ w' = w.
Proof. unfold lift. intros H. inversion H. auto. Qed.

Lemma gets_inr {A : Type} (f : world -> A) (w w' : world) (a : A) :
  gets f w = (inr a, w') -> a = f w /\ w' = w.
Proof. unfold gets. intros H. inversion H. auto. Qed.

Lemma assert_inr (c : check) (b : bool) (w w' : world) (u : unit) :
  assert c b w = (inr u, w') -> b = true /\ w' = w.
Proof. destruct b; cbv; intros H; inversion H; auto. Qed.

Lemma ret_inr {A : Type} (a a' : A) (w w' : world) :
  ret a w = (inr a', w') -> a' = a /\ w' = w.
Proof. unfold ret. intros H. inversion H. auto. Qed.

Section Preserves.
Variable R : world -> world -> Prop.
Hypothesis R_refl : forall w, R w w.
Hypothesis R_trans : forall a b c, R a b -> R b c -> R a c.

Lemma preserves_ret {A : Type} (a : A) : preserves R (ret a).
Proof. intros w. apply R_refl. Qed.

Lemma preserves_raise {A : Type} (e : exn) : preserves R (@raise A e).
Proof. intros w. apply R_refl. Qed.

Lemma preserves_lift {A : Type} (r : result A) : preserves R (lift r).
Proof. intros w. apply R_refl. Qed.

Lemma preserves_gets {A : Type} (f : world -> A) : preserves R (gets f).
Proof. intros w. apply R_refl. Qed.

Lemma preserves_assert (c : check) (b : bool) : preserves R (assert c b).
Proof. destruct b; intros w; apply R_refl. Qed.

Lemma preserves_bind {A B : Type} (m : M A) (k : A -> M B) :
  preserves R m -> (forall a, preserves R (k a)) -> preserves R (bind m k).
Proof.
  intros Hm Hk w. unfold bind. specialize (Hm w).
  destruct (m w) as [[e|a] w1]; simpl in *; [assumption|].
  eapply R_trans; [exact Hm | apply Hk].
Qed.

Lemma preserves_for_each {A : Type} (l : list A) (body : A -> M unit) :
  (forall a, preserves R (body a)) -> preserves R (for_each l body).
Proof.
  intros Hb. induction l as [|a l IH]; simpl.
  - apply preserves_ret.
  - apply preserves_bind; auto.
Qed.
End Preserves.

Lemma only_data_refl (w : world) : only_data w w.
Proof. now destruct w. Qed.

Lemma only_data_trans (a b c : world) :
  only_data a b -> only_data b c -> only_data a c.
Proof. unfold only_data. intros -> ->. reflexivity. Qed.

Lemma same_blob_refl (w : world) : same_blob w w.
Proof. reflexivity. Qed.

Lemma same_blob_trans (a b c : world) :
  same_blob a b -> same_blob b c -> same_blob a c.
Proof. unfold same_blob. congruence. Qed.

Lemma only_data_same_blob {A : Type} (m : M A) :
  preserves only_data m -> preserves same_blob m.
Proof. intros H w. red. rewrite (H w). reflexivity. Qed.

Lemma data_add_only_data (b : bytes) : preserves only_data (data_add b).
Proof. intros w. reflexivity. Qed.

Lemma print_same_blob (s : pystr) : preserves same_blob (print s).
Proof.
  intros w. unfold print.
  destruct (forallb (Host.encodes (host w)) s); reflexivity.
Qed.

Lemma strings_add_same_blob (b : bytes) : preserves same_blob (strings_add b).
Proof. intros w. reflexivity. Qed.

Lemma index_add_same_blob (b : bytes) : preserves same_blob (index_add b).
Proof. intros w. reflexivity. Qed.

Lemma vertex_count_add_same_blob (n : Z) :
  preserves same_blob (vertex_count_add n).
Proof. intros w. reflexivity. Qed.

Lemma same_host_refl (w : world) : same_host w w.
Proof. reflexivity. Qed.

Lemma same_host_trans (a b c : world) :
  same_host a b -> same_host b c -> same_host a c.
Proof. unfold same_host. congruence. Qed.

Lemma only_data_same_host {A : Type} (m : M A) :
  preserves only_data m -> preserves same_host m.
Proof. intros H w. red. rewrite (H w). reflexivity. Qed.

Lemma print_same_host (s : pystr) : preserves same_host (print s).
Proof.
  intros w. unfold print.
  destruct (forallb (Host.encodes (host w)) s); reflexivity.
Qed.

Lemma strings_add_same_host (b : bytes) : preserves same_host (strings_add b).
Proof. intros w. reflexivity. Qed.

Lemma index_add_same_host (b : bytes) : preserves same_host (index_add b).
Proof. intros w. reflexivity. Qed.

Lemma vertex_count_add_same_host (n : Z) :
  preserves same_host (vertex_count_add n).
Proof. intros w. reflexivity. Qed.

(** Breaks a command into its steps, for either relation. *)
Ltac preserve refl trans :=
  repeat match goal with
    | |- preserves _ (bind _ _) => apply (preserves_bind _ trans); [|intro]
    | |- preserves _ (for_each _ _) =>
        apply (preserves_for_each _ refl trans); intro
    | |- preserves _ (lift _) => apply preserves_lift; exact refl
    | |- preserves _ (gets _) => apply preserves_gets; exact refl
    | |- preserves _ (ret _) => apply preserves_ret; exact refl
    | |- preserves _ (raise _) => apply preserves_raise; exact refl
    | |- preserves _ (assert _ _) => apply preserves_assert; exact refl
    | |- preserves only_data (data_add _) => apply data_add_only_data
    | |- preserves same_blob (print _) => apply print_same_blob
    | |- preserves same_blob (strings_add _) => apply strings_add_same_blob
    | |- preserves same_blob (index_add _) => apply index_add_same_blob
    | |- preserves same_blob (vertex_count_add _) =>
        apply vertex_count_add_same_blob
    | |- preserves same_host (print _) => apply print_same_host
    | |- preserves same_host (strings_add _) => apply strings_add_same_host
    | |- preserves same_host (index_add _) => apply index_add_same_host
    | |- preserves same_host (vertex_count_add _) =>
        apply vertex_count_add_same_host
    | |- preserves _ (if ?b then _ else _) => destruct b
    | |- preserves _ (match ?x with Some _ => _ | None => _ end) => destruct x
    end.

Lemma write_corner_only_data do_texcoord mesh uvs poly i :
  preserves only_data (write_corner do_texcoord mesh uvs poly i).
Proof.
  unfold write_corner. preserve only_data_refl only_data_trans.
Qed.

Lemma write_poly_only_data do_texcoord mesh uvs poly :
  preserves only_data (write_poly do_texcoord mesh uvs poly).
Proof.
  unfold write_poly. preserve only_data_refl only_data_trans.
  apply write_corner_only_data.
Qed.

Lemma write_object_same_blob do_texcoord obj :
  preserves same_blob (write_object do_texcoord obj).
Proof.
  unfold write_object, get_uvs. preserve same_blob_refl same_blob_trans.
  all: apply only_data_same_blob, write_poly_only_data.
Qed.

Lemma write_object_same_host do_texcoord obj :
  preserves same_host (write_object do_texcoord obj).
Proof.
  unfold write_object, get_uvs. preserve same_host_refl same_host_trans.
  all: apply only_data_same_host, write_poly_only_data.
Qed.

Lemma write_objects_same_blob do_texcoord to_write :
  preserves same_blob (write_objects do_texcoord to_write).
Proof.
  unfold write_objects. preserve same_blob_refl same_blob_trans.
  apply write_object_same_blob.
Qed.

(** ** What a successful corner, polygon and object leave behind *)

Lemma data_add_inr (b : bytes) (w w' : world) (u : unit) :
  data_add b w = (inr u, w') -> w' = with_data w (data w ++ b).
Proof. unfold data_add. intros H. inversion H. reflexivity. Qed.

Lemma data_add_each (f : float -> bytes) (l : list float) (w : world) :
  for_each l (fun x => data_add (f x)) w
  = (inr tt, with_data w (data w ++ List.concat (map f l))).
Proof.
  revert w. induction l as [|x l IH]; intros w; simpl.
  - unfold ret. rewrite app_nil_r. now destruct w.
  - unfold bind, data_add at 1. rewrite IH. simpl.
    unfold with_data; simpl. now rewrite <- app_assoc.
Qed.

Lemma data_add_each_inr (f : float -> bytes) (l : list float) (w w' : world) u :
  for_each l (fun x => data_add (f x)) w = (inr u, w') ->
  w' = with_data w (data w ++ List.concat (map f l)).
Proof. rewrite data_add_each. intros H. inversion H. reflexivity. Qed.

Ltac step_prim S w1 :=
  lazymatch type of S with
  | lift _ _ = _ => apply lift_inr in S; destruct S as [S ->]
  | gets _ _ = _ => apply gets_inr in S; destruct S as [-> ->]
  | assert _ _ _ = _ => apply assert_inr in S; destruct S as [S ->]
  | ret _ _ = _ => apply ret_inr in S; destruct S as [-> ->]
  | for_each _ (fun x => data_add _) _ = _ =>
      apply data_add_each_inr in S; subst w1
  | data_add _ _ = _ => apply data_add_inr in S; subst w1
  end.

Ltac step H :=
  let a := fresh "a" in
  let w1 := fresh "w" in
  let S := fresh "S" in
  apply bind_inr in H; destruct H as (a & w1 & S & H); step_prim S w1.

Lemma write_corner_inr do_texcoord mesh uvs poly i w w' u :
  write_corner do_texcoord mesh uvs poly i w = (inr u, w') ->
  exists li loop vertex layer c col tex,
    getitem (MeshPolygon.loop_indices poly) i = inr li
    /\ getitem (Mesh.loops mesh) li = inr loop
    /\ getitem (MeshPolygon.vertices poly) i = inr (MeshLoop.vertex_index loop)
    /\ getitem (Mesh.vertices mesh) (MeshLoop.vertex_index loop) = inr vertex
    /\ LoopColors.active (Mesh.vertex_colors mesh) = Some layer
    /\ getitem layer (MeshLoop.vertex_index loop) = inr c
    /\ pack_color (MeshLoopColor.color c) = inr col
    /\ texcoord_bytes do_texcoord uvs poly i tex
    /\ w' = with_data w
              (data w
               ++ List.concat (map pack_f (Vector.items (MeshVertex.co vertex)))
               ++ List.concat (map pack_f (Vector.items (MeshLoop.normal loop)))
               ++ col ++ tex).
Proof.
  unfold write_corner. intros H.
  do 15 step H.
  repeat match goal with
    | H1 : ?x = inr ?a, H2 : ?x = inr ?b |- _ =>
        rewrite H1 in H2; apply inr_inj in H2; subst b
    | H1 : (_ =? _)%nat = true |- _ => apply Nat.eqb_eq in H1; subst
    end.
  destruct (LoopColors.active (Mesh.vertex_colors mesh)) as [layer|] eqn:EL;
    [|discriminate].
  match goal with H1 : inr layer = inr _ |- _ => apply inr_inj in H1; subst end.
  match type of H with _ ?wk = _ => remember wk as w12 eqn:Ew end.
  assert (T : exists tex, texcoord_bytes do_texcoord uvs poly i tex
                          /\ w' = with_data w12 (data w12 ++ tex)).
  { destruct do_texcoord; [destruct uvs as [uvs|]|].
    - do 2 step H. apply data_add_inr in H. eexists; split; [|exact H].
      simpl. eauto.
    - apply data_add_inr in H. eexists; split; [|exact H]. reflexivity.
    - apply ret_inr in H. destruct H as [_ ->]. exists []. split; [reflexivity|].
      rewrite app_nil_r. now destruct w12. }
  destruct T as (tex & Htex & ->). subst w12.
  do 7 eexists. repeat (split; [first [eassumption | reflexivity]|]).
  unfold with_data; simpl. rewrite <- !app_assoc. reflexivity.
Qed.

Lemma ubyte_inr (n : Z) (b : byte) :
  ubyte n = inr b -> b = byte_of_Z n /\ 0 <= n <= 255.
Proof.
  unfold ubyte. destruct (Z.leb_spec 0 n); destruct (Z.leb_spec n 255);
    simpl; intros E; inversion E. split; [reflexivity | lia].
Qed.

Lemma pack_BBBB_inr (r g b a : Z) (p : bytes) :
  pack_BBBB r g b a = inr p ->
  p = [byte_of_Z r; byte_of_Z g; byte_of_Z b; byte_of_Z a]
  /\ 0 <= r <= 255 /\ 0 <= g <= 255 /\ 0 <= b <= 255 /\ 0 <= a <= 255.
Proof.
  unfold pack_BBBB.
  destruct (ubyte r) as [|r'] eqn:Er; [discriminate|].
  destruct (ubyte g) as [|g'] eqn:Eg; [discriminate|].
  destruct (ubyte b) as [|b'] eqn:Eb; [discriminate|].
  destruct (ubyte a) as [|a'] eqn:Ea; [discriminate|].
  apply ubyte_inr in Er, Eg, Eb, Ea.
  destruct Er as [-> ?], Eg as [-> ?], Eb as [-> ?], Ea as [-> ?].
  intros E. apply inr_inj in E. subst p. auto.
Qed.

Lemma pack_color_inr (col : Color.t) (p : bytes) :
  pack_color col = inr p ->
  exists r g b,
    int_of_float (fmul (Color.r col) (float_of_int 255)) = inr r
    /\ int_of_float (fmul (Color.g col) (float_of_int 255)) = inr g
    /\ int_of_float (fmul (Color.b col) (float_of_int 255)) = inr b
    /\ 0 <= r <= 255 /\ 0 <= g <= 255 /\ 0 <= b <= 255
    /\ p = [byte_of_Z r; byte_of_Z g; byte_of_Z b; byte_of_Z 255].
Proof.
  unfold pack_color.
  destruct (int_of_float (fmul (Color.r col) _)) as [|r]; [discriminate|].
  destruct (int_of_float (fmul (Color.g col) _)) as [|g]; [discriminate|].
  destruct (int_of_float (fmul (Color.b col) _)) as [|b]; [discriminate|].
  intros E. apply pack_BBBB_inr in E. exists r, g, b. intuition.
Qed.

Lemma len_pack_color (col : Color.t) (p : bytes) :
  pack_color col = inr p -> len p = 4.
Proof.
  intros H. apply pack_color_inr in H.
  destruct H as (r & g & b & _ & _ & _ & _ & _ & _ & ->). reflexivity.
Qed.

Lemma len_texcoord_bytes do_texcoord uvs poly i tex :
  texcoord_bytes do_texcoord uvs poly i tex ->
  len tex = record_size do_texcoord - 28.
Proof.
  unfold texcoord_bytes. destruct do_texcoord; [destruct uvs|].
  - intros (li & u & _ & _ & ->). reflexivity.
  - intros ->. reflexivity.
  - intros ->. reflexivity.
Qed.

Lemma len_items (v : Vector.t) : len (List.concat (map pack_f (Vector.items v))) = 12.
Proof. reflexivity. Qed.

(** A successful corner appends exactly one record. *)
Lemma write_corner_len do_texcoord mesh uvs poly i w w' u :
  write_corner do_texcoord mesh uvs poly i w = (inr u, w') ->
  exists d, w' = with_data w (data w ++ d) /\ len d = record_size do_texcoord.
Proof.
  intros H. apply write_corner_inr in H.
  destruct H as (li & loop & vertex & layer & c & col & tex & _ & _ & _ & _
                 & _ & _ & Hc & Ht & ->).
  eexists. split; [reflexivity|].
  apply len_pack_color in Hc. apply len_texcoord_bytes in Ht.
  rewrite !len_app, !len_items. lia.
Qed.

Lemma write_poly_inr do_texcoord mesh uvs poly w w' u :
  write_poly do_texcoord mesh uvs poly w = (inr u, w') ->
  len (MeshPolygon.loop_indices poly) = 3
  /\ LoopColors.active (Mesh.vertex_colors mesh) <> None
  /\ exists d, w' = with_data w (data w ++ d)
               /\ len d = 3 * record_size do_texcoord.
Proof.
  unfold write_poly. intros H. step H. apply Z.eqb_eq in S.
  cbn [for_each] in H.
  apply bind_inr in H. destruct H as (u0 & w0 & H0 & H).
  apply bind_inr in H. destruct H as (u1 & w1 & H1 & H).
  apply bind_inr in H. destruct H as (u2 & w2 & H2 & H).
  apply ret_inr in H. destruct H as [_ ->].
  split; [exact S|]. split.
  { apply write_corner_inr in H0.
    destruct H0 as (? & ? & ? & ? & ? & ? & ? & _ & _ & _ & _ & E & _).
    congruence. }
  apply write_corner_len in H0, H1, H2.
  destruct H0 as (d0 & -> & L0), H1 as (d1 & -> & L1), H2 as (d2 & -> & L2).
  exists (d0 ++ d1 ++ d2). split.
  - unfold with_data; simpl. now rewrite <- !app_assoc.
  - rewrite !len_app. lia.
Qed.

Lemma write_polys_inr do_texcoord mesh uvs polys :
  forall w w' u,
  for_each polys (write_poly do_texcoord mesh uvs) w = (inr u, w') ->
  Forall (fun poly => len (MeshPolygon.loop_indices poly) = 3) polys
  /\ (polys = [] \/ LoopColors.active (Mesh.vertex_colors mesh) <> None)
  /\ exists d, w' = with_data w (data w ++ d)
               /\ len d = len polys * 3 * record_size do_texcoord.
Proof.
  induction polys as [|poly polys IH]; intros w w' u H; cbn [for_each] in H.
  - apply ret_inr in H. destruct H as [_ ->]. split; [constructor|].
    split; [now left|]. exists []. split; [|reflexivity].
    rewrite app_nil_r. now destruct w.
  - apply bind_inr in H. destruct H as (u0 & w0 & H0 & H).
    apply write_poly_inr in H0. destruct H0 as (T & C & d0 & -> & L0).
    apply IH in H. destruct H as (F & _ & d & -> & L).
    split; [now constructor|]. split; [now right|].
    exists (d0 ++ d). split.
    + unfold with_data; simpl. now rewrite <- app_assoc.
    + rewrite len_app. unfold len in *. simpl List.length. lia.
Qed.

Lemma print_inr (s : pystr) (w w' : world) (u : unit) :
  print s w = (inr u, w') ->
  forallb (Host.encodes (host w)) s = true
  /\ w' = with_stdout w (stdout w ++ [s]).
Proof.
  unfold print. destruct (forallb (Host.encodes (host w)) s);
    [|discriminate].
  intros H. apply (f_equal snd) in H. cbn [snd] in H. now split.
Qed.

Lemma strings_add_inr (b : bytes) (w w' : world) (u : unit) :
  strings_add b w = (inr u, w') -> w' = with_strings w (strings w ++ b).
Proof. unfold strings_add. intros H. inversion H. reflexivity. Qed.

Lemma index_add_inr (b : bytes) (w w' : world) (u : unit) :
  index_add b w = (inr u, w') -> w' = with_index w (index w ++ b).
Proof. unfold index_add. intros H. inversion H. reflexivity. Qed.

Lemma vertex_count_add_inr (n : Z) (w w' : world) (u : unit) :
  vertex_count_add n w = (inr u, w') ->
  w' = with_vertex_count w (vertex_count w + n).
Proof. unfold vertex_count_add. intros H. inversion H. reflexivity. Qed.

Lemma get_uvs_inr do_texcoord obj w w' uvs :
  get_uvs do_texcoord obj w = (inr uvs, w') ->
  (do_texcoord = false /\ uvs = None /\ w' = w)
  \/ (do_texcoord = true
      /\ UVLoopLayers.count (Mesh.uv_layers (Object.data obj)) = 0%nat
      /\ uvs = None
      /\ w' = with_stdout w (stdout w ++ [uv_warning (Object.name obj)]))
  \/ (do_texcoord = true
      /\ UVLoopLayers.count (Mesh.uv_layers (Object.data obj)) <> 0%nat
      /\ uvs <> None /\ w' = w).
Proof.
  unfold get_uvs. destruct do_texcoord.
  - destruct (Nat.eqb_spec
                (UVLoopLayers.count (Mesh.uv_layers (Object.data obj))) 0).
    + intros H. apply bind_inr in H. destruct H as (a & w1 & S & H).
      apply ret_inr in H. destruct H as [-> ->].
      right; left. apply print_inr in S. destruct S as [_ S]. auto.
    + destruct (UVLoopLayers.active _).
      * intros H. apply ret_inr in H. destruct H as [-> ->].
        right; right. repeat split; auto. discriminate.
      * discriminate.
  - intros H. apply ret_inr in H. destruct H as [-> ->]. auto.
Qed.

Ltac step_obj H :=
  let a := fresh "a" in
  let w1 := fresh "w" in
  let S := fresh "S" in
  apply bind_inr in H; destruct H as (a & w1 & S & H);
  lazymatch type of S with
  | print _ _ = _ =>
      apply print_inr in S; destruct S as [_ S]; subst w1
  | strings_add _ _ = _ => apply strings_add_inr in S; subst w1
  | index_add _ _ = _ => apply index_add_inr in S; subst w1
  | _ => step_prim S w1
  end.

Lemma write_object_inr do_texcoord obj w w' u :
  write_object do_texcoord obj w = (inr u, w') ->
  let n := len (Mesh.polygons (Object.data obj)) * 3 in
  exists nb d out,
    utf8 (Object.name obj) = inr nb
    /\ strings w' = strings w ++ nb
    /\ index w' = index w
                  ++ entry_bytes {| name_begin := len (strings w);
                                    name_end := len (strings w) + len nb;
                                    vertex_begin := vertex_count w;
                                    vertex_end := vertex_count w + n |}
    /\ u32_range (len (strings w) + len nb)
    /\ u32_range (vertex_count w)
    /\ u32_range (vertex_count w + n)
    /\ data w' = data w ++ d
    /\ len d = n * record_size do_texcoord
    /\ vertex_count w' = vertex_count w + n
    /\ stdout w' = stdout w ++ out
    /\ blob w' = blob w
    /\ Forall (fun poly => len (MeshPolygon.loop_indices poly) = 3)
              (Mesh.polygons (Object.data obj))
    /\ (Mesh.polygons (Object.data obj) = []
        \/ LoopColors.active (Mesh.vertex_colors (Object.data obj)) <> None)
    /\ (do_texcoord = true ->
        UVLoopLayers.count (Mesh.uv_layers (Object.data obj)) = 0%nat ->
        In (uv_warning (Object.name obj)) out).
Proof.
  unfold write_object. intros H. cbv zeta.
  do 15 step_obj H.
  apply bind_inr in H. destruct H as (uvs & w1 & G & H).
  apply bind_inr in H. destruct H as (u1 & w2 & P & H).
  apply vertex_count_add_inr in H.
  apply write_polys_inr in P. destruct P as (F & C & d & -> & L).
  repeat match goal with
    | H1 : pack_I _ = inr _ |- _ => apply pack_I_inr in H1; destruct H1 as [-> ?]
    end.
  cbn [strings data index vertex_count stdout blob with_data with_strings
       with_index with_stdout with_vertex_count] in *.
  rewrite len_app in *.
  assert (I : forall i a b c e : bytes,
             (((i ++ a) ++ b) ++ c) ++ e = i ++ a ++ b ++ c ++ e)
    by (intros; now rewrite <- !app_assoc).
  apply get_uvs_inr in G.
  destruct G as [(-> & -> & ->) | [(-> & Z0 & -> & ->) | (-> & N0 & _ & ->)]];
    subst w'; exists a0, d;
    [ exists [lit "Writing '" ++ Object.name obj ++ lit "'..."]
    | exists [lit "Writing '" ++ Object.name obj ++ lit "'...";
              uv_warning (Object.name obj)]
    | exists [lit "Writing '" ++ Object.name obj ++ lit "'..."] ];
    cbn [strings data index vertex_count stdout blob with_data with_strings
         with_index with_stdout with_vertex_count];
    unfold entry_bytes, u32_range;
    cbn [name_begin name_end vertex_begin vertex_end];
    rewrite ?I, <- ?app_assoc;
    repeat (split; [first [assumption | reflexivity | lia]|]).
  - discriminate.
  - intros _ _. right; left; reflexivity.
  - intros _ E. contradiction.
Qed.


Lemma write_all_inr do_texcoord to_write :
  forall w w' u,
  for_each to_write (write_object do_texcoord) w = (inr u, w') ->
  exists nbs d out,
    Forall2 (fun obj nb => utf8 (Object.name obj) = inr nb) to_write nbs
    /\ strings w' = strings w ++ List.concat nbs
    /\ index w' = index w
                  ++ List.concat
                       (map entry_bytes
                            (entries (len (strings w)) (vertex_count w)
                                     to_write nbs))
    /\ Forall entry_range
              (entries (len (strings w)) (vertex_count w) to_write nbs)
    /\ data w' = data w ++ d
    /\ len d = corners to_write * record_size do_texcoord
    /\ vertex_count w' = vertex_count w + corners to_write
    /\ stdout w' = stdout w ++ out
    /\ blob w' = blob w
    /\ Forall (fun obj =>
                 Forall (fun poly => len (MeshPolygon.loop_indices poly) = 3)
                        (Mesh.polygons (Object.data obj))) to_write
    /\ Forall (fun obj =>
                 Mesh.polygons (Object.data obj) = []
                 \/ LoopColors.active (Mesh.vertex_colors (Object.data obj))
                    <> None) to_write
    /\ (do_texcoord = true ->
        Forall (fun obj =>
                  UVLoopLayers.count (Mesh.uv_layers (Object.data obj)) = 0%nat
                  -> In (uv_warning (Object.name obj)) out) to_write).
Proof.
  induction to_write as [|obj objs IH]; intros w w' u H; cbn [for_each] in H.
  - apply ret_inr in H. destruct H as [_ ->].
    exists [], [], []. simpl. rewrite !app_nil_r.
    repeat (split; [first [constructor | reflexivity | lia]|]).
    intros _. constructor.
  - apply bind_inr in H. destruct H as (u0 & w0 & H0 & H).
    apply write_object_inr in H0.
    destruct H0 as (nb & d0 & out0 & Hn & Hs & Hi & Rn & Rb & Re & Hd & Ld
                    & Hv & Ho & Hb & Ft & Fc & Fw).
    apply IH in H.
    destruct H as (nbs & d & out & Fn & Hs' & Hi' & Fr & Hd' & Ld' & Hv' & Ho'
                   & Hb' & Ft' & Fc' & Fw').
    exists (nb :: nbs), (d0 ++ d), (out0 ++ out).
    rewrite Hs in Hs', Hi', Fr. rewrite Hv in Hi', Fr, Hv'.
    rewrite len_app in Hi', Fr. cbn [entries map List.concat corners].
    split; [now constructor|].
    split; [now rewrite Hs', <- app_assoc|].
    split; [now rewrite Hi', Hi, <- app_assoc|].
    split.
    { constructor; [|exact Fr].
      pose proof (len_nonneg (strings w)). pose proof (len_nonneg nb).
      unfold entry_range, u32_range in *; simpl; lia. }
    split; [now rewrite Hd', Hd, <- app_assoc|].
    split; [rewrite len_app; lia|].
    split; [lia|].
    split; [now rewrite Ho', Ho, <- app_assoc|].
    split; [congruence|].
    split; [now constructor|].
    split; [now constructor|].
    intros T. constructor.
    + intros Z0. apply in_or_app. left. auto.
    + specialize (Fw' T). eapply Forall_impl; [|exact Fw'].
      intros o Ho1 Z1. apply in_or_app. right. auto.
Qed.

(** ** The index records *)

Lemma read_index_cons (a0 a1 a2 a3 b0 b1 b2 b3 c0 c1 c2 c3 d0 d1 d2 d3 : byte)
    (rest : bytes) :
  read_index (a0 :: a1 :: a2 :: a3 :: b0 :: b1 :: b2 :: b3
              :: c0 :: c1 :: c2 :: c3 :: d0 :: d1 :: d2 :: d3 :: rest)
  = option_map
      (cons {| name_begin := u32 a0 a1 a2 a3; name_end := u32 b0 b1 b2 b3;
               vertex_begin := u32 c0 c1 c2 c3;
               vertex_end := u32 d0 d1 d2 d3 |})
      (read_index rest).
Proof. reflexivity. Qed.

Lemma read_index_entry (e : entry) (rest : bytes) :
  entry_range e ->
  read_index (entry_bytes e ++ rest) = option_map (cons e) (read_index rest).
Proof.
  intros (Ra & Rb & Rc & Rd). unfold u32_range in *.
  unfold entry_bytes, le32. cbn [app]. rewrite read_index_cons.
  rewrite !u32_le32 by assumption. now destruct e.
Qed.

Lemma read_index_entries (es : list entry) :
  Forall entry_range es ->
  read_index (List.concat (map entry_bytes es)) = Some es.
Proof.
  induction 1 as [|e es R _ IH]; [reflexivity|].
  cbn [map List.concat]. now rewrite read_index_entry, IH.
Qed.

Lemma entries_tiles (objs : list Object.t) :
  forall nbs ns vs,
  List.length nbs = List.length objs ->
  tiles vs (entries ns vs objs nbs) (vs + corners objs).
Proof.
  induction objs as [|o objs IH]; intros [|nb nbs] ns vs E;
    try discriminate; cbn [entries corners tiles].
  - lia.
  - cbn [vertex_begin vertex_end].
    pose proof (len_nonneg (Mesh.polygons (Object.data o))).
    split; [reflexivity|]. split; [lia|].
    replace (vs + (3 * len (Mesh.polygons (Object.data o)) + corners objs))
      with (vs + len (Mesh.polygons (Object.data o)) * 3 + corners objs)
      by lia.
    apply IH. simpl in E. congruence.
Qed.

Lemma tiles_ascending (es : list entry) :
  forall lo hi, tiles lo es hi -> ascending es.
Proof.
  induction es as [|e1 es IH]; intros lo hi T; [exact I|].
  destruct es as [|e2 es]; [exact I|].
  cbn [tiles] in T. destruct T as (B1 & L1 & B2 & L2 & T).
  cbn [ascending]. split; [lia|]. split; [lia|].
  apply (IH (vertex_end e1) hi). cbn [tiles]. auto.
Qed.

Lemma entries_sizes (objs : list Object.t) :
  forall nbs ns vs,
  List.length nbs = List.length objs ->
  Forall2 (fun e obj =>
             vertex_end e - vertex_begin e
             = 3 * len (Mesh.polygons (Object.data obj)))
          (entries ns vs objs nbs) objs.
Proof.
  induction objs as [|o objs IH]; intros [|nb nbs] ns vs E;
    try discriminate; cbn [entries]; constructor.
  - cbn [vertex_begin vertex_end]. lia.
  - apply IH. simpl in E. congruence.
Qed.

Lemma entries_names (objs : list Object.t) :
  forall nbs pre vs,
  Forall2 (fun obj nb => utf8 (Object.name obj) = inr nb) objs nbs ->
  Forall2 (fun e obj =>
             utf8 (Object.name obj)
             = inr (slice (pre ++ List.concat nbs)
                          (name_begin e) (name_end e)))
          (entries (len pre) vs objs nbs) objs.
Proof.
  induction objs as [|o objs IH]; intros nbs pre vs F; inversion F; subst;
    cbn [entries]; constructor.
  - cbn [name_begin name_end List.concat]. now rewrite slice_app_exact.
  - cbn [List.concat]. rewrite app_assoc, <- len_app. now apply IH.
Qed.

(** ** The chunks *)

Lemma read_chunk_app (tag payload rest : bytes) :
  List.length tag = 4%nat -> u32_range (len payload) ->
  read_chunk (tag ++ le32 (len payload) ++ payload ++ rest)
  = Some (tag, payload, rest).
Proof.
  intros Lt Rp.
  destruct tag as [|t0 [|t1 [|t2 [|t3 [|]]]]]; try discriminate.
  unfold read_chunk.
  change (firstn 4 (skipn 4 ([t0; t1; t2; t3] ++ le32 (len payload)
                             ++ payload ++ rest)))
    with (le32 (len payload)).
  rewrite unpack_le32 by exact Rp.
  change (skipn 8 ([t0; t1; t2; t3] ++ le32 (len payload) ++ payload ++ rest))
    with (payload ++ rest).
  rewrite len_app.
  pose proof (len_nonneg rest).
  destruct (Z.leb_spec (len payload) (len payload + len rest)); [|lia].
  unfold len. rewrite Nat2Z.id.
  rewrite (firstn_app (List.length payload)), firstn_all, Nat.sub_diag,
    skipn_app, skipn_all, Nat.sub_diag.
  simpl. now rewrite app_nil_r.
Qed.

Lemma read_chunks_app (fuel : nat) (tag payload rest : bytes) :
  List.length tag = 4%nat -> u32_range (len payload) ->
  read_chunks (S fuel) (tag ++ le32 (len payload) ++ payload ++ rest)
  = option_map (cons (tag, payload)) (read_chunks fuel rest).
Proof.
  intros Lt Rp. cbn [read_chunks].
  rewrite (read_chunk_app _ _ _ Lt Rp).
  destruct tag; [discriminate | reflexivity].
Qed.

Lemma read_blob_chunks (d s i : bytes) :
  u32_range (len d) -> u32_range (len s) -> u32_range (len i) ->
  read_blob (chunk "dat0" d ++ chunk "str0" s ++ chunk "idx0" i)
  = Some [(list_byte_of_string "dat0", d); (list_byte_of_string "str0", s);
          (list_byte_of_string "idx0", i)].
Proof.
  intros Rd Rs Ri. unfold read_blob.
  remember (List.length _) as n eqn:En.
  assert (L : (4 <= n)%nat).
  { subst n. unfold chunk. rewrite !length_app. simpl. lia. }
  destruct n as [|[|[|[|n]]]]; try lia.
  unfold chunk. rewrite <- !app_assoc.
  rewrite read_chunks_app by (reflexivity || assumption).
  rewrite read_chunks_app by (reflexivity || assumption).
  rewrite <- (app_nil_r i) at 2.
  rewrite read_chunks_app by (reflexivity || assumption).
  now destruct n.
Qed.


Lemma open_wb_inr (path : pystr) (w w' : world) (u : unit) :
  open_wb path w = (inr u, w') ->
  Host.opens (host w) path = true /\ w' = with_blob w (Some []).
Proof.
  unfold open_wb. destruct (Host.opens (host w) path); [|discriminate].
  intros H. apply (f_equal snd) in H. cbn [snd] in H. now split.
Qed.

Lemma write_inr (b : bytes) (w w' : world) (u : unit) :
  write b w = (inr u, w') ->
  exists f, blob w = Some f
            /\ len (f ++ b) <= Host.room (host w)
            /\ w' = with_blob w (Some (f ++ b)).
Proof.
  unfold write. destruct (blob w) as [f|]; [|discriminate].
  destruct (Z.leb_spec (len (f ++ b)) (Host.room (host w))) as [Le|Gt];
    [|discriminate].
  intros H. apply (f_equal snd) in H. cbn [snd] in H. now exists f.
Qed.

Lemma tell_inr (w w' : world) (n : Z) :
  tell w = (inr n, w') -> exists f, blob w = Some f /\ n = len f /\ w' = w.
Proof.
  unfold tell. destruct (blob w) as [f|]; [|discriminate].
  intros H. exists f. split; [reflexivity|].
  split; [apply (f_equal fst) in H; cbn [fst] in H; now apply inr_inj in H|].
  apply (f_equal snd) in H. cbn [snd] in H. now subst.
Qed.

Lemma Some_inj {A : Type} (a b : A) : Some a = Some b -> a = b.
Proof. intros H. now inversion H. Qed.

Lemma with_blob_again (w : world) (a b : option bytes) :
  with_blob (with_blob w a) b = with_blob w b.
Proof. reflexivity. Qed.

Lemma stdout_with_blob (w : world) (a : option bytes) :
  stdout (with_blob w a) = stdout w.
Proof. reflexivity. Qed.

(** One step of [write_blob] that succeeded. *)
Ltac step_blob H :=
  let a := fresh "a" in
  let w1 := fresh "w" in
  let S := fresh "S" in
  let f := fresh "f" in
  let B := fresh "B" in
  apply bind_inr in H; destruct H as (a & w1 & S & H);
  lazymatch type of S with
  | open_wb _ _ = _ => apply open_wb_inr in S; destruct S as [_ S]; subst w1
  | write _ _ = _ =>
      apply write_inr in S; destruct S as (f & B & _ & S); subst w1;
      cbn [blob with_blob] in B; apply Some_inj in B; subst f
  | tell _ = _ =>
      apply tell_inr in S; destruct S as (f & B & S & ->); subst a;
      cbn [blob with_blob] in B; apply Some_inj in B; subst f
  | _ => step_prim S w1
  end;
  cbn [data strings index with_blob] in H.

Lemma write_blob_inr (outfile : pystr) (w w' : world) (u : unit) :
  write_blob outfile w = (inr u, w') ->
  let file := chunk "dat0" (data w) ++ chunk "str0" (strings w)
              ++ chunk "idx0" (index w) in
  u32_range (len (data w)) /\ u32_range (len (strings w))
  /\ u32_range (len (index w))
  /\ w' = with_stdout (with_blob w (Some file))
            (stdout w ++ [wrote (len file) (len (data w)) (len (strings w))
                                (len (index w)) outfile]).
Proof.
  unfold write_blob. intros H.
  do 23 step_blob H.
  apply print_inr in H. destruct H as [_ ->].
  repeat match goal with
    | E : pack_I _ = inr _ |- _ => apply pack_I_inr in E; destruct E as [-> ?]
    end.
  cbv zeta. repeat (split; [assumption|]).
  rewrite !with_blob_again, !stdout_with_blob.
  unfold wrote, chunk, pack_4s.
  cbn [app firstn repeat list_byte_of_string].
  rewrite <- !app_assoc. reflexivity.
Qed.

(** ** The whole run *)

Lemma write_objects_inr do_texcoord to_write w w' u :
  write_objects do_texcoord to_write w = (inr u, w') ->
  for_each to_write (write_object do_texcoord) w = (inr tt, w')
  /\ vertex_count w' * 28 = len (data w').
Proof.
  unfold write_objects. intros H.
  apply bind_inr in H. destruct H as ([] & w1 & L & H).
  do 2 step H. apply assert_inr in H. destruct H as [H ->].
  apply Z.eqb_eq in H. split; [exact L|]. lia.
Qed.

(** A run that fails before line 119 leaves [outfile] alone. *)
Lemma run_inl_before_open (h : Host.t) do_texcoord outfile to_write e w :
  write_objects do_texcoord to_write (start h) = (inl e, w) ->
  run h do_texcoord outfile to_write = (inl e, w) /\ blob w = None.
Proof.
  intros H. unfold run, script. rewrite (bind_run_inl _ _ _ _ _ H).
  split; [reflexivity|].
  pose proof (write_objects_same_blob do_texcoord to_write (start h)) as B.
  rewrite H in B. exact B.
Qed.

Lemma run_inr (h : Host.t) do_texcoord outfile to_write w u :
  run h do_texcoord outfile to_write = (inr u, w) ->
  exists nbs,
    Forall2 (fun obj nb => utf8 (Object.name obj) = inr nb) to_write nbs
    /\ strings w = List.concat nbs
    /\ index w = List.concat (map entry_bytes (entries 0 0 to_write nbs))
    /\ Forall entry_range (entries 0 0 to_write nbs)
    /\ len (data w) = corners to_write * record_size do_texcoord
    /\ len (data w) = corners to_write * 28
    /\ vertex_count w = corners to_write
    /\ u32_range (len (data w)) /\ u32_range (len (strings w))
    /\ u32_range (len (index w))
    /\ blob w = Some (chunk "dat0" (data w) ++ chunk "str0" (strings w)
                      ++ chunk "idx0" (index w))
    /\ last (stdout w) []
       = wrote (len (chunk "dat0" (data w) ++ chunk "str0" (strings w)
                     ++ chunk "idx0" (index w)))
               (len (data w)) (len (strings w)) (len (index w)) outfile
    /\ Forall (fun obj =>
                 Forall (fun poly => len (MeshPolygon.loop_indices poly) = 3)
                        (Mesh.polygons (Object.data obj))) to_write
    /\ Forall (fun obj =>
                 Mesh.polygons (Object.data obj) = []
                 \/ LoopColors.active (Mesh.vertex_colors (Object.data obj))
                    <> None) to_write
    /\ (do_texcoord = true ->
        Forall (fun obj =>
                  UVLoopLayers.count (Mesh.uv_layers (Object.data obj)) = 0%nat
                  -> In (uv_warning (Object.name obj)) (stdout w)) to_write).
Proof.
  unfold run, script. intros H.
  apply bind_inr in H. destruct H as (u1 & w1 & O & H).
  apply write_objects_inr in O. destruct O as [L C].
  apply write_all_inr in L.
  destruct L as (nbs & d & out & Fn & Hs & Hi & Fr & Hd & Ld & Hv & Ho & Hb
                 & Ft & Fc & Fw).
  apply write_blob_inr in H. cbv zeta in H.
  destruct H as (Rd & Rs & Ri & ->).
  cbn [start strings index data vertex_count stdout blob app
       with_stdout with_blob] in *.
  exists nbs. rewrite Hd, Hs, Hi, Hv in *.
  repeat (split; [first [assumption | reflexivity | lia]|]).
  split; [now rewrite last_last|].
  repeat (split; [assumption|]).
  intros T. specialize (Fw T). eapply Forall_impl; [|exact Fw].
  intros o Ho1 Z1. apply in_or_app. left. rewrite Ho. auto.
Qed.

(** ** The color of a corner *)

(** The color bytes of the record a successful corner appends. *)
Lemma write_corner_color do_texcoord mesh uvs poly i w w' u :
  write_corner do_texcoord mesh uvs poly i w = (inr u, w') ->
  exists layer v c col,
    LoopColors.active (Mesh.vertex_colors mesh) = Some layer
    /\ getitem (MeshPolygon.vertices poly) i = inr v
    /\ getitem layer v = inr c
    /\ pack_color (MeshLoopColor.color c) = inr col
    /\ color_at (data w') (len (data w)) = col.
Proof.
  intros H. apply write_corner_inr in H.
  destruct H as (li & loop & vertex & layer & c & col & tex & _ & _ & Hv & _
                 & Hl & Hc & Hp & _ & ->).
  exists layer, (MeshLoop.vertex_index loop), c, col.
  repeat (split; [assumption|]).
  cbn [data with_data]. unfold color_at.
  pose proof (len_pack_color _ _ Hp) as L4.
  set (A := List.concat (map pack_f (Vector.items (MeshVertex.co vertex)))).
  set (B := List.concat (map pack_f (Vector.items (MeshLoop.normal loop)))).
  replace (data w ++ A ++ B ++ col ++ tex)
    with ((data w ++ A ++ B) ++ col ++ tex) by now rewrite <- !app_assoc.
  replace (len (data w) + 24) with (len (data w ++ A ++ B))
    by (rewrite !len_app; subst A B; rewrite !len_items; lia).
  replace (len (data w) + 28) with (len (data w ++ A ++ B) + len col)
    by (rewrite !len_app; subst A B; rewrite !len_items; lia).
  apply slice_app_exact.
Qed.





(** ** Rounding of a product below 255 *)

Lemma digits2_pos_size (p : positive) : digits2_pos p = Pos.size p.
Proof. induction p; simpl; congruence. Qed.

Lemma Zdigits2_le (m k : Z) : 0 <= m < 2 ^ k -> 0 <= k -> Zdigits2 m <= k.
Proof.
  intros [H0 H1] Hk. destruct m as [|p|p]; simpl; try lia.
  rewrite digits2_pos_size.
  pose proof (Pos.size_le p) as L.
  assert (L' : 2 ^ Zpos (Pos.size p) <= 2 * Zpos p).
  { rewrite <- Pos2Z.inj_pow. change (2 * Zpos p) with (Zpos p~0).
    apply Pos2Z.pos_le_pos. exact L. }
  destruct (Z.le_gt_cases (Zpos (Pos.size p)) k) as [|G]; [assumption|].
  exfalso.
  assert (2 ^ (k + 1) <= 2 ^ Zpos (Pos.size p))
    by (apply Z.pow_le_mono_r; lia).
  rewrite Z.pow_add_r in H by lia. lia.
Qed.

Lemma Zdigits2_ge (p : positive) (k : Z) :
  Zdigits2 (Zpos p) = k -> 2 ^ k <= 2 * Zpos p /\ Zpos p < 2 ^ k.
Proof.
  simpl. rewrite digits2_pos_size. intros <-. split.
  - rewrite <- Pos2Z.inj_pow. change (2 * Zpos p) with (Zpos p~0).
    apply Pos2Z.pos_le_pos, Pos.size_le.
  - rewrite <- Pos2Z.inj_pow. apply Pos2Z.pos_lt_pos, Pos.size_gt.
Qed.

Lemma shr_1_m (mrs : shr_record) :
  0 <= shr_m mrs -> shr_m (shr_1 mrs) = shr_m mrs / 2.
Proof.
  destruct mrs as [m r s]. cbn [shr_m]. intros H.
  destruct m as [|[p|p|]|p]; cbn [shr_1 shr_m]; try reflexivity; try lia.
  - rewrite Pos2Z.pos_xI. apply Z.div_unique with 1; lia.
  - rewrite Pos2Z.pos_xO. apply Z.div_unique with 0; lia.
Qed.

Lemma iter_shr_1_m (p : positive) :
  forall mrs, 0 <= shr_m mrs ->
  shr_m (iter_pos shr_1 p mrs) = shr_m mrs / 2 ^ Zpos p.
Proof.
  induction p as [p IH|p IH|]; intros mrs H; cbn [iter_pos].
  - assert (H1 : 0 <= shr_m (shr_1 mrs))
      by (rewrite shr_1_m by assumption; apply Z.div_pos; lia).
    assert (H2 : 0 <= shr_m (iter_pos shr_1 p (shr_1 mrs)))
      by (rewrite IH by assumption; apply Z.div_pos; lia).
    rewrite IH, IH, shr_1_m by assumption.
    rewrite !Z.div_div by lia. f_equal.
    rewrite Pos2Z.pos_xI, Z.pow_add_r, Z.pow_mul_r, Z.pow_1_r by lia.
    change (2 ^ 2) with 4.
    replace (4 ^ Zpos p) with (2 ^ Zpos p * 2 ^ Zpos p)
      by (rewrite <- Z.pow_add_r by lia; replace (Zpos p + Zpos p)
            with (2 * Zpos p) by lia; rewrite Z.pow_mul_r by lia;
          reflexivity).
    lia.
  - assert (H2 : 0 <= shr_m (iter_pos shr_1 p mrs))
      by (rewrite IH by assumption; apply Z.div_pos; lia).
    rewrite IH, IH by assumption.
    rewrite Z.div_div by lia. f_equal.
    rewrite Pos2Z.pos_xO. rewrite <- Z.pow_add_r by lia. f_equal. lia.
  - rewrite shr_1_m by assumption. reflexivity.
Qed.

Lemma fexp_eq (z : Z) : fexp 53 1024 z = Z.max (z - 53) (-1074).
Proof. reflexivity. Qed.

Lemma shr_fexp_exact (M E : Z) :
  0 <= M ->
  exists mrs e',
    shr_fexp 53 1024 M E loc_Exact = (mrs, e')
    /\ e' = Z.max E (fexp 53 1024 (Zdigits2 M + E))
    /\ shr_m mrs = M / 2 ^ (e' - E).
Proof.
  intros H. unfold shr_fexp, shr. cbn [shr_record_of_loc].
  set (f := fexp 53 1024 (Zdigits2 M + E)).
  destruct (f - E) as [|p|p] eqn:En.
  - eexists _, _. split; [reflexivity|]. split; [lia|].
    cbn [shr_m]. now rewrite Z.sub_diag, Z.pow_0_r, Z.div_1_r.
  - eexists _, _. split; [reflexivity|]. split; [lia|].
    rewrite iter_shr_1_m by assumption. cbn [shr_m]. do 2 f_equal. lia.
  - eexists _, _. split; [reflexivity|]. split; [lia|].
    cbn [shr_m]. now rewrite Z.sub_diag, Z.pow_0_r, Z.div_1_r.
Qed.

Lemma round_nearest_even_le (m : Z) (l : location) :
  m <= round_nearest_even m l <= m + 1.
Proof.
  destruct l as [|[| |]]; cbn [round_nearest_even]; try lia.
  destruct (Z.even m); lia.
Qed.

Lemma pow2_pos (k : Z) : 0 <= k -> 0 < 2 ^ k.
Proof. intros. apply Z.pow_pos_nonneg; lia. Qed.

Lemma digits_below_256 (M E : Z) :
  0 <= M -> E <= 0 -> M <= 255 * 2 ^ (- E) -> Zdigits2 M + E <= 8.
Proof.
  intros H0 HE HM.
  assert (Zdigits2 M <= 8 - E); [|lia].
  apply Zdigits2_le; [|lia]. split; [assumption|].
  replace (8 - E) with (8 + - E) by lia.
  rewrite Z.pow_add_r by lia. pose proof (pow2_pos (- E)).
  change (2 ^ 8) with 256. lia.
Qed.

Lemma round_below_255 (s : bool) (M E : Z) :
  0 < M -> E <= -45 -> M < 255 * 2 ^ (- E) ->
  binary_round_aux 53 1024 s M E loc_Exact = S754_zero s
  \/ exists m p,
       binary_round_aux 53 1024 s M E loc_Exact = S754_finite s m (Zneg p)
       /\ Zpos m <= 255 * 2 ^ Zpos p.
Proof.
  intros H0 HE HM. unfold binary_round_aux.
  destruct (shr_fexp_exact M E) as (mrs1 & e1 & S1 & He1 & Hm1); [lia|].
  rewrite S1.
  set (m1 := round_nearest_even (shr_m mrs1) (loc_of_shr_record mrs1)).
  pose proof (digits_below_256 M E) as D1. rewrite fexp_eq in He1.
  assert (B1 : E <= e1 <= -45) by lia.
  assert (P1 : 2 ^ (- E) = 2 ^ (e1 - E) * 2 ^ (- e1)).
  { rewrite <- Z.pow_add_r by lia. f_equal. lia. }
  assert (L1 : 0 <= shr_m mrs1 < 255 * 2 ^ (- e1)).
  { rewrite Hm1. split.
    - apply Z.div_pos; [lia | apply pow2_pos; lia].
    - apply Z.div_lt_upper_bound; [apply pow2_pos; lia|].
      rewrite P1 in HM.
      replace (2 ^ (e1 - E) * (255 * 2 ^ (- e1)))
        with (255 * (2 ^ (e1 - E) * 2 ^ (- e1))) by ring.
      exact HM. }
  pose proof (round_nearest_even_le (shr_m mrs1) (loc_of_shr_record mrs1))
    as R1. fold m1 in R1.
  destruct (shr_fexp_exact m1 e1) as (mrs2 & e2 & S2 & He2 & Hm2); [lia|].
  rewrite S2.
  pose proof (digits_below_256 m1 e1) as D2. rewrite fexp_eq in He2.
  assert (B2 : e1 <= e2 <= -45) by lia.
  assert (P2 : 2 ^ (- e1) = 2 ^ (e2 - e1) * 2 ^ (- e2)).
  { rewrite <- Z.pow_add_r by lia. f_equal. lia. }
  assert (L2 : 0 <= shr_m mrs2 <= 255 * 2 ^ (- e2)).
  { rewrite Hm2. split.
    - apply Z.div_pos; [lia | apply pow2_pos; lia].
    - apply Z.div_le_upper_bound; [apply pow2_pos; lia|].
      replace (2 ^ (e2 - e1) * (255 * 2 ^ (- e2)))
        with (255 * (2 ^ (e2 - e1) * 2 ^ (- e2))) by ring.
      rewrite <- P2. lia. }
  destruct (shr_m mrs2) as [|m|m]; [now left| |lia].
  right. destruct (Z.leb_spec e2 (1024 - 53)); [|lia].
  destruct e2 as [|p|p]; try lia.
  exists m, p. split; [reflexivity|]. exact (proj2 L2).
Qed.

Lemma int_of_float_below_255 (m p : positive) :
  Zpos m <= 255 * 2 ^ Zpos p ->
  exists k, int_of_float (S754_finite false m (Zneg p)) = inr k
            /\ 0 <= k <= 255.
Proof.
  intros H. cbn [int_of_float cond_Zopp]. eexists. split; [reflexivity|].
  rewrite Z.pow_pos_fold. pose proof (pow2_pos (Zpos p)).
  rewrite Z.quot_div_nonneg by lia. split.
  - apply Z.div_pos; lia.
  - apply Z.div_le_upper_bound; lia.
Qed.

Lemma compare_cont_le (m n : positive) :
  match Pos.compare_cont Eq m n with Gt => false | _ => true end = true ->
  (m <= n)%positive.
Proof.
  intros H E. unfold Pos.compare in E. rewrite E in H. discriminate.
Qed.

(** A channel in [0, 1] is converted to an integer of [0, 255]. *)
Lemma channel_in_range (x : float) :
  normalized x = true ->
  exists k, int_of_float (fmul x (float_of_int 255)) = inr k
            /\ 0 <= k <= 255.
Proof.
  unfold normalized. intros N.
  apply andb_prop in N. destruct N as [N L1].
  apply andb_prop in N. destruct N as [V L0].
  destruct x as [s|[|]| |[|] m e]; try discriminate.
  - exists 0. split; [reflexivity | lia].
  - change (float_of_int 1) with (S754_finite false 4503599627370496 (-52))
      in L1.
    unfold fmul, float_of_int.
    change (binary_normalize 53 1024 255 0 false)
      with (S754_finite false 8972014882652160 (-45)).
    cbn [SFmul xorb]. cbn [valid_binary] in V.
    unfold bounded, canonical_mantissa in V.
    apply andb_prop in V. destruct V as [C _]. apply Z.eqb_eq in C.
    rewrite fexp_eq in C.
    destruct (Zdigits2_ge m _ eq_refl) as [G1 G2].
    change (Zdigits2 (Zpos m)) with (Zpos (digits2_pos m)) in G1, G2.
    unfold SFleb, SFcompare in L1.
    destruct (Z.compare_spec e (-52)) as [Ee|Ee|Ee]; try discriminate.
    + (* e = -52: the value is 1.0 *)
      assert (D : Zpos (digits2_pos m) = 53) by lia.
      rewrite D in G1. change (2 ^ 53) with 9007199254740992 in G1.
      assert (Zpos m <= 4503599627370496).
      { apply compare_cont_le, Pos2Z.pos_le_pos in L1. exact L1. }
      assert (m = 4503599627370496%positive) by lia. subst m e.
      exists 255. split; [vm_compute; reflexivity | lia].
    + (* e < -52: the value is below 1.0 *)
      assert (D : Zpos (digits2_pos m) <= 53) by lia.
      assert (Zpos m < 2 ^ 53).
      { eapply Z.lt_le_trans; [exact G2|]. apply Z.pow_le_mono_r; lia. }
      destruct (round_below_255 false (Zpos (m * 8972014882652160))
                  (e + -45)) as [Z0 | (m' & p & F & B)].
      * lia.
      * lia.
      * rewrite Pos2Z.inj_mul.
        replace (- (e + -45)) with (53 + 45 + (- e - 53)) by lia.
        rewrite !Z.pow_add_r by lia. pose proof (pow2_pos (- e - 53)).
        change (2 ^ 53) with 9007199254740992 in *.
        change (2 ^ 45) with 35184372088832. nia.
      * rewrite Z0. exists 0. split; [reflexivity | lia].
      * rewrite F. now apply int_of_float_below_255.
Qed.

(** The texture coordinates written for a mesh without uv layer. *)
Lemma write_corner_zero_texcoord mesh poly i w w' u :
  write_corner true mesh None poly i w = (inr u, w') ->
  texcoord_at (data w') (len (data w))
  = pack_f (float_of_int 0) ++ pack_f (float_of_int 0)
  /\ unpack_f (pack_f (float_of_int 0)) = Some (S754_zero false).
Proof.
  intros H. apply write_corner_inr in H.
  destruct H as (li & loop & vertex & layer & c & col & tex & _ & _ & _ & _
                 & _ & _ & Hp & Ht & ->).
  split; [|reflexivity].
  cbn [texcoord_bytes] in Ht. subst tex.
  cbn [data with_data]. unfold texcoord_at.
  pose proof (len_pack_color _ _ Hp) as L4.
  set (A := List.concat (map pack_f (Vector.items (MeshVertex.co vertex)))).
  set (B := List.concat (map pack_f (Vector.items (MeshLoop.normal loop)))).
  set (T := pack_f (float_of_int 0) ++ pack_f (float_of_int 0)).
  replace (data w ++ A ++ B ++ col ++ T)
    with ((data w ++ A ++ B ++ col) ++ T ++ [])
    by now rewrite app_nil_r, <- !app_assoc.
  replace (len (data w) + 28) with (len (data w ++ A ++ B ++ col))
    by (rewrite !len_app; subst A B; rewrite !len_items; lia).
  replace (len (data w) + 36) with (len (data w ++ A ++ B ++ col) + len T)
    by (rewrite !len_app; subst A B T; rewrite !len_items, !len_app,
          !len_pack_f; lia).
  apply slice_app_exact.
Qed.

(** ** The decimal text of a number *)

Lemma lit_uint_digits (d : Decimal.uint) :
  forallb digit (lit (NilEmpty.string_of_uint d)) = true.
Proof.
  induction d as [|d IH|d IH|d IH|d IH|d IH|d IH|d IH|d IH|d IH|d IH];
    [reflexivity|..]; exact IH.
Qed.



Lemma str_nonneg (n : Z) :
  0 <= n ->
  exists d, d <> Decimal.Nil
            /\ str n = lit (NilEmpty.string_of_uint d)
            /\ Z.of_N (Pos.of_uint d) = n.
Proof.
  intros H. destruct n as [|p|p]; [| |lia].
  - exists (Decimal.D0 Decimal.Nil). repeat split. discriminate.
  - exists (Pos.to_uint p).
    pose proof (Unsigned.to_uint_nonnil p) as N.
    split; [exact N|]. split.
    + unfold str. cbn [Z.to_int NilZero.string_of_int].
      unfold NilZero.string_of_uint.
      destruct (Pos.to_uint p); [contradiction|reflexivity..].
    + now rewrite Unsigned.of_to.
Qed.


Lemma str_digits (n : Z) : 0 <= n -> forallb digit (str n) = true.
Proof.
  intros H. destruct (str_nonneg n H) as (d & _ & -> & _).
  apply lit_uint_digits.
Qed.

(** ** The binary64 product against the exact one *)











(** * The claims *)

Lemma Forall2_length_eq {A B : Type} (R : A -> B -> Prop) l1 l2 :
  Forall2 R l1 l2 -> List.length l2 = List.length l1.
Proof. induction 1; simpl; congruence. Qed.

Lemma corners_positive (to_write : list Object.t) :
  Exists (fun obj => Mesh.polygons (Object.data obj) <> []) to_write ->
  0 < corners to_write.
Proof.
  induction 1 as [obj objs N | obj objs _ IH]; cbn [corners].
  - assert (0 <= corners objs).
    { clear. induction objs as [|o objs IH]; cbn [corners]; [lia|].
      pose proof (len_nonneg (Mesh.polygons (Object.data o))). lia. }
    destruct (Mesh.polygons (Object.data obj)); [contradiction|].
    unfold len in *. simpl List.length. lia.
  - pose proof (len_nonneg (Mesh.polygons (Object.data obj))). lia.
Qed.

(** An input on which the loop over [to_write] cannot complete makes the run
    abort before the file is opened. *)
Lemma aborts_unless (h : Host.t) do_texcoord outfile to_write (P : Prop) :
  (forall w u,
     write_objects do_texcoord to_write (start h) = (inr u, w) -> P) ->
  ~ P -> aborts h do_texcoord outfile to_write.
Proof.
  intros H N.
  destruct (write_objects do_texcoord to_write (start h)) as [[e|u] w] eqn:E.
  - exists e, w. now apply run_inl_before_open.
  - exfalso. apply N. eapply H. reflexivity.
Qed.

(** C1. In every exported file the geometry payload is [vertex_count]
    records long, a record being 28 bytes without texture coordinates and
    36 with them, and [vertex_count] is the number of triangle corners of
    all meshes. *)
Theorem geometry_payload_length (h : Host.t) do_texcoord outfile to_write w :
  run h do_texcoord outfile to_write = (inr tt, w) ->
  exists file d s i,
    blob w = Some file
    /\ read_blob file = Some (three_chunks d s i)
    /\ vertex_count w = corners to_write
    /\ len d = vertex_count w * record_size do_texcoord.
Proof.
  intros H. apply run_inr in H.
  destruct H as (nbs & _ & _ & _ & _ & Ld & _ & Hv & Rd & Rs & Ri & Hb & _).
  exists (chunk "dat0" (data w) ++ chunk "str0" (strings w)
          ++ chunk "idx0" (index w)), (data w), (strings w), (index w).
  split; [exact Hb|]. split; [now apply read_blob_chunks|].
  split; [exact Hv|]. now rewrite Hv.
Qed.

Lemma geometry_payload_length_witness :
  exists file d s i,
    blob (snd (run Scene.machine false Scene.out [Scene.Tri; Scene.Seam])) = Some file
    /\ read_blob file = Some (three_chunks d s i)
    /\ vertex_count (snd (run Scene.machine false Scene.out [Scene.Tri; Scene.Seam]))
       = corners [Scene.Tri; Scene.Seam]
    /\ len d = vertex_count (snd (run Scene.machine false Scene.out [Scene.Tri; Scene.Seam]))
               * record_size false.
Proof.
  apply (geometry_payload_length Scene.machine false Scene.out [Scene.Tri; Scene.Seam]).
  vm_compute. reflexivity.
Defined.

(** C2. A polygon that does not have three corners makes the run abort, and
    nothing is written to [outfile]. *)
Theorem non_triangle_aborts (h : Host.t) do_texcoord outfile to_write :
  Exists (fun obj =>
            Exists (fun poly => len (MeshPolygon.loop_indices poly) <> 3)
                   (Mesh.polygons (Object.data obj))) to_write ->
  aborts h do_texcoord outfile to_write.
Proof.
  intros E.
  apply (aborts_unless _ _ _ _
           (Forall (fun obj =>
                      Forall (fun poly =>
                                len (MeshPolygon.loop_indices poly) = 3)
                             (Mesh.polygons (Object.data obj))) to_write)).
  - intros w u H. apply write_objects_inr in H. destruct H as [H _].
    apply write_all_inr in H.
    destruct H as (? & ? & ? & _ & _ & _ & _ & _ & _ & _ & _ & _ & F & _).
    exact F.
  - intros F. rewrite Forall_forall in F. apply Exists_exists in E.
    destruct E as (obj & I & E). specialize (F obj I).
    rewrite Forall_forall in F. apply Exists_exists in E.
    destruct E as (poly & Ip & N). apply N. now apply F.
Qed.

Lemma non_triangle_aborts_witness :
  aborts Scene.machine true Scene.out [Scene.Tri; Scene.Quad].
Proof.
  apply non_triangle_aborts.
  apply Exists_cons_tl, Exists_cons_hd, Exists_cons_hd.
  vm_compute. discriminate.
Defined.

(** C3. In every exported file the index records, in processing order, are
    ascending in [vertex_begin] and [vertex_end], tile [0, vertex_count)
    without gap or overlap, and each spans three vertices per triangle of its
    mesh. *)
Theorem index_ranges_partition (h : Host.t) do_texcoord outfile to_write w :
  run h do_texcoord outfile to_write = (inr tt, w) ->
  exists file d s i es,
    blob w = Some file
    /\ read_blob file = Some (three_chunks d s i)
    /\ read_index i = Some es
    /\ ascending es
    /\ tiles 0 es (vertex_count w)
    /\ Forall2 (fun e obj =>
                  vertex_end e - vertex_begin e
                  = 3 * len (Mesh.polygons (Object.data obj))
                  /\ Forall (fun poly =>
                               len (MeshPolygon.loop_indices poly) = 3)
                            (Mesh.polygons (Object.data obj)))
               es to_write.
Proof.
  intros H. apply run_inr in H.
  destruct H as (nbs & Fn & _ & Hi & Fr & _ & _ & Hv & Rd & Rs & Ri & Hb & _
                 & Ft & _).
  pose proof (Forall2_length_eq _ _ _ Fn) as Ln.
  exists (chunk "dat0" (data w) ++ chunk "str0" (strings w)
          ++ chunk "idx0" (index w)), (data w), (strings w), (index w),
    (entries 0 0 to_write nbs).
  split; [exact Hb|]. split; [now apply read_blob_chunks|].
  split; [rewrite Hi; now apply read_index_entries|].
  pose proof (entries_tiles to_write nbs 0 0 Ln) as T. rewrite Hv.
  split; [exact (tiles_ascending _ _ _ T)|]. split; [exact T|].
  pose proof (entries_sizes to_write nbs 0 0 Ln) as S.
  clear - S Ft. induction S; inversion Ft; subst; constructor; auto.
Qed.

Lemma index_ranges_partition_witness :
  exists file d s i es,
    blob (snd (run Scene.machine false Scene.out [Scene.Seam; Scene.Points; Scene.Tri]))
    = Some file
    /\ read_blob file = Some (three_chunks d s i)
    /\ read_index i = Some es
    /\ ascending es
    /\ tiles 0 es
         (vertex_count
            (snd (run Scene.machine false Scene.out [Scene.Seam; Scene.Points; Scene.Tri])))
    /\ Forall2 (fun e obj =>
                  vertex_end e - vertex_begin e
                  = 3 * len (Mesh.polygons (Object.data obj))
                  /\ Forall (fun poly =>
                               len (MeshPolygon.loop_indices poly) = 3)
                            (Mesh.polygons (Object.data obj)))
               es [Scene.Seam; Scene.Points; Scene.Tri].
Proof.
  apply (index_ranges_partition Scene.machine false Scene.out
           [Scene.Seam; Scene.Points; Scene.Tri]).
  vm_compute. reflexivity.
Defined.

(** C4. In every exported file the bytes of the strings payload between
    [name_begin] and [name_end] of a record decode to the name of its mesh,
    and the payload is the encoded names one after the other. *)
Theorem names_recoverable (h : Host.t) do_texcoord outfile to_write w :
  run h do_texcoord outfile to_write = (inr tt, w) ->
  exists file d s i es nbs,
    blob w = Some file
    /\ read_blob file = Some (three_chunks d s i)
    /\ read_index i = Some es
    /\ Forall2 (fun e obj =>
                  utf8_decode (slice s (name_begin e) (name_end e))
                  = Some (Object.name obj)) es to_write
    /\ Forall2 (fun obj nb => utf8 (Object.name obj) = inr nb) to_write nbs
    /\ s = List.concat nbs.
Proof.
  intros H. apply run_inr in H.
  destruct H as (nbs & Fn & Hs & Hi & Fr & _ & _ & _ & Rd & Rs & Ri & Hb & _).
  exists (chunk "dat0" (data w) ++ chunk "str0" (strings w)
          ++ chunk "idx0" (index w)), (data w), (strings w), (index w),
    (entries 0 0 to_write nbs), nbs.
  split; [exact Hb|]. split; [now apply read_blob_chunks|].
  split; [rewrite Hi; now apply read_index_entries|].
  split; [|now split].
  pose proof (entries_names to_write nbs [] 0 Fn) as N.
  cbn [app] in N. rewrite Hs. change (len []) with 0 in N.
  eapply Forall2_impl; [|exact N].
  intros e obj E. now apply utf8_decode_utf8.
Qed.

Lemma names_recoverable_witness :
  exists file d s i es nbs,
    blob (snd (run Scene.machine false Scene.out [Scene.Cafe; Scene.Tri])) = Some file
    /\ read_blob file = Some (three_chunks d s i)
    /\ read_index i = Some es
    /\ Forall2 (fun e obj =>
                  utf8_decode (slice s (name_begin e) (name_end e))
                  = Some (Object.name obj)) es [Scene.Cafe; Scene.Tri]
    /\ Forall2 (fun obj nb => utf8 (Object.name obj) = inr nb)
               [Scene.Cafe; Scene.Tri] nbs
    /\ s = List.concat nbs.
Proof.
  apply (names_recoverable Scene.machine false Scene.out [Scene.Cafe; Scene.Tri]).
  vm_compute. reflexivity.
Defined.



(** The line of the scene [Tri], letter by letter. *)
Example report_of_Tri :
  last (stdout (snd (run Scene.machine false Scene.out [Scene.Tri]))) []
  = lit "Wrote 127 bytes [== 92 bytes of data + 11 bytes of strings + 24 bytes of index] to 'out.blob'".
Proof. vm_compute. reflexivity. Qed.

(** C9, as the specification states it, fails: a mesh without polygons is
    exported although it has no color layer. *)
Lemma no_color_layer_counterexample :
  ~ (forall h do_texcoord outfile to_write,
       Exists (fun obj =>
                 LoopColors.active (Mesh.vertex_colors (Object.data obj))
                 = None) to_write ->
       aborts h do_texcoord outfile to_write).
Proof.
  intros H.
  destruct (H Scene.machine false Scene.out [Scene.Points])
    as (e & w & R & _).
  - apply Exists_cons_hd. reflexivity.
  - vm_compute in R. discriminate.
Qed.

(** C9, amended. A mesh that has a polygon and no active color layer makes
    the run abort, and nothing is written to [outfile]. *)
Theorem no_color_layer_aborts (h : Host.t) do_texcoord outfile to_write :
  Exists (fun obj =>
            LoopColors.active (Mesh.vertex_colors (Object.data obj)) = None
            /\ Mesh.polygons (Object.data obj) <> []) to_write ->
  aborts h do_texcoord outfile to_write.
Proof.
  intros E.
  apply (aborts_unless _ _ _ _
           (Forall (fun obj =>
                      Mesh.polygons (Object.data obj) = []
                      \/ LoopColors.active
                           (Mesh.vertex_colors (Object.data obj)) <> None)
                   to_write)).
  - intros w u H. apply write_objects_inr in H. destruct H as [H _].
    apply write_all_inr in H.
    destruct H as (? & ? & ? & _ & _ & _ & _ & _ & _ & _ & _ & _ & _ & F & _).
    exact F.
  - intros F. rewrite Forall_forall in F. apply Exists_exists in E.
    destruct E as (obj & I & N & P). destruct (F obj I); contradiction.
Qed.

Lemma no_color_layer_aborts_witness :
  aborts Scene.machine false Scene.out [Scene.Tri; Scene.Grey].
Proof.
  apply no_color_layer_aborts.
  apply Exists_cons_tl, Exists_cons_hd.
  split; [reflexivity | discriminate].
Defined.

(** C10. The check of line 116 multiplies by 28 whatever [do_texcoord] is.
    With [do_texcoord] set, a loop over [to_write] that completes with at
    least one vertex has written 36 bytes per vertex; the check fails and
    nothing is written to [outfile]. *)
Theorem texcoord_check_fails (h : Host.t) outfile to_write w u :
  for_each to_write (write_object true) (start h) = (inr u, w) ->
  0 < vertex_count w ->
  len (data w) = vertex_count w * 36
  /\ vertex_count w * (4 * 3 + 4 * 3 + 4 * 1) <> len (data w)
  /\ run h true outfile to_write = (inl (AssertionError check_data_length), w)
  /\ blob w = None.
Proof.
  intros H P.
  pose proof H as L. apply write_all_inr in L.
  destruct L as (nbs & d & out & _ & _ & _ & _ & Hd & Ld & Hv & _).
  cbn [start data vertex_count app] in Hd, Hv.
  assert (E : len (data w) = vertex_count w * 36).
  { rewrite Hd, Ld, Hv. reflexivity. }
  assert (N : vertex_count w * (4 * 3 + 4 * 3 + 4 * 1) <> len (data w)) by lia.
  split; [exact E|]. split; [exact N|].
  apply run_inl_before_open. unfold write_objects.
  destruct u. rewrite (bind_run_inr _ _ _ _ _ H). unfold bind, gets.
  apply Z.eqb_neq in N. rewrite N. reflexivity.
Qed.

Lemma texcoord_check_fails_witness :
  len (data (snd (for_each [Scene.Tri] (write_object true) (start Scene.machine))))
  = vertex_count (snd (for_each [Scene.Tri] (write_object true) (start Scene.machine))) * 36
  /\ vertex_count (snd (for_each [Scene.Tri] (write_object true) (start Scene.machine)))
     * (4 * 3 + 4 * 3 + 4 * 1)
     <> len (data (snd (for_each [Scene.Tri] (write_object true) (start Scene.machine))))
  /\ run Scene.machine true Scene.out [Scene.Tri]
     = (inl (AssertionError check_data_length),
        snd (for_each [Scene.Tri] (write_object true) (start Scene.machine)))
  /\ blob (snd (for_each [Scene.Tri] (write_object true) (start Scene.machine))) = None.
Proof.
  apply (texcoord_check_fails Scene.machine Scene.out [Scene.Tri] _ tt).
  - vm_compute. reflexivity.
  - vm_compute. reflexivity.
Defined.

(** C8, at an input where the code does not do what the specification
    says: with [do_texcoord] set, a triangle without a uv layer gets the
    warning, and then the check of line 116 stops the run. *)
Lemma texcoord_without_uv_aborts :
  UVLoopLayers.count (Mesh.uv_layers (Object.data Scene.Tri)) = 0%nat
  /\ fst (run Scene.machine true Scene.out [Scene.Tri])
     = inl (AssertionError check_data_length)
  /\ blob (snd (run Scene.machine true Scene.out [Scene.Tri])) = None
  /\ In (uv_warning (Object.name Scene.Tri))
        (stdout (snd (run Scene.machine true Scene.out [Scene.Tri]))).
Proof.
  split; [reflexivity|]. split; [vm_compute; reflexivity|].
  split; [vm_compute; reflexivity|].
  vm_compute. right. left. reflexivity.
Qed.




(** C7. The color of a corner is the entry of the active color layer at
    [poly.vertices[i]], the index of its vertex in the mesh.  In the scene
    [Seam] vertex 0 belongs to a red and to a blue corner; the blue corner,
    loop 3, is written with the entry of vertex 0, which is red. *)
Theorem color_by_vertex_index :
  (forall do_texcoord mesh uvs poly i w w' u,
     write_corner do_texcoord mesh uvs poly i w = (inr u, w') ->
     exists layer v c col,
       LoopColors.active (Mesh.vertex_colors mesh) = Some layer
       /\ getitem (MeshPolygon.vertices poly) i = inr v
       /\ getitem layer v = inr c
       /\ pack_color (MeshLoopColor.color c) = inr col
       /\ color_at (data w') (len (data w)) = col)
  /\ (exists obj poly i li layer own col w,
        nth_error (Mesh.polygons (Object.data obj)) 1 = Some poly
        /\ LoopColors.active (Mesh.vertex_colors (Object.data obj))
           = Some layer
        /\ getitem (MeshPolygon.loop_indices poly) i = inr li
        /\ getitem layer li = inr own
        /\ pack_color (MeshLoopColor.color own) = inr col
        /\ run Scene.machine false Scene.out [obj] = (inr tt, w)
        /\ color_at (data w) (28 * (3 * 1 + Z.of_nat i)) <> col).
Proof.
  split.
  - intros do_texcoord mesh uvs poly i w w' u H.
    now apply write_corner_color in H.
  - exists Scene.Seam, Scene.seam_poly, 0%nat, 3%nat,
      [Scene.red; Scene.red; Scene.red; Scene.blue; Scene.blue; Scene.blue],
      Scene.blue, [x00; x00; xff; xff],
      (snd (run Scene.machine false Scene.out [Scene.Seam])).
    repeat (split; [vm_compute; reflexivity|]).
    vm_compute. discriminate.
Qed.

Lemma color_by_vertex_index_witness :
  exists layer v c col,
    LoopColors.active (Mesh.vertex_colors Scene.seam_mesh) = Some layer
    /\ getitem (MeshPolygon.vertices Scene.seam_poly) 0 = inr v
    /\ getitem layer v = inr c
    /\ pack_color (MeshLoopColor.color c) = inr col
    /\ color_at
         (data (snd (write_corner false Scene.seam_mesh None Scene.seam_poly
                                  0 (start Scene.machine))))
         (len (data (start Scene.machine))) = col.
Proof.
  apply (proj1 color_by_vertex_index false Scene.seam_mesh None
           Scene.seam_poly 0%nat (start Scene.machine) _ tt).
  vm_compute. reflexivity.
Defined.

(** With [do_texcoord] set, no input with a polygon is exported. *)
Lemma texcoord_with_polygon_aborts (h : Host.t) outfile to_write :
  Exists (fun obj => Mesh.polygons (Object.data obj) <> []) to_write ->
  aborts h true outfile to_write.
Proof.
  intros E. apply corners_positive in E.
  apply (aborts_unless _ _ _ _ (corners to_write = 0)); [|lia].
  intros w u H. apply write_objects_inr in H. destruct H as [H C].
  apply write_all_inr in H.
  destruct H as (nbs & d & out & _ & _ & _ & _ & Hd & Ld & Hv & _).
  cbn [start data vertex_count app] in Hd, Hv.
  rewrite Hd, Ld, Hv in C. cbn [record_size] in C. lia.
Qed.

(** ** The scenarios of the specification *)

(** One red triangle named "Tri", no texture coordinates: 84 bytes of
    geometry, each corner colored (255, 0, 0, 255), the name as it is, one
    index record (0, 3, 0, 3). *)
Example scenario_Tri :
  exists w file d s,
    run Scene.machine false Scene.out [Scene.Tri] = (inr tt, w)
    /\ blob w = Some file
    /\ read_blob file
       = Some (three_chunks d s (entry_bytes {| name_begin := 0;
                                                name_end := 3;
                                                vertex_begin := 0;
                                                vertex_end := 3 |}))
    /\ len d = 84
    /\ color_at d 0 = [xff; x00; x00; xff]
    /\ color_at d 28 = [xff; x00; x00; xff]
    /\ color_at d 56 = [xff; x00; x00; xff]
    /\ utf8_decode s = Some (lit "Tri").
Proof.
  eexists _, _, _, _. split; [vm_compute; reflexivity|].
  split; [reflexivity|]. split; [vm_compute; reflexivity|].
  repeat split; vm_compute; reflexivity.
Qed.

(** Two triangles, then one: the records end in (0, 6) and (6, 9). *)
Example scenario_two_meshes :
  exists w es,
    run Scene.machine false Scene.out [Scene.Seam; Scene.Tri] = (inr tt, w)
    /\ read_index (index w) = Some es
    /\ map (fun e => (vertex_begin e, vertex_end e)) es = [(0, 6); (6, 9)]
    /\ vertex_count w = 9.
Proof.
  eexists _, _. split; [vm_compute; reflexivity|].
  split; [vm_compute; reflexivity|]. split; reflexivity.
Qed.

(** * Further properties *)

(** ** The command line *)

Lemma str_eqb_eq (a b : pystr) : str_eqb a b = true <-> a = b.
Proof.
  revert b. induction a as [|x a IH]; intros [|y b]; simpl;
    try (split; [discriminate | discriminate]); [tauto|].
  rewrite andb_true_iff, Z.eqb_eq, IH. split.
  - intros [-> ->]. reflexivity.
  - intros E. inversion E. auto.
Qed.

Lemma scan_args_none (argv args : list pystr) :
  ~ In (lit "--") argv -> scan_args argv args = args.
Proof.
  revert args. induction argv as [|a argv IH]; intros args N; simpl.
  - reflexivity.
  - destruct (str_eqb a (lit "--")) eqn:E.
    + apply str_eqb_eq in E. subst a. exfalso. apply N. now left.
    + apply IH. intros I. apply N. now right.
Qed.

Lemma scan_args_last (pre post args : list pystr) :
  ~ In (lit "--") post ->
  scan_args (pre ++ lit "--" :: post) args = post.
Proof.
  revert args. induction pre as [|a pre IH]; intros args N.
  - cbn [app scan_args].
    replace (str_eqb (lit "--") (lit "--")) with true by reflexivity.
    now apply scan_args_none.
  - cbn [app scan_args]. now apply IH.
Qed.

Lemma scan_args_cases (argv args : list pystr) :
  (~ In (lit "--") argv /\ scan_args argv args = args)
  \/ exists pre, argv = pre ++ lit "--" :: scan_args argv args
                 /\ ~ In (lit "--") (scan_args argv args).
Proof.
  revert args. induction argv as [|a argv IH]; intros args.
  - left. split; [intros [] | reflexivity].
  - cbn [scan_args]. destruct (str_eqb a (lit "--")) eqn:E.
    + apply str_eqb_eq in E. subst a. right.
      destruct (IH argv) as [[N R] | (pre & R & N)].
      * exists []. rewrite R. split; [reflexivity | exact N].
      * exists (lit "--" :: pre). split; [|exact N].
        cbn [app]. f_equal. exact R.
    + destruct (IH args) as [[N R] | (pre & R & N)].
      * left. split; [|exact R]. intros [I|I]; [|contradiction].
        subst a. assert (T : str_eqb (lit "--") (lit "--") = true)
          by reflexivity. congruence.
      * right. exists (a :: pre). split; [|exact N].
        cbn [app]. f_equal. exact R.
Qed.

(** X1. The arguments of the script are what follows the last [--] of the
    command line. *)
Theorem parse_args_after_last_dashes (pre post : list pystr) :
  ~ In (lit "--") post -> parse_args (pre ++ lit "--" :: post) = post.
Proof. intros N. unfold parse_args. now apply scan_args_last. Qed.

Lemma parse_args_after_last_dashes_witness :
  parse_args ([lit "blender"; lit "--"; lit "a"]
              ++ lit "--" :: [lit "b"; lit "c"])
  = [lit "b"; lit "c"].
Proof.
  apply (parse_args_after_last_dashes [lit "blender"; lit "--"; lit "a"]
           [lit "b"; lit "c"]).
  vm_compute. intros [H|[H|[]]]; discriminate H.
Defined.

(** X2. The script goes on to open [infile] exactly when the command line
    ends in [--], [infile], [outfile], neither of the two being [--]. *)
Theorem command_line_accepts (argv : list pystr) (infile outfile : pystr) :
  command_line argv = inr (infile, outfile)
  <-> exists pre,
        argv = pre ++ [lit "--"; infile; outfile]
        /\ infile <> lit "--" /\ outfile <> lit "--".
Proof.
  unfold command_line, parse_args. split.
  - destruct (scan_args_cases argv []) as [[N R] | (pre & R & N)].
    + rewrite R. discriminate.
    + destruct (scan_args argv []) as [|a [|b [|c r]]] eqn:E;
        try discriminate.
      * cbn [len List.length negb nth Z.eqb Z.of_nat Pos.of_succ_nat Pos.succ
             Pos.eqb]. intros H. apply inr_inj in H. inversion H; subst.
        exists pre. split; [first [exact R | reflexivity]|].
        split; intros ->; apply N; [now left | now right; left].
      * destruct (Z.eqb_spec (len (a :: b :: c :: r)) 2) as [L|L];
          [|discriminate].
        unfold len in L. simpl List.length in L. lia.
  - intros (pre & -> & Ni & No).
    rewrite scan_args_last; [reflexivity|].
    intros [H|[H|[]]]; congruence.
Qed.

Lemma command_line_accepts_witness :
  command_line [lit "blender"; lit "--background"; lit "--python";
                lit "export-meshes.py"; lit "--"; lit "in.blend";
                lit "out.blob"]
  = inr (lit "in.blend", lit "out.blob").
Proof.
  apply (proj2 (command_line_accepts _ _ _)).
  exists [lit "blender"; lit "--background"; lit "--python";
          lit "export-meshes.py"].
  split; [reflexivity|]. split; vm_compute; discriminate.
Defined.

(** X3. Without [--] on the command line the script prints the usage text
    and exits with status 1. *)
Theorem command_line_usage (argv : list pystr) :
  ~ In (lit "--") argv -> command_line argv = inl ([usage], 1).
Proof.
  intros N. unfold command_line, parse_args.
  now rewrite scan_args_none.
Qed.

Lemma command_line_usage_witness :
  command_line [lit "blender"; lit "--background"; lit "--python";
                lit "export-meshes.py"]
  = inl ([usage], 1).
Proof.
  apply command_line_usage.
  vm_compute. intros [H|[H|[H|[H|[]]]]]; discriminate H.
Defined.

(** ** The commands compute the geometry values *)

Lemma with_data_id (w : world) : with_data w (data w ++ []) = w.
Proof. destruct w. unfold with_data. simpl. now rewrite app_nil_r. Qed.

Lemma with_data_app (w : world) (a b : bytes) :
  with_data (with_data w (data w ++ a)) (data (with_data w (data w ++ a)) ++ b)
  = with_data w (data w ++ a ++ b).
Proof. unfold with_data. simpl. now rewrite <- app_assoc. Qed.

Lemma write_corner_spec do_texcoord mesh uvs poly i w :
  match corner_record do_texcoord mesh uvs poly i with
  | inr d =>
      write_corner do_texcoord mesh uvs poly i w
      = (inr tt, with_data w (data w ++ d))
  | inl e => fst (write_corner do_texcoord mesh uvs poly i w) = inl e
  end.
Proof.
  unfold write_corner, corner_record, texcoord_record, rbind, bind, lift,
    assert, ret, raise.
  destruct (getitem (MeshPolygon.loop_indices poly) i) as [e|li];
    [reflexivity|].
  destruct (getitem (Mesh.loops mesh) li) as [e|loop]; [reflexivity|].
  destruct (getitem (MeshPolygon.vertices poly) i) as [e|v]; [reflexivity|].
  destruct (MeshLoop.vertex_index loop =? v)%nat; cbn [negb];
    [|reflexivity].
  destruct (getitem (Mesh.vertices mesh) (MeshLoop.vertex_index loop))
    as [e|vertex]; [reflexivity|].
  rewrite !data_add_each.
  destruct (LoopColors.active (Mesh.vertex_colors mesh)) as [layer|];
    [|reflexivity].
  destruct (getitem layer v) as [e|c]; [reflexivity|].
  destruct (pack_color (MeshLoopColor.color c)) as [e|col]; [reflexivity|].
  unfold data_add at 1.
  destruct do_texcoord; [destruct uvs as [uvs|]|].
  - destruct (getitem uvs li) as [e|u]; [reflexivity|].
    unfold data_add. f_equal. unfold with_data. simpl.
    now rewrite <- !app_assoc.
  - unfold data_add. f_equal. unfold with_data. simpl.
    now rewrite <- !app_assoc.
  - f_equal. unfold with_data. simpl. now rewrite <- !app_assoc, app_nil_r.
Qed.

Lemma bind_fst_inl {A B : Type} (m : M A) (k : A -> M B) (w : world) (e : exn) :
  fst (m w) = inl e -> fst (bind m k w) = inl e.
Proof.
  unfold bind. destruct (m w) as [[e'|a] w1]; cbn [fst].
  - intros H. congruence.
  - discriminate.
Qed.

Lemma write_poly_spec do_texcoord mesh uvs poly w :
  match poly_records do_texcoord mesh uvs poly with
  | inr d =>
      write_poly do_texcoord mesh uvs poly w
      = (inr tt, with_data w (data w ++ d))
  | inl e => fst (write_poly do_texcoord mesh uvs poly w) = inl e
  end.
Proof.
  unfold write_poly, poly_records.
  destruct (len (MeshPolygon.loop_indices poly) =? 3); cbn [negb];
    [|reflexivity].
  unfold assert. rewrite (bind_run_inr _ _ w w tt) by reflexivity.
  cbn [for_each]. unfold rbind.
  pose proof (write_corner_spec do_texcoord mesh uvs poly 0 w) as C0.
  destruct (corner_record do_texcoord mesh uvs poly 0) as [e|r0];
    [now apply bind_fst_inl|].
  rewrite (bind_run_inr _ _ _ _ _ C0).
  pose proof (write_corner_spec do_texcoord mesh uvs poly 1
                (with_data w (data w ++ r0))) as C1.
  destruct (corner_record do_texcoord mesh uvs poly 1) as [e|r1];
    [now apply bind_fst_inl|].
  rewrite (bind_run_inr _ _ _ _ _ C1).
  pose proof (write_corner_spec do_texcoord mesh uvs poly 2
                (with_data (with_data w (data w ++ r0))
                   (data (with_data w (data w ++ r0)) ++ r1))) as C2.
  destruct (corner_record do_texcoord mesh uvs poly 2) as [e|r2];
    [now apply bind_fst_inl|].
  rewrite (bind_run_inr _ _ _ _ _ C2).
  unfold ret. f_equal. rewrite !with_data_app. reflexivity.
Qed.

Lemma write_polys_spec do_texcoord mesh uvs polys :
  forall w,
  match polys_records do_texcoord mesh uvs polys with
  | inr d =>
      for_each polys (write_poly do_texcoord mesh uvs) w
      = (inr tt, with_data w (data w ++ d))
  | inl e =>
      fst (for_each polys (write_poly do_texcoord mesh uvs) w) = inl e
  end.
Proof.
  induction polys as [|poly polys IH]; intros w;
    cbn [polys_records for_each].
  - unfold ret. now rewrite with_data_id.
  - unfold rbind.
    pose proof (write_poly_spec do_texcoord mesh uvs poly w) as P.
    destruct (poly_records do_texcoord mesh uvs poly) as [e|d];
      [now apply bind_fst_inl|].
    rewrite (bind_run_inr _ _ _ _ _ P).
    specialize (IH (with_data w (data w ++ d))).
    destruct (polys_records do_texcoord mesh uvs polys) as [e|ds];
      [exact IH|].
    rewrite IH, with_data_app. reflexivity.
Qed.

Lemma get_uvs_spec do_texcoord obj w :
  forallb (Host.encodes (host w)) (uv_warning (Object.name obj)) = true ->
  fst (get_uvs do_texcoord obj w) = uvs_of do_texcoord obj
  /\ data (snd (get_uvs do_texcoord obj w)) = data w
  /\ strings (snd (get_uvs do_texcoord obj w)) = strings w
  /\ index (snd (get_uvs do_texcoord obj w)) = index w
  /\ vertex_count (snd (get_uvs do_texcoord obj w)) = vertex_count w.
Proof.
  intros P. unfold get_uvs, uvs_of. destruct do_texcoord; [|now cbv].
  destruct (UVLoopLayers.count _ =? 0)%nat.
  - unfold bind, print. fold (uv_warning (Object.name obj)). rewrite P.
    now cbv.
  - destruct (UVLoopLayers.active _); now cbv.
Qed.

Lemma get_uvs_inr_spec do_texcoord obj w w' uvs :
  get_uvs do_texcoord obj w = (inr uvs, w') ->
  uvs_of do_texcoord obj = inr uvs /\ data w' = data w.
Proof.
  unfold get_uvs, uvs_of. destruct do_texcoord.
  - destruct (UVLoopLayers.count _ =? 0)%nat.
    + intros H. apply bind_inr in H. destruct H as (a & w1 & S & H).
      apply ret_inr in H. destruct H as [-> ->].
      apply print_inr in S. destruct S as [_ ->]. now split.
    + destruct (UVLoopLayers.active _); [|discriminate].
      intros H. apply ret_inr in H. destruct H as [-> ->]. now split.
  - intros H. apply ret_inr in H. destruct H as [-> ->]. now split.
Qed.

(** A successful object has appended its geometry. *)
Lemma write_object_geometry do_texcoord obj w w' u :
  write_object do_texcoord obj w = (inr u, w') ->
  exists d, geometry do_texcoord obj = inr d /\ data w' = data w ++ d.
Proof.
  unfold write_object. intros H.
  do 15 step_obj H.
  apply bind_inr in H. destruct H as (uvs & w1 & G & H).
  apply bind_inr in H. destruct H as (u1 & w2 & P & H).
  apply vertex_count_add_inr in H. subst w'.
  apply get_uvs_inr_spec in G. destruct G as [Gf Gd].
  unfold geometry. rewrite Gf. cbn [rbind].
  pose proof (write_polys_spec do_texcoord (Object.data obj) uvs
                (Mesh.polygons (Object.data obj)) w1) as Sp.
  destruct (polys_records _ _ _ _) as [e|d].
  - rewrite P in Sp. discriminate.
  - rewrite P in Sp. apply (f_equal snd) in Sp. cbn [snd] in Sp. subst w2.
    exists d. split; [reflexivity|].
    cbn [data with_data with_vertex_count]. rewrite Gd. reflexivity.
Qed.

Lemma pack_I_ok (n : Z) : u32_range n -> pack_I n = inr (le32 n).
Proof.
  unfold u32_range, pack_I. intros [H0 H1].
  destruct (Z.leb_spec 0 n); [|lia].
  destruct (Z.ltb_spec n 4294967296); [|lia]. reflexivity.
Qed.

(** An object whose name, offsets and geometry are fine is written. *)
Lemma write_object_run do_texcoord obj w nb d :
  forallb (Host.encodes (host w))
          (lit "Writing '" ++ Object.name obj ++ lit "'...") = true ->
  forallb (Host.encodes (host w)) (uv_warning (Object.name obj)) = true ->
  utf8 (Object.name obj) = inr nb ->
  u32_range (len (strings w) + len nb) ->
  u32_range (vertex_count w) ->
  u32_range (vertex_count w + len (Mesh.polygons (Object.data obj)) * 3) ->
  geometry do_texcoord obj = inr d ->
  exists w', write_object do_texcoord obj w = (inr tt, w').
Proof.
  intros Pw Pu Hn Rn Rv Re G.
  destruct w as [wd ws wi wv wo wb wh].
  cbn [strings vertex_count host] in Rn, Rv, Re, Pw, Pu.
  assert (R0 : u32_range (len ws)).
  { pose proof (len_nonneg ws). pose proof (len_nonneg nb).
    unfold u32_range in *. lia. }
  unfold geometry, rbind in G.
  unfold write_object, bind, print, gets, lift, strings_add, index_add,
    with_stdout, with_strings, with_index.
  cbn [strings vertex_count data index stdout blob host].
  rewrite Pw. cbv beta iota. cbn [strings vertex_count data index stdout blob host].
  rewrite Hn. rewrite (pack_I_ok _ R0).
  rewrite len_app, (pack_I_ok _ Rn), (pack_I_ok _ Rv), (pack_I_ok _ Re).
  match goal with
  | |- context [get_uvs do_texcoord obj ?w0] =>
      destruct (get_uvs_spec do_texcoord obj w0 Pu) as (Gf & Gd & _);
      destruct (get_uvs do_texcoord obj w0) as [r w1]
  end.
  cbn [fst snd] in Gf, Gd. subst r.
  destruct (uvs_of do_texcoord obj) as [e|uvs]; [discriminate|].
  pose proof (write_polys_spec do_texcoord (Object.data obj) uvs
                (Mesh.polygons (Object.data obj)) w1) as Sp.
  rewrite G in Sp. rewrite Sp. unfold vertex_count_add. eauto.
Qed.

Lemma write_all_geometry do_texcoord to_write :
  forall w w' u,
  for_each to_write (write_object do_texcoord) w = (inr u, w') ->
  exists ds,
    Forall2 (fun obj d =>
               geometry do_texcoord obj = inr d
               /\ len d = len (Mesh.polygons (Object.data obj)) * 3
                          * record_size do_texcoord) to_write ds
    /\ data w' = data w ++ List.concat ds.
Proof.
  induction to_write as [|obj objs IH]; intros w w' u H; cbn [for_each] in H.
  - apply ret_inr in H. destruct H as [_ ->]. exists [].
    split; [constructor | now rewrite app_nil_r].
  - apply bind_inr in H. destruct H as (u0 & w0 & H0 & H).
    pose proof (write_object_geometry _ _ _ _ _ H0) as (d & G & Hd).
    apply write_object_inr in H0.
    destruct H0 as (nb & d0 & out0 & _ & _ & _ & _ & _ & _ & Hd0 & Ld & _).
    rewrite Hd in Hd0. apply app_inv_head in Hd0. subst d0.
    apply IH in H. destruct H as (ds & F & Hds).
    exists (d :: ds). split; [constructor; auto|].
    cbn [List.concat]. now rewrite Hds, Hd, <- app_assoc.
Qed.

Lemma entries_geometry (rs : Z) (objs : list Object.t) :
  forall (ds nbs : list bytes) (pre : bytes) ns vs,
  Forall2 (fun obj d => len d = len (Mesh.polygons (Object.data obj)) * 3 * rs)
          objs ds ->
  List.length nbs = List.length objs ->
  len pre = rs * vs ->
  Forall2 (fun e d =>
             slice (pre ++ List.concat ds)
                   (rs * vertex_begin e) (rs * vertex_end e) = d)
          (entries ns vs objs nbs) ds.
Proof.
  induction objs as [|o objs IH]; intros ds nbs pre ns vs F L P;
    inversion F as [|? d ? ds' Ld F']; subst; cbn [entries]; [constructor|].
  destruct nbs as [|nb nbs]; [discriminate|].
  constructor.
  - cbn [vertex_begin vertex_end List.concat]. rewrite <- P.
    replace (rs * (vs + len (Mesh.polygons (Object.data o)) * 3))
      with (len pre + len d) by (rewrite Ld, P; ring).
    apply slice_app_exact.
  - cbn [List.concat]. rewrite app_assoc. apply IH.
    + exact F'.
    + simpl in L. congruence.
    + rewrite len_app, Ld, P. ring.
Qed.

(** X4. The geometry payload of an exported file is the geometry of the
    meshes one after the other, and the vertex range of each index record,
    multiplied by the record size, cuts out the geometry of its own mesh. *)
Theorem geometry_per_mesh (h : Host.t) do_texcoord outfile to_write w :
  run h do_texcoord outfile to_write = (inr tt, w) ->
  exists file d s i es ds,
    blob w = Some file
    /\ read_blob file = Some (three_chunks d s i)
    /\ read_index i = Some es
    /\ Forall2 (fun obj g => geometry do_texcoord obj = inr g) to_write ds
    /\ d = List.concat ds
    /\ Forall2 (fun e g =>
                  slice d (record_size do_texcoord * vertex_begin e)
                          (record_size do_texcoord * vertex_end e) = g)
               es ds.
Proof.
  intros H. pose proof H as H'. apply run_inr in H.
  destruct H as (nbs & Fn & _ & Hi & Fr & _ & _ & _ & Rd & Rs & Ri & Hb & _).
  unfold run, script in H'.
  apply bind_inr in H'. destruct H' as (u1 & w1 & O & B).
  apply write_objects_inr in O. destruct O as [L _].
  apply write_all_geometry in L. destruct L as (ds & F & Hd).
  apply write_blob_inr in B. cbv zeta in B. destruct B as (_ & _ & _ & ->).
  cbn [data strings index blob stdout vertex_count with_stdout with_blob
       start app] in *.
  exists (chunk "dat0" (data w1) ++ chunk "str0" (strings w1)
          ++ chunk "idx0" (index w1)), (data w1), (strings w1), (index w1),
    (entries 0 0 to_write nbs), ds.
  split; [exact Hb|]. split; [now apply read_blob_chunks|].
  split; [rewrite Hi; now apply read_index_entries|].
  split; [eapply Forall2_impl; [|exact F]; now intros ? ? []|].
  split; [exact Hd|]. rewrite Hd.
  apply (entries_geometry (record_size do_texcoord) to_write ds nbs [] 0 0).
  - eapply Forall2_impl; [|exact F]. now intros ? ? [].
  - exact (Forall2_length_eq _ _ _ Fn).
  - rewrite Z.mul_0_r. reflexivity.
Qed.

Lemma geometry_per_mesh_witness :
  exists file d s i es ds,
    blob (snd (run Scene.machine false Scene.out [Scene.Seam; Scene.Points; Scene.Tri]))
    = Some file
    /\ read_blob file = Some (three_chunks d s i)
    /\ read_index i = Some es
    /\ Forall2 (fun obj g => geometry false obj = inr g)
               [Scene.Seam; Scene.Points; Scene.Tri] ds
    /\ d = List.concat ds
    /\ Forall2 (fun e g =>
                  slice d (record_size false * vertex_begin e)
                          (record_size false * vertex_end e) = g)
               es ds.
Proof.
  apply (geometry_per_mesh Scene.machine false Scene.out
           [Scene.Seam; Scene.Points; Scene.Tri]).
  vm_compute. reflexivity.
Defined.

(** ** Names that can be encoded *)

Lemma utf8_char_scalar (c : Z) :
  match utf8_char c with
  | inr b => scalar c = true /\ 1 <= len b <= 4
  | inl e => scalar c = false /\ e = UnicodeEncodeError
  end.
Proof.
  unfold utf8_char, scalar.
  repeat match goal with
    | |- context [?a <? ?b] => destruct (Z.ltb_spec a b); try lia
    | |- context [?a <=? ?b] => destruct (Z.leb_spec a b); try lia
    end; cbn [andb orb]; (split; [reflexivity | first [reflexivity | cbv; split; discriminate]]).
Qed.

Lemma utf8_scalar (s : pystr) :
  match utf8 s with
  | inr b => forallb scalar s = true /\ len s <= len b <= 4 * len s
  | inl e => forallb scalar s = false /\ e = UnicodeEncodeError
  end.
Proof.
  induction s as [|c s IH]; cbn [utf8 forallb].
  - split; [reflexivity | cbv; split; discriminate].
  - pose proof (utf8_char_scalar c) as C.
    destruct (utf8_char c) as [e|b].
    + destruct C as [-> ->]. now split.
    + destruct C as [-> Lb]. cbn [andb].
      destruct (utf8 s) as [e|bs].
      * exact IH.
      * destruct IH as [-> Ls]. split; [reflexivity|].
        rewrite len_app. unfold len in *. simpl List.length. lia.
Qed.

(** ** Well-formed meshes *)

Lemma getitem_lt {A : Type} (l : list A) (i : nat) :
  (i <? List.length l)%nat = true -> exists a, nth_error l i = Some a.
Proof.
  intros H. apply Nat.ltb_lt in H.
  destruct (nth_error l i) as [a|] eqn:E; [eauto|].
  apply nth_error_None in E. lia.
Qed.

Lemma pack_color_normalized (c : MeshLoopColor.t) :
  color_normalized c = true ->
  exists col, pack_color (MeshLoopColor.color c) = inr col.
Proof.
  unfold color_normalized. intros N.
  apply andb_prop in N. destruct N as [N Nb].
  apply andb_prop in N. destruct N as [Nr Ng].
  destruct (channel_in_range _ Nr) as (kr & Er & Rr).
  destruct (channel_in_range _ Ng) as (kg & Eg & Rg).
  destruct (channel_in_range _ Nb) as (kb & Eb & Rb).
  unfold pack_color. rewrite Er, Eg, Eb. unfold pack_BBBB, ubyte.
  repeat match goal with
    | |- context [?a <=? ?b] => destruct (Z.leb_spec a b); try lia
    end.
  cbn [andb]. eauto.
Qed.

Lemma corner_record_ok mesh uvs poly i :
  corner_ok mesh poly i = true ->
  match LoopColors.active (Mesh.vertex_colors mesh) with
  | Some layer => forallb color_normalized layer = true
  | None => True
  end ->
  exists d, corner_record false mesh uvs poly i = inr d.
Proof.
  unfold corner_ok, corner_record, texcoord_record, getitem, rbind.
  destruct (nth_error (MeshPolygon.loop_indices poly) i) as [li|];
    [|discriminate].
  destruct (nth_error (MeshPolygon.vertices poly) i) as [v|];
    [|discriminate].
  destruct (nth_error (Mesh.loops mesh) li) as [loop|]; [|discriminate].
  destruct (LoopColors.active (Mesh.vertex_colors mesh)) as [layer|];
    [|discriminate].
  intros H N. apply andb_prop in H. destruct H as [H Hc].
  apply andb_prop in H. destruct H as [He Hv].
  rewrite He. cbn [negb]. apply Nat.eqb_eq in He. subst v.
  destruct (getitem_lt _ _ Hv) as (vertex & ->).
  destruct (getitem_lt _ _ Hc) as (c & Ec). rewrite Ec.
  rewrite forallb_forall in N.
  destruct (pack_color_normalized c) as (col & ->).
  - apply N. eapply nth_error_In. exact Ec.
  - eauto.
Qed.

Lemma corner_record_needs do_texcoord mesh uvs poly i d :
  corner_record do_texcoord mesh uvs poly i = inr d ->
  corner_ok mesh poly i = true.
Proof.
  unfold corner_ok, corner_record, getitem, rbind.
  destruct (nth_error (MeshPolygon.loop_indices poly) i) as [li|];
    [|discriminate].
  destruct (nth_error (Mesh.loops mesh) li) as [loop|]; [|discriminate].
  destruct (nth_error (MeshPolygon.vertices poly) i) as [v|];
    [|discriminate].
  destruct (Nat.eqb_spec (MeshLoop.vertex_index loop) v) as [->|];
    cbn [negb]; [|discriminate].
  destruct (nth_error (Mesh.vertices mesh) v) as [vertex|] eqn:Ev;
    [|discriminate].
  destruct (LoopColors.active (Mesh.vertex_colors mesh)) as [layer|];
    [|discriminate].
  destruct (nth_error layer v) as [c|] eqn:Ec; [|discriminate].
  intros _. cbn [andb].
  assert (Lv : (v < List.length (Mesh.vertices mesh))%nat)
    by (apply nth_error_Some; congruence).
  assert (Lc : (v < List.length layer)%nat)
    by (apply nth_error_Some; congruence).
  apply Nat.ltb_lt in Lv, Lc. now rewrite Lv, Lc.
Qed.

Lemma len_eqb_3 {A : Type} (l : list A) :
  (len l =? 3) = (List.length l =? 3)%nat.
Proof.
  unfold len. destruct (Nat.eqb_spec (List.length l) 3) as [E|E].
  - rewrite E. reflexivity.
  - apply Z.eqb_neq. lia.
Qed.

Lemma poly_records_ok mesh uvs poly :
  poly_ok mesh poly = true ->
  match LoopColors.active (Mesh.vertex_colors mesh) with
  | Some layer => forallb color_normalized layer = true
  | None => True
  end ->
  exists d, poly_records false mesh uvs poly = inr d.
Proof.
  unfold poly_ok, poly_records. intros H N.
  apply andb_prop in H. destruct H as [H C2].
  apply andb_prop in H. destruct H as [H C1].
  apply andb_prop in H. destruct H as [L C0].
  rewrite len_eqb_3, L. cbn [negb]. unfold rbind.
  destruct (corner_record_ok mesh uvs poly 0 C0 N) as (r0 & ->).
  destruct (corner_record_ok mesh uvs poly 1 C1 N) as (r1 & ->).
  destruct (corner_record_ok mesh uvs poly 2 C2 N) as (r2 & ->).
  eauto.
Qed.

Lemma poly_records_needs do_texcoord mesh uvs poly d :
  poly_records do_texcoord mesh uvs poly = inr d -> poly_ok mesh poly = true.
Proof.
  unfold poly_ok, poly_records, rbind. rewrite len_eqb_3.
  destruct (List.length (MeshPolygon.loop_indices poly) =? 3)%nat;
    cbn [negb]; [|discriminate].
  destruct (corner_record do_texcoord mesh uvs poly 0) eqn:E0;
    [discriminate|].
  destruct (corner_record do_texcoord mesh uvs poly 1) eqn:E1;
    [discriminate|].
  destruct (corner_record do_texcoord mesh uvs poly 2) eqn:E2;
    [discriminate|].
  intros _. apply corner_record_needs in E0, E1, E2.
  now rewrite E0, E1, E2.
Qed.

Lemma polys_records_ok mesh uvs polys :
  forallb (poly_ok mesh) polys = true ->
  match LoopColors.active (Mesh.vertex_colors mesh) with
  | Some layer => forallb color_normalized layer = true
  | None => True
  end ->
  exists d, polys_records false mesh uvs polys = inr d.
Proof.
  intros F N. induction polys as [|poly polys IH]; cbn [polys_records].
  - eauto.
  - cbn [forallb] in F. apply andb_prop in F. destruct F as [P F].
    destruct (poly_records_ok mesh uvs poly P N) as (d & ->).
    destruct (IH F) as (ds & ->). cbn [rbind]. eauto.
Qed.

Lemma polys_records_needs do_texcoord mesh uvs polys d :
  polys_records do_texcoord mesh uvs polys = inr d ->
  forallb (poly_ok mesh) polys = true.
Proof.
  revert d. induction polys as [|poly polys IH]; intros d;
    cbn [polys_records forallb]; [reflexivity|].
  unfold rbind.
  destruct (poly_records do_texcoord mesh uvs poly) eqn:P; [discriminate|].
  destruct (polys_records do_texcoord mesh uvs polys) eqn:Ps;
    [discriminate|].
  intros _. apply poly_records_needs in P. rewrite P. cbn [andb].
  eapply IH. reflexivity.
Qed.

Lemma geometry_ok (obj : Object.t) :
  mesh_ok (Object.data obj) = true ->
  exists d, geometry false obj = inr d.
Proof.
  unfold mesh_ok, geometry. intros H.
  apply andb_prop in H. destruct H as [F N]. cbn [uvs_of rbind].
  apply polys_records_ok; [exact F|].
  destruct (LoopColors.active _); [exact N | exact I].
Qed.

Lemma geometry_needs do_texcoord obj d :
  geometry do_texcoord obj = inr d ->
  forallb (poly_ok (Object.data obj)) (Mesh.polygons (Object.data obj))
  = true.
Proof.
  unfold geometry, rbind.
  destruct (uvs_of do_texcoord obj) as [e|uvs]; [discriminate|].
  apply polys_records_needs.
Qed.

(** ** Well-formed input is exported *)

Lemma corners_nonneg (to_write : list Object.t) : 0 <= corners to_write.
Proof.
  induction to_write as [|o objs IH]; cbn [corners]; [lia|].
  pose proof (len_nonneg (Mesh.polygons (Object.data o))). lia.
Qed.

Lemma name_chars_nonneg (to_write : list Object.t) : 0 <= name_chars to_write.
Proof.
  induction to_write as [|o objs IH]; cbn [name_chars]; [lia|].
  pose proof (len_nonneg (Object.name o)). lia.
Qed.

Lemma len_entry_bytes (e : entry) : len (entry_bytes e) = 16.
Proof. reflexivity. Qed.

(** *** Lines the machine can print *)

Lemma in_ascii_encodes (h : Host.t) (l : pystr) :
  forallb (Host.encodes h) ascii = true ->
  forallb (fun c => existsb (Z.eqb c) ascii) l = true ->
  forallb (Host.encodes h) l = true.
Proof.
  intros A L. apply forallb_forall. intros c I.
  rewrite forallb_forall in L. specialize (L c I).
  apply existsb_exists in L. destruct L as (c' & I' & E).
  apply Z.eqb_eq in E. subst c'.
  rewrite forallb_forall in A. now apply A.
Qed.

Lemma digit_in_ascii (c : Z) :
  digit c = true -> existsb (Z.eqb c) ascii = true.
Proof.
  unfold digit. intros D. apply andb_prop in D. destruct D as [L U].
  apply Z.leb_le in L, U.
  assert (C : c = 48 \/ c = 49 \/ c = 50 \/ c = 51 \/ c = 52 \/ c = 53
              \/ c = 54 \/ c = 55 \/ c = 56 \/ c = 57) by lia.
  repeat destruct C as [C|C]; subst c; reflexivity.
Qed.

Lemma str_in_ascii (n : Z) :
  0 <= n -> forallb (fun c => existsb (Z.eqb c) ascii) (str n) = true.
Proof.
  intros H. pose proof (str_digits n H) as D. apply forallb_forall.
  intros c I. rewrite forallb_forall in D. apply digit_in_ascii, D, I.
Qed.

Lemma writing_line_prints (h : Host.t) (name : pystr) :
  prints h name = true ->
  forallb (Host.encodes h) (lit "Writing '" ++ name ++ lit "'...") = true.
Proof.
  unfold prints. intros P. apply andb_prop in P. destruct P as [A N].
  rewrite !forallb_app, N, !(in_ascii_encodes h _ A) by reflexivity.
  reflexivity.
Qed.

Lemma uv_warning_prints (h : Host.t) (name : pystr) :
  prints h name = true -> forallb (Host.encodes h) (uv_warning name) = true.
Proof.
  unfold prints, uv_warning. intros P. apply andb_prop in P.
  destruct P as [A N].
  rewrite !forallb_app, N, !(in_ascii_encodes h _ A) by reflexivity.
  reflexivity.
Qed.

Lemma wrote_prints (h : Host.t) (t d s i : Z) (outfile : pystr) :
  prints h outfile = true -> 0 <= t -> 0 <= d -> 0 <= s -> 0 <= i ->
  forallb (Host.encodes h) (wrote t d s i outfile) = true.
Proof.
  unfold prints, wrote. intros P Ht Hd Hs Hi. apply andb_prop in P.
  destruct P as [A N].
  rewrite !forallb_app, N.
  rewrite !(in_ascii_encodes h (str _) A) by (apply str_in_ascii; lia).
  rewrite !(in_ascii_encodes h (lit _) A) by reflexivity.
  reflexivity.
Qed.

Lemma write_all_run (to_write : list Object.t) :
  forall w,
  forallb object_ok to_write = true ->
  forallb (fun obj => prints (host w) (Object.name obj)) to_write = true ->
  u32_range (len (strings w) + 4 * name_chars to_write) ->
  u32_range (vertex_count w) ->
  u32_range (vertex_count w + corners to_write) ->
  exists w',
    for_each to_write (write_object false) w = (inr tt, w')
    /\ len (strings w') <= len (strings w) + 4 * name_chars to_write
    /\ len (index w') = len (index w) + 16 * len to_write
    /\ host w' = host w.
Proof.
  induction to_write as [|obj objs IH]; intros w F Pn Rn Rv Rc.
  - exists w. cbn [for_each name_chars]. unfold ret.
    split; [reflexivity|]. split; [lia|]. change (len []) with 0.
    split; [lia | reflexivity].
  - cbn [forallb] in F, Pn. apply andb_prop in F. destruct F as [Ok F].
    apply andb_prop in Pn. destruct Pn as [Po Pn].
    unfold object_ok in Ok. apply andb_prop in Ok. destruct Ok as [Sc Mk].
    cbn [name_chars corners] in Rn, Rc.
    pose proof (utf8_scalar (Object.name obj)) as U.
    destruct (utf8 (Object.name obj)) as [e|nb] eqn:En;
      [destruct U; congruence|].
    destruct U as [_ Ln].
    destruct (geometry_ok obj Mk) as (d & G).
    pose proof (len_nonneg (strings w)) as N1.
    pose proof (len_nonneg (Mesh.polygons (Object.data obj))) as N2.
    pose proof (name_chars_nonneg objs) as N3.
    pose proof (corners_nonneg objs) as N4.
    unfold u32_range in *.
    destruct (write_object_run false obj w nb d
                (writing_line_prints _ _ Po) (uv_warning_prints _ _ Po) En)
      as (w1 & W1);
      unfold u32_range; try lia; [exact G|].
    pose proof (write_object_inr _ _ _ _ _ W1)
      as (nb' & d' & out & En' & Hs & Hi & _ & _ & _ & _ & _ & Hv & _).
    pose proof (write_object_same_host false obj w) as Hh.
    rewrite W1 in Hh. unfold same_host in Hh. cbn [snd] in Hh.
    rewrite En in En'. apply inr_inj in En'. subst nb'.
    destruct (IH w1 F) as (w' & H' & Ls & Li & Hh').
    + rewrite Hh. exact Pn.
    + rewrite Hs, len_app. unfold u32_range. lia.
    + rewrite Hv. unfold u32_range. lia.
    + rewrite Hv. unfold u32_range. lia.
    + exists w'. cbn [for_each]. rewrite (bind_run_inr _ _ _ _ _ W1).
      split; [exact H'|]. rewrite Hs, len_app in Ls.
      rewrite Hi, len_app, len_entry_bytes in Li.
      cbn [name_chars]. split; [lia|].
      split; [unfold len in *; simpl List.length; lia | congruence].
Qed.

Lemma len_cons {A : Type} (a : A) (l : list A) : len (a :: l) = 1 + len l.
Proof. unfold len. simpl List.length. lia. Qed.

(** The file is written when the lengths fit into 32 bits and the machine
    plays along. *)
Lemma write_blob_run (outfile : pystr) (w : world) :
  u32_range (len (data w)) -> u32_range (len (strings w)) ->
  u32_range (len (index w)) ->
  Host.opens (host w) outfile = true ->
  prints (host w) outfile = true ->
  24 + len (data w) + len (strings w) + len (index w) <= Host.room (host w) ->
  exists w', write_blob outfile w = (inr tt, w').
Proof.
  intros Rd Rs Ri Op Pr Rm. destruct w as [d s i n o b h].
  cbn [data strings index host] in Rd, Rs, Ri, Op, Pr, Rm.
  pose proof (len_nonneg d) as Nd. pose proof (len_nonneg s) as Ns.
  pose proof (len_nonneg i) as Ni.
  unfold write_blob, bind, open_wb, write, gets, lift, tell, print,
    with_blob, with_stdout.
  cbn [blob data strings index stdout vertex_count host].
  let d0 := eval vm_compute in (pack_4s (list_byte_of_string "dat0")) in
  change (pack_4s (list_byte_of_string "dat0")) with d0.
  let s0 := eval vm_compute in (pack_4s (list_byte_of_string "str0")) in
  change (pack_4s (list_byte_of_string "str0")) with s0.
  let i0 := eval vm_compute in (pack_4s (list_byte_of_string "idx0")) in
  change (pack_4s (list_byte_of_string "idx0")) with i0.
  repeat (first [ rewrite Op
                | rewrite (pack_I_ok _ Rd)
                | rewrite (pack_I_ok _ Rs)
                | rewrite (pack_I_ok _ Ri)
                | rewrite (proj2 (Z.leb_le _ _))
                    by (rewrite ?len_app, ?len_cons, ?len_le32;
                        change (len (@nil byte)) with 0; lia) ];
          cbv beta iota;
          cbn [blob data strings index stdout vertex_count host]).
  match goal with
  | |- context [str (len ?F)] =>
      pose proof (wrote_prints h (len F) (len d) (len s) (len i) outfile Pr
                    (len_nonneg F) Nd Ns Ni) as W
  end.
  unfold wrote in W. rewrite W. eauto.
Qed.

(** X5. On a machine whose terminal can encode the names, [outfile] and
    ASCII, which lets [outfile] be created and has room for the file, a
    scene is exported when every name is free of surrogates, every polygon
    is a triangle whose loops and vertices agree and lie in range, every
    entry of the active color layer has its channels in [0, 1], and the
    three payloads stay below 4 GiB. *)
Theorem well_formed_scene_exported (h : Host.t) (outfile : pystr)
    (to_write : list Object.t) :
  forallb object_ok to_write = true ->
  4 * name_chars to_write < 4294967296 ->
  28 * corners to_write < 4294967296 ->
  16 * len to_write < 4294967296 ->
  forallb (fun obj => prints h (Object.name obj)) to_write = true ->
  prints h outfile = true ->
  Host.opens h outfile = true ->
  24 + 28 * corners to_write + 4 * name_chars to_write + 16 * len to_write
  <= Host.room h ->
  exists w, run h false outfile to_write = (inr tt, w).
Proof.
  intros F Sn Sc Si Pn Po Op Rm.
  pose proof (name_chars_nonneg to_write). pose proof (corners_nonneg to_write).
  destruct (write_all_run to_write (start h) F Pn) as (w1 & L & Ls & Li & Hh);
    cbn [start strings vertex_count]; unfold u32_range;
    try (change (len []) with 0; lia).
  cbn [start strings index host] in Ls, Li, Hh.
  change (len []) with 0 in Ls, Li.
  pose proof (write_all_inr _ _ _ _ _ L)
    as (nbs & d & out & _ & _ & _ & _ & Hd & Ld & Hv & _).
  cbn [start data vertex_count app record_size] in Hd, Ld, Hv.
  pose proof (len_nonneg (strings w1)) as Ns.
  destruct (write_blob_run outfile w1) as (w & B).
  - rewrite Hd, Ld. unfold u32_range. lia.
  - unfold u32_range. lia.
  - unfold u32_range, len in *. lia.
  - rewrite Hh. exact Op.
  - rewrite Hh. exact Po.
  - rewrite Hh, Hd, Ld, Li. lia.
  - exists w. unfold run, script.
    assert (O : write_objects false to_write (start h) = (inr tt, w1)).
    { unfold write_objects. rewrite (bind_run_inr _ _ _ _ _ L).
      unfold bind, gets.
      replace (vertex_count w1 * (4 * 3 + 4 * 3 + 4 * 1) =? len (data w1))
        with true by (symmetry; apply Z.eqb_eq; rewrite Hd, Ld, Hv; lia).
      reflexivity. }
    rewrite (bind_run_inr _ _ _ _ _ O). exact B.
Qed.

Lemma well_formed_scene_exported_witness :
  exists w,
    run Scene.machine false Scene.out [Scene.Seam; Scene.Cafe; Scene.Points]
    = (inr tt, w).
Proof.
  apply (well_formed_scene_exported Scene.machine Scene.out
           [Scene.Seam; Scene.Cafe; Scene.Points]);
    vm_compute; first [reflexivity | discriminate].
Defined.

(** X6. An object whose name holds a surrogate, or one of whose polygons is
    not a triangle with loops and vertices that agree and lie in range,
    makes the run abort, and nothing is written to [outfile]. *)
Theorem malformed_object_aborts (h : Host.t) do_texcoord outfile to_write :
  Exists (fun obj =>
            forallb scalar (Object.name obj)
            && forallb (poly_ok (Object.data obj))
                       (Mesh.polygons (Object.data obj)) = false) to_write ->
  aborts h do_texcoord outfile to_write.
Proof.
  intros E.
  apply (aborts_unless _ _ _ _
           (Forall (fun obj =>
                      forallb scalar (Object.name obj)
                      && forallb (poly_ok (Object.data obj))
                           (Mesh.polygons (Object.data obj)) = true)
                   to_write)).
  - intros w u H. apply write_objects_inr in H. destruct H as [H _].
    clear E. revert w H. generalize (start h).
    induction to_write as [|obj objs IH]; intros w0 w H; [constructor|].
    cbn [for_each] in H. apply bind_inr in H.
    destruct H as (u0 & w1 & H0 & H).
    constructor; [|eapply IH; exact H].
    pose proof (write_object_geometry _ _ _ _ _ H0) as (d & G & _).
    apply geometry_needs in G. rewrite G.
    apply write_object_inr in H0. destruct H0 as (nb & ? & ? & En & _).
    pose proof (utf8_scalar (Object.name obj)) as U. rewrite En in U.
    destruct U as [-> _]. reflexivity.
  - intros F. rewrite Forall_forall in F. apply Exists_exists in E.
    destruct E as (obj & I & N). rewrite (F obj I) in N. discriminate.
Qed.

Lemma malformed_object_aborts_witness :
  aborts Scene.machine false Scene.out [Scene.Tri; Case.Twisted].
Proof.
  apply malformed_object_aborts.
  apply Exists_cons_tl, Exists_cons_hd. vm_compute. reflexivity.
Defined.

(** ** The binary32 words *)

Lemma Zdigits2_unique (m k : Z) :
  2 ^ (k - 1) <= m < 2 ^ k -> 1 <= k -> Zdigits2 m = k.
Proof.
  intros [H0 H1] Hk.
  assert (P : 0 < 2 ^ (k - 1)) by (apply pow2_pos; lia).
  destruct m as [|p|p]; try lia.
  destruct (Zdigits2_ge p _ eq_refl) as [G1 G2].
  set (d := Zdigits2 (Z.pos p)) in *.
  assert (Hd : 0 <= d) by (unfold d; simpl; lia).
  assert (d < k + 1).
  { apply (Z.pow_lt_mono_r_iff 2); [lia | lia|].
    rewrite (Z.pow_add_r 2 k 1) by lia. lia. }
  assert (k - 1 < d).
  { apply (Z.pow_lt_mono_r_iff 2); [lia | exact Hd | lia]. }
  lia.
Qed.

Lemma Zdigits2_nonneg (m : Z) : 0 <= Zdigits2 m.
Proof. destruct m; simpl; lia. Qed.

Lemma Zdigits2_pos_bounds (m : Z) :
  0 < m -> 2 ^ (Zdigits2 m - 1) <= m < 2 ^ Zdigits2 m /\ 1 <= Zdigits2 m.
Proof.
  intros H. destruct m as [|p|p]; try lia.
  destruct (Zdigits2_ge p _ eq_refl) as [G1 G2].
  set (d := Zdigits2 (Z.pos p)) in *.
  assert (Hd : 1 <= d) by (unfold d; simpl; lia).
  split; [|exact Hd]. split; [|exact G2].
  replace d with (d - 1 + 1) in G1 by lia.
  rewrite Z.pow_add_r in G1 by lia. lia.
Qed.

Lemma shr_fexp_gen (prec emax M E : Z) :
  0 <= M ->
  exists mrs e',
    shr_fexp prec emax M E loc_Exact = (mrs, e')
    /\ e' = Z.max E (fexp prec emax (Zdigits2 M + E))
    /\ shr_m mrs = M / 2 ^ (e' - E).
Proof.
  intros H. unfold shr_fexp, shr. cbn [shr_record_of_loc].
  set (f := fexp prec emax (Zdigits2 M + E)).
  destruct (f - E) as [|p|p] eqn:En.
  - eexists _, _. split; [reflexivity|]. split; [lia|].
    cbn [shr_m]. now rewrite Z.sub_diag, Z.pow_0_r, Z.div_1_r.
  - eexists _, _. split; [reflexivity|]. split; [lia|].
    rewrite iter_shr_1_m by assumption. cbn [shr_m]. do 2 f_equal. lia.
  - eexists _, _. split; [reflexivity|]. split; [lia|].
    cbn [shr_m]. now rewrite Z.sub_diag, Z.pow_0_r, Z.div_1_r.
Qed.

Lemma fexp32_eq (z : Z) : fexp 24 128 z = Z.max (z - 24) (-149).
Proof. reflexivity. Qed.

(** Rounding a mantissa whose exponent is not above the one its magnitude
    asks for gives a binary32 value. *)
Lemma binary_round_aux_valid (s : bool) (M E : Z) :
  0 < M -> E <= fexp 24 128 (Zdigits2 M + E) ->
  valid_binary 24 128 (binary_round_aux 24 128 s M E loc_Exact) = true.
Proof.
  intros HM HE. unfold binary_round_aux.
  destruct (shr_fexp_gen 24 128 M E) as (mrs1 & e1 & S1 & He1 & Hm1); [lia|].
  rewrite S1.
  set (m1 := round_nearest_even (shr_m mrs1) (loc_of_shr_record mrs1)).
  pose proof (round_nearest_even_le (shr_m mrs1) (loc_of_shr_record mrs1))
    as R1. fold m1 in R1.
  destruct (Zdigits2_pos_bounds M HM) as ([D0 D1] & D2).
  set (d := Zdigits2 M) in *. rewrite fexp32_eq in HE, He1.
  set (f := Z.max (d + E - 24) (-149)) in *.
  assert (Ef : e1 = f) by lia. clear He1. subst e1.
  set (n := f - E) in *. assert (Hn : 0 <= n) by (unfold n; lia).
  pose proof (pow2_pos n Hn) as Pn.
  assert (M0 : 0 <= shr_m mrs1)
    by (rewrite Hm1; apply Z.div_pos; lia).
  (* bounds on the truncated mantissa *)
  set (k := Z.max (d - n) 0).
  assert (Hk : 0 <= k <= 24) by (unfold k, n, f; lia).
  assert (U1 : shr_m mrs1 < 2 ^ k).
  { rewrite Hm1. apply Z.div_lt_upper_bound; [lia|].
    destruct (Z.le_gt_cases n d) as [Le|Gt].
    - replace k with (d - n) by (unfold k; lia).
      rewrite <- Z.pow_add_r by lia. replace (n + (d - n)) with d by lia.
      exact D1.
    - replace k with 0 by (unfold k; lia). rewrite Z.pow_0_r, Z.mul_1_r.
      eapply Z.lt_le_trans; [exact D1|]. apply Z.pow_le_mono_r; lia. }
  assert (N1 : -149 < f -> 2 ^ 23 <= shr_m mrs1).
  { intros Hf. assert (Dn : d - 1 - n = 23) by (unfold n, f in *; lia).
    rewrite Hm1. apply Z.div_le_lower_bound; [lia|].
    rewrite <- Z.pow_add_r by lia. rewrite <- Dn.
    replace (n + (d - 1 - n)) with (d - 1) by lia. exact D0. }
  destruct (shr_fexp_gen 24 128 m1 f) as (mrs2 & e2 & S2 & He2 & Hm2); [lia|].
  rewrite S2. rewrite fexp32_eq in He2.
  destruct (shr_m mrs2) as [|m2|m2] eqn:Em2; try reflexivity.
  destruct (e2 <=? 128 - 24) eqn:Le; [|reflexivity].
  cbn [valid_binary]. unfold bounded. rewrite Le, andb_true_r.
  unfold canonical_mantissa. apply Z.eqb_eq. rewrite fexp32_eq.
  change (Z.pos (digits2_pos m2)) with (Zdigits2 (Z.pos m2)).
  assert (P1 : 0 < m1).
  { destruct (Z.eq_dec m1 0) as [Z0|]; [|lia].
    rewrite Z0, Z.div_0_l in Hm2 by (apply Z.pow_nonzero; lia). lia. }
  destruct (Zdigits2_pos_bounds m1 P1) as ([B0 B1] & B2).
  set (d1 := Zdigits2 m1) in *.
  assert (U2 : m1 <= 2 ^ k) by lia.
  assert (Hd1 : d1 <= k + 1).
  { apply Z.lt_succ_r. apply (Z.pow_lt_mono_r_iff 2); [lia | lia|].
    unfold Z.succ. rewrite (Z.pow_add_r 2 (k + 1) 1) by lia.
    rewrite (Z.pow_add_r 2 k 1) by lia.
    replace d1 with (d1 - 1 + 1) by lia.
    rewrite (Z.pow_add_r 2 (d1 - 1) 1) by lia. lia. }
  destruct (Z.le_gt_cases d1 24) as [Small|Big].
  - (* no carry out of 24 digits *)
    assert (E2 : e2 = f) by lia. clear He2. subst e2.
    rewrite Z.sub_diag, Z.pow_0_r, Z.div_1_r in Hm2.
    rewrite Hm2. fold d1.
    destruct (Z.eq_dec f (-149)) as [Sub|Nor]; [lia|].
    assert (2 ^ 23 <= m1) by (specialize (N1 ltac:(lia)); lia).
    assert (24 <= d1).
    { apply Z.lt_pred_le. apply (Z.pow_lt_mono_r_iff 2); [lia | lia|].
      unfold Z.pred. replace (24 + -1) with 23 by lia. lia. }
    lia.
  - (* the mantissa was rounded up to 2^24 *)
    assert (Dk : d1 = 25 /\ k = 24) by lia. destruct Dk as [Dd Dk].
    assert (M24 : m1 = 2 ^ 24).
    { rewrite Dk in U2. rewrite Dd in B0. change (25 - 1) with 24 in B0.
      lia. }
    assert (E2 : e2 = f + 1) by lia. clear He2. subst e2.
    replace (f + 1 - f) with 1 in Hm2 by lia.
    rewrite M24 in Hm2. change (2 ^ 24 / 2 ^ 1) with (2 ^ 23) in Hm2.
    rewrite Hm2.
    rewrite (Zdigits2_unique (2 ^ 23) 24);
      [lia | split; [apply Z.le_refl | reflexivity] | lia].
Qed.

Lemma digits2_pos_shift (m : positive) (d : positive) :
  Zpos (digits2_pos (Pos.iter xO m d)) = Zpos (digits2_pos m) + Zpos d.
Proof.
  induction d as [|d IH] using Pos.peano_ind.
  - simpl. lia.
  - rewrite Pos.iter_succ. cbn [digits2_pos]. lia.
Qed.

Lemma binary_round_valid (s : bool) (m : positive) (e : Z) :
  valid_binary 24 128 (binary_round 24 128 s m e) = true.
Proof.
  unfold binary_round, shl_align.
  set (f := fexp 24 128 (Zpos (digits2_pos m) + e)).
  destruct (f - e) as [|p|p] eqn:D.
  - apply binary_round_aux_valid; [lia|].
    change (Zdigits2 (Zpos m)) with (Zpos (digits2_pos m)). fold f. lia.
  - apply binary_round_aux_valid; [lia|].
    change (Zdigits2 (Zpos m)) with (Zpos (digits2_pos m)). fold f. lia.
  - apply binary_round_aux_valid; [lia|].
    change (Zdigits2 (Zpos (Pos.iter xO m p)))
      with (Zpos (digits2_pos (Pos.iter xO m p))).
    rewrite digits2_pos_shift.
    replace (Zpos (digits2_pos m) + Zpos p + f)
      with (Zpos (digits2_pos m) + e) by lia.
    fold f. lia.
Qed.

Lemma to_b32_valid (x : float) : valid_binary 24 128 (to_b32 x) = true.
Proof.
  destruct x; cbn [to_b32 valid_binary]; try reflexivity.
  apply binary_round_valid.
Qed.

Lemma bits_of_b32_range (y : float) :
  valid_binary 24 128 y = true -> 0 <= bits_of_b32 y < 4294967296.
Proof.
  destruct y as [s|s| |s m e]; cbn [bits_of_b32 valid_binary].
  - intros _. destruct s; cbn [sign_bit]; lia.
  - intros _. destruct s; cbn [sign_bit]; lia.
  - intros _. lia.
  - unfold bounded, canonical_mantissa. intros V.
    apply andb_prop in V. destruct V as [C Le].
    apply Z.eqb_eq in C. apply Z.leb_le in Le. rewrite fexp32_eq in C.
    destruct (Zdigits2_pos_bounds (Zpos m) ltac:(lia)) as ([B0 B1] & B2).
    change (Zdigits2 (Zpos m)) with (Zpos (digits2_pos m)) in *.
    destruct (Z.ltb_spec (Zpos m) 8388608).
    + destruct s; cbn [sign_bit]; lia.
    + assert (Zpos (digits2_pos m) <= 24) by lia.
      assert (Zpos m < 2 ^ 24).
      { eapply Z.lt_le_trans; [exact B1|]. apply Z.pow_le_mono_r; lia. }
      change (2 ^ 24) with 16777216 in *.
      destruct s; cbn [sign_bit]; lia.
Qed.

Lemma b32_of_bits_of_b32 (y : float) :
  valid_binary 24 128 y = true -> b32_of_bits (bits_of_b32 y) = y.
Proof.
  destruct y as [s|s| |s m e]; cbn [bits_of_b32 valid_binary];
    [destruct s; reflexivity | destruct s; reflexivity | reflexivity|].
  unfold bounded, canonical_mantissa. intros V.
  apply andb_prop in V. destruct V as [C Le].
  apply Z.eqb_eq in C. apply Z.leb_le in Le. rewrite fexp32_eq in C.
  destruct (Zdigits2_pos_bounds (Zpos m) ltac:(lia)) as ([B0 B1] & B2).
  change (Zdigits2 (Zpos m)) with (Zpos (digits2_pos m)) in *.
  unfold b32_of_bits.
  destruct (Z.ltb_spec (Zpos m) 8388608) as [Sub|Nor].
  - (* subnormal: the exponent field is 0 *)
    assert (De : e = -149).
    { destruct (Z.le_gt_cases 24 (Zpos (digits2_pos m))) as [G|]; [|lia].
      assert (2 ^ 23 <= 2 ^ (Zpos (digits2_pos m) - 1))
        by (apply Z.pow_le_mono_r; lia).
      change (2 ^ 23) with 8388608 in *. lia. }
    subst e.
    assert (Q : (sign_bit s + Zpos m) / 8388608 = if s then 256 else 0).
    { symmetry. apply Z.div_unique with (Zpos m); [lia|].
      destruct s; cbn [sign_bit]; lia. }
    assert (R : (sign_bit s + Zpos m) mod 8388608 = Zpos m).
    { symmetry. apply Z.mod_unique with (if s then 256 else 0); [lia|].
      destruct s; cbn [sign_bit]; lia. }
    rewrite Q, R.
    replace ((if s then 256 else 0) mod 256) with 0
      by (destruct s; reflexivity).
    cbn [Z.eqb].
    replace (2147483648 <=? sign_bit s + Zpos m) with s
      by (destruct s; cbn [sign_bit]; symmetry;
          [apply Z.leb_le | apply Z.leb_gt]; lia).
    destruct s; reflexivity.
  - (* normal: the exponent field is e + 150 *)
    assert (Dd : Zpos (digits2_pos m) = 24).
    { destruct (Z.le_gt_cases (Zpos (digits2_pos m)) 23) as [G|G].
      - assert (2 ^ Zpos (digits2_pos m) <= 2 ^ 23)
          by (apply Z.pow_le_mono_r; lia).
        change (2 ^ 23) with 8388608 in *. lia.
      - lia. }
    rewrite Dd in B1. change (2 ^ 24) with 16777216 in B1.
    assert (Re : -149 <= e <= 104) by lia.
    set (x := (e + 150) * 8388608 + (Zpos m - 8388608)).
    assert (Q : (sign_bit s + x) / 8388608
                = (if s then 256 else 0) + (e + 150)).
    { symmetry. apply Z.div_unique with (Zpos m - 8388608); [lia|].
      unfold x. destruct s; cbn [sign_bit]; lia. }
    assert (R : (sign_bit s + x) mod 8388608 = Zpos m - 8388608).
    { symmetry.
      apply Z.mod_unique with ((if s then 256 else 0) + (e + 150)); [lia|].
      unfold x. destruct s; cbn [sign_bit]; lia. }
    replace (sign_bit s + (e + 150) * 8388608 + (Zpos m - 8388608))
      with (sign_bit s + x) by (unfold x; lia).
    rewrite Q, R.
    assert (Fe : ((if s then 256 else 0) + (e + 150)) mod 256 = e + 150).
    { symmetry. apply Z.mod_unique with (if s then 1 else 0); [lia|].
      destruct s; lia. }
    rewrite Fe.
    destruct (Z.eqb_spec (e + 150) 0); [lia|].
    destruct (Z.eqb_spec (e + 150) 255); [lia|].
    replace (Zpos m - 8388608 + 8388608) with (Zpos m) by lia.
    replace (e + 150 - 150) with e by lia.
    replace (2147483648 <=? sign_bit s + x) with s
      by (unfold x; destruct s; cbn [sign_bit]; symmetry;
          [apply Z.leb_le | apply Z.leb_gt]; lia).
    reflexivity.
Qed.

(** X7. The four bytes written for a float decode to the binary32 value
    nearest to it (ties to even, an infinity beyond the binary32 range). *)
Theorem unpack_pack_f (x : float) : unpack_f (pack_f x) = Some (to_b32 x).
Proof.
  unfold unpack_f, pack_f.
  rewrite unpack_le32 by (apply bits_of_b32_range, to_b32_valid).
  cbn [option_map]. f_equal. apply b32_of_bits_of_b32, to_b32_valid.
Qed.

(** ** Texture coordinates are not read unless asked for *)

Lemma write_object_without_uv (uv : UVLoopLayers.t) (obj : Object.t) :
  write_object false (with_uv_layers uv obj) = write_object false obj.
Proof. reflexivity. Qed.

(** X8. With [do_texcoord = False] the uv layers of the meshes have no
    effect: replacing them by any others gives the same run, the same way
    it ends, the same file and the same printed lines. *)
Theorem uv_layers_unused (h : Host.t) (f : Object.t -> UVLoopLayers.t)
    (outfile : pystr) (to_write : list Object.t) :
  run h false outfile (map (fun obj => with_uv_layers (f obj) obj) to_write)
  = run h false outfile to_write.
Proof.
  unfold run, script, write_objects.
  replace (for_each (map (fun obj => with_uv_layers (f obj) obj) to_write)
                    (write_object false))
    with (for_each to_write (write_object false)); [reflexivity|].
  induction to_write as [|obj objs IH]; cbn [map for_each]; [reflexivity|].
  rewrite <- IH, write_object_without_uv. reflexivity.
Qed.

(** ** What is printed *)

Lemma write_object_stdout do_texcoord obj w w' u :
  write_object do_texcoord obj w = (inr u, w') ->
  stdout w' = stdout w ++ progress do_texcoord obj.
Proof.
  unfold write_object. intros H.
  do 15 step_obj H.
  apply bind_inr in H. destruct H as (uvs & w1 & G & H).
  apply bind_inr in H. destruct H as (u1 & w2 & P & H).
  apply vertex_count_add_inr in H.
  apply write_polys_inr in P. destruct P as (_ & _ & d & -> & _).
  subst w'. unfold progress.
  apply get_uvs_inr in G.
  destruct G as [(-> & -> & ->) | [(-> & Z0 & -> & ->) | (-> & N0 & _ & ->)]];
    cbn [strings data index vertex_count stdout blob with_data with_strings
         with_index with_stdout with_vertex_count andb].
  - reflexivity.
  - rewrite Z0. cbn [Nat.eqb]. rewrite <- app_assoc. reflexivity.
  - apply Nat.eqb_neq in N0. rewrite N0. reflexivity.
Qed.

Lemma write_all_stdout do_texcoord to_write :
  forall w w' u,
  for_each to_write (write_object do_texcoord) w = (inr u, w') ->
  stdout w' = stdout w ++ List.concat (map (progress do_texcoord) to_write).
Proof.
  induction to_write as [|obj objs IH]; intros w w' u H; cbn [for_each] in H.
  - apply ret_inr in H. destruct H as [_ ->]. cbn [map List.concat].
    now rewrite app_nil_r.
  - apply bind_inr in H. destruct H as (u0 & w0 & H0 & H).
    apply write_object_stdout in H0. apply IH in H.
    rewrite H, H0. cbn [map List.concat]. now rewrite <- app_assoc.
Qed.

(** X9. A successful run prints, for each object in order, the line
    [Writing '<name>'...], followed by the uv warning when texture
    coordinates are asked for and the mesh has no uv layer, and after all of
    them the one line that reports the sizes; nothing else. *)
Theorem printed_lines (h : Host.t) do_texcoord outfile to_write w :
  run h do_texcoord outfile to_write = (inr tt, w) ->
  exists file,
    blob w = Some file
    /\ stdout w
       = List.concat (map (progress do_texcoord) to_write)
         ++ [wrote (len file) (len (data w)) (len (strings w))
                   (len (index w)) outfile].
Proof.
  unfold run, script. intros H.
  apply bind_inr in H. destruct H as (u0 & w0 & H0 & H).
  apply write_objects_inr in H0. destruct H0 as [H0 _].
  apply write_all_stdout in H0. cbn [stdout start app] in H0.
  apply write_blob_inr in H. destruct H as (_ & _ & _ & ->).
  eexists. split; [reflexivity|].
  cbn [stdout data strings index with_stdout with_blob]. rewrite H0.
  reflexivity.
Qed.

Lemma printed_lines_witness :
  exists file,
    blob (snd (run Scene.machine true Scene.out [Scene.Points; Scene.Points])) = Some file
    /\ stdout (snd (run Scene.machine true Scene.out [Scene.Points; Scene.Points]))
       = List.concat (map (progress true) [Scene.Points; Scene.Points])
         ++ [wrote (len file)
               (len (data (snd (run Scene.machine true Scene.out [Scene.Points; Scene.Points]))))
               (len (strings (snd (run Scene.machine true Scene.out [Scene.Points; Scene.Points]))))
               (len (index (snd (run Scene.machine true Scene.out [Scene.Points; Scene.Points]))))
               Scene.out].
Proof.
  apply (printed_lines Scene.machine true Scene.out [Scene.Points; Scene.Points]).
  vm_compute. reflexivity.
Defined.

(** ** How a run can fail *)


















(** The machine with the small disk stops in the middle of the second
    chunk. *)
Example cut_off_file :
  fst (run small_disk false Scene.out [Scene.Tri]) = inl OSError
  /\ option_map len (blob (snd (run small_disk false Scene.out [Scene.Tri])))
     = Some 100.
Proof. split; vm_compute; reflexivity. Qed.


(** ** Reading a vertex record back *)

Lemma unpack_floats_packed (l : list float) :
  unpack_floats (List.concat (map pack_f l)) = Some (map to_b32 l).
Proof.
  induction l as [|a l IH]; cbn [map List.concat]; [reflexivity|].
  assert (E : unpack_f (pack_f a) = Some (to_b32 a)).
  { unfold unpack_f, pack_f.
    rewrite unpack_le32 by (apply bits_of_b32_range, to_b32_valid).
    cbn [option_map]. f_equal. apply b32_of_bits_of_b32, to_b32_valid. }
  unfold pack_f, le32 in E |- *. cbn [app unpack_floats].
  rewrite E. fold (pack_f a). unfold pack_f, le32 in IH. rewrite IH.
  reflexivity.
Qed.

Lemma slice_at {A : Type} (l m r : list A) (lo hi : Z) :
  lo = len l -> hi = len l + len m -> slice (l ++ m ++ r) lo hi = m.
Proof. intros -> ->. apply slice_app_exact. Qed.

(** X11. The record a corner adds to [data] reads back as follows: bytes
    0-11 are the position of the vertex of the corner's loop, bytes 12-23
    the normal of that loop, each coordinate rounded to binary32; with
    [do_texcoord] the record has 36 bytes and bytes 28-35 are the uv entry
    at the index of the loop (not of the vertex), or two zeros when the mesh
    has no uv layer. *)
Theorem corner_record_reads_back do_texcoord mesh uvs poly i w w' u :
  write_corner do_texcoord mesh uvs poly i w = (inr u, w') ->
  exists li loop vertex r,
    getitem (MeshPolygon.loop_indices poly) i = inr li
    /\ getitem (Mesh.loops mesh) li = inr loop
    /\ getitem (Mesh.vertices mesh) (MeshLoop.vertex_index loop) = inr vertex
    /\ data w' = data w ++ r
    /\ len r = record_size do_texcoord
    /\ unpack_floats (slice r 0 12)
       = Some (map to_b32 (Vector.items (MeshVertex.co vertex)))
    /\ unpack_floats (slice r 12 24)
       = Some (map to_b32 (Vector.items (MeshLoop.normal loop)))
    /\ match do_texcoord, uvs with
       | false, _ => True
       | true, None =>
           unpack_floats (slice r 28 36)
           = Some [S754_zero false; S754_zero false]
       | true, Some layer =>
           exists t,
             getitem layer li = inr t
             /\ unpack_floats (slice r 28 36)
                = Some [to_b32 (Vector2.x (MeshUVLoop.uv t));
                        to_b32 (Vector2.y (MeshUVLoop.uv t))]
       end.
Proof.
  intros H. apply write_corner_inr in H.
  destruct H as (li & loop & vertex & layer & c & col & tex
                 & Hli & Hloop & _ & Hv & _ & _ & Hcol & Htex & ->).
  set (P := List.concat (map pack_f (Vector.items (MeshVertex.co vertex)))).
  set (N := List.concat (map pack_f (Vector.items (MeshLoop.normal loop)))).
  assert (LP : len P = 12) by apply len_items.
  assert (LN : len N = 12) by apply len_items.
  assert (LC : len col = 4) by (eapply len_pack_color; exact Hcol).
  exists li, loop, vertex, (P ++ N ++ col ++ tex).
  repeat (split; [assumption || reflexivity|]).
  assert (SP : slice (P ++ N ++ col ++ tex) 0 12 = P)
    by (apply (slice_at [] P); [reflexivity | rewrite LP; reflexivity]).
  assert (SN : slice (P ++ N ++ col ++ tex) 12 24 = N)
    by (apply slice_at; [now rewrite LP | rewrite LP, LN; reflexivity]).
  assert (ST : len tex = 8 -> slice (P ++ N ++ col ++ tex) 28 36 = tex).
  { intros LT.
    replace (P ++ N ++ col ++ tex) with ((P ++ N ++ col) ++ tex ++ [])
      by (rewrite app_nil_r, <- !app_assoc; reflexivity).
    apply slice_at; rewrite !len_app, LP, LN, LC, ?LT; reflexivity. }
  assert (U2 : forall x y : float,
             unpack_floats (pack_f x ++ pack_f y) = Some [to_b32 x; to_b32 y]).
  { intros x y. pose proof (unpack_floats_packed [x; y]) as E.
    cbn [map List.concat] in E. now rewrite app_nil_r in E. }
  assert (L2 : forall x y : float, len (pack_f x ++ pack_f y) = 8)
    by (intros; rewrite len_app, !len_pack_f; reflexivity).
  split.
  - rewrite !len_app, LP, LN, LC.
    destruct do_texcoord; [destruct uvs as [l|]|]; unfold texcoord_bytes in Htex.
    + destruct Htex as (li' & t & _ & _ & ->). now rewrite L2.
    + subst tex. now rewrite L2.
    + subst tex. reflexivity.
  - rewrite SP, SN. unfold P, N. rewrite !unpack_floats_packed.
    split; [reflexivity|]. split; [reflexivity|].
    fold P N.
    destruct do_texcoord; [destruct uvs as [l|]|]; unfold texcoord_bytes in Htex.
    + destruct Htex as (li' & t & Hli' & Ht & ->).
      rewrite Hli in Hli'. apply inr_inj in Hli'. subst li'.
      exists t. split; [exact Ht|]. rewrite ST by apply L2. apply U2.
    + subst tex. rewrite ST by apply L2. rewrite U2. reflexivity.
    + exact I.
Qed.

Lemma corner_record_reads_back_witness :
  exists li loop vertex r,
    getitem [0; 1; 2]%nat 2 = inr li
    /\ getitem (Mesh.loops (Object.data Case.Textured)) li = inr loop
    /\ getitem (Mesh.vertices (Object.data Case.Textured))
               (MeshLoop.vertex_index loop) = inr vertex
    /\ data (snd (write_corner true (Object.data Case.Textured)
                    (UVLoopLayers.active Case.one_uv)
                    {| MeshPolygon.loop_indices := [0; 1; 2]%nat;
                       MeshPolygon.vertices := [0; 1; 2]%nat |} 2 (start Scene.machine)))
       = data (start Scene.machine) ++ r
    /\ len r = record_size true
    /\ unpack_floats (slice r 0 12)
       = Some (map to_b32 (Vector.items (MeshVertex.co vertex)))
    /\ unpack_floats (slice r 12 24)
       = Some (map to_b32 (Vector.items (MeshLoop.normal loop)))
    /\ exists t,
         getitem [Case.uv Scene.f0 Scene.f0; Case.uv Scene.f1 Scene.f0;
                  Case.uv Scene.half Scene.f255th] li = inr t
         /\ unpack_floats (slice r 28 36)
            = Some [to_b32 (Vector2.x (MeshUVLoop.uv t));
                    to_b32 (Vector2.y (MeshUVLoop.uv t))].
Proof.
  apply (corner_record_reads_back true (Object.data Case.Textured)
           (UVLoopLayers.active Case.one_uv)
           {| MeshPolygon.loop_indices := [0; 1; 2]%nat;
              MeshPolygon.vertices := [0; 1; 2]%nat |} 2 (start Scene.machine) _ tt).
  vm_compute. reflexivity.
Defined.

(** ** Texture coordinates and meshes without polygons *)

Lemma geometry_bare (obj : Object.t) :
  bare obj = true ->
  Mesh.polygons (Object.data obj) = [] /\ geometry true obj = inr [].
Proof.
  unfold bare. intros B. apply andb_prop in B. destruct B as [B Uv].
  apply andb_prop in B. destruct B as [_ Np]. apply Z.eqb_eq in Np.
  assert (E : Mesh.polygons (Object.data obj) = []).
  { destruct (Mesh.polygons (Object.data obj)) as [|p ps]; [reflexivity|].
    unfold len in Np. simpl List.length in Np. lia. }
  split; [exact E|]. unfold geometry, uvs_of. rewrite E.
  destruct (UVLoopLayers.count _ =? 0)%nat; [reflexivity|].
  destruct (UVLoopLayers.active _); [reflexivity | discriminate].
Qed.

Lemma write_all_bare (to_write : list Object.t) :
  forall w,
  forallb bare to_write = true ->
  forallb (fun obj => prints (host w) (Object.name obj)) to_write = true ->
  u32_range (len (strings w) + 4 * name_chars to_write) ->
  u32_range (vertex_count w) ->
  exists w',
    for_each to_write (write_object true) w = (inr tt, w')
    /\ len (strings w') <= len (strings w) + 4 * name_chars to_write
    /\ len (index w') = len (index w) + 16 * len to_write
    /\ data w' = data w
    /\ vertex_count w' = vertex_count w
    /\ host w' = host w.
Proof.
  induction to_write as [|obj objs IH]; intros w F Pn Rn Rv.
  - exists w. cbn [for_each name_chars]. unfold ret.
    split; [reflexivity|]. split; [lia|]. change (len (@nil Object.t)) with 0.
    repeat split; lia.
  - cbn [forallb] in F, Pn. apply andb_prop in F. destruct F as [Ok F].
    apply andb_prop in Pn. destruct Pn as [Po Pn].
    destruct (geometry_bare obj Ok) as [Np G].
    unfold bare in Ok. apply andb_prop in Ok. destruct Ok as [Ok _].
    apply andb_prop in Ok. destruct Ok as [Sc _].
    cbn [name_chars] in Rn.
    pose proof (utf8_scalar (Object.name obj)) as U.
    destruct (utf8 (Object.name obj)) as [e|nb] eqn:En;
      [destruct U; congruence|].
    destruct U as [_ Ln].
    pose proof (len_nonneg (strings w)) as N1.
    pose proof (name_chars_nonneg objs) as N2.
    unfold u32_range in *.
    destruct (write_object_run true obj w nb []
                (writing_line_prints _ _ Po) (uv_warning_prints _ _ Po) En)
      as (w1 & W1);
      unfold u32_range; rewrite ?Np;
      try (change (len (@nil MeshPolygon.t)) with 0; lia);
      [exact G|].
    pose proof (write_object_inr _ _ _ _ _ W1)
      as (nb' & d' & out & En' & Hs & Hi & _ & _ & _ & Hd & Ld & Hv & _).
    pose proof (write_object_same_host true obj w) as Hh.
    rewrite W1 in Hh. unfold same_host in Hh. cbn [snd] in Hh.
    rewrite En in En'. apply inr_inj in En'. subst nb'.
    rewrite Np in Ld, Hv. change (len (@nil MeshPolygon.t)) with 0 in Ld, Hv.
    assert (D0 : d' = [])
      by (destruct d'; [reflexivity
                       | unfold len in Ld; simpl List.length in Ld; lia]).
    subst d'. rewrite app_nil_r in Hd.
    destruct (IH w1 F) as (w' & H' & Ls & Li & Hd' & Hv' & Hh').
    + rewrite Hh. exact Pn.
    + rewrite Hs, len_app. unfold u32_range. lia.
    + rewrite Hv. unfold u32_range. lia.
    + exists w'. cbn [for_each]. rewrite (bind_run_inr _ _ _ _ _ W1).
      split; [exact H'|]. rewrite Hs, len_app in Ls.
      rewrite Hi, len_app, len_entry_bytes in Li.
      cbn [name_chars]. split; [lia|].
      split; [unfold len in *; simpl List.length; lia|].
      split; [congruence|]. split; [lia | congruence].
Qed.

(** X12. With [do_texcoord] set the script still exports a scene none of
    whose meshes has a polygon, on a machine whose terminal can encode the
    names, [outfile] and ASCII, which lets [outfile] be created and has
    room for the file (names free of surrogates, no uv layer or an active
    one, names and index below 4 GiB): the geometry chunk is empty and
    [vertex_count] stays 0. *)
Theorem texcoord_export_without_polygons (h : Host.t) (outfile : pystr)
    (to_write : list Object.t) :
  forallb bare to_write = true ->
  4 * name_chars to_write < 4294967296 ->
  16 * len to_write < 4294967296 ->
  forallb (fun obj => prints h (Object.name obj)) to_write = true ->
  prints h outfile = true ->
  Host.opens h outfile = true ->
  24 + 4 * name_chars to_write + 16 * len to_write <= Host.room h ->
  exists w,
    run h true outfile to_write = (inr tt, w)
    /\ data w = [] /\ vertex_count w = 0
    /\ exists s i, blob w = Some (chunk "dat0" [] ++ chunk "str0" s
                                  ++ chunk "idx0" i)
                   /\ len i = 16 * len to_write.
Proof.
  intros F Sn Si Pn Po Op Rm.
  pose proof (name_chars_nonneg to_write).
  destruct (write_all_bare to_write (start h) F Pn)
    as (w1 & L & Ls & Li & Hd & Hv & Hh);
    cbn [start strings vertex_count]; unfold u32_range;
    try (change (len (@nil byte)) with 0; lia).
  cbn [start strings index data vertex_count host] in Ls, Li, Hd, Hv, Hh.
  change (len (@nil byte)) with 0 in Ls, Li.
  pose proof (len_nonneg (strings w1)) as Ns.
  destruct (write_blob_run outfile w1) as (w & B).
  - rewrite Hd. unfold u32_range. change (len (@nil byte)) with 0. lia.
  - unfold u32_range. lia.
  - unfold u32_range, len in *. lia.
  - rewrite Hh. exact Op.
  - rewrite Hh. exact Po.
  - rewrite Hh, Hd, Li. change (len (@nil byte)) with 0. lia.
  - exists w. unfold run, script.
    assert (O : write_objects true to_write (start h) = (inr tt, w1)).
    { unfold write_objects. rewrite (bind_run_inr _ _ _ _ _ L).
      unfold bind, gets. rewrite Hd, Hv. reflexivity. }
    rewrite (bind_run_inr _ _ _ _ _ O).
    pose proof (write_blob_inr _ _ _ _ B) as (_ & _ & _ & ->).
    split; [exact B|].
    cbn [data vertex_count blob with_stdout with_blob].
    rewrite Hd. split; [reflexivity|]. split; [exact Hv|].
    exists (strings w1), (index w1). split; [reflexivity | lia].
Qed.

Lemma texcoord_export_without_polygons_witness :
  exists w,
    run Scene.machine true Scene.out [Scene.Points] = (inr tt, w)
    /\ data w = [] /\ vertex_count w = 0
    /\ exists s i, blob w = Some (chunk "dat0" [] ++ chunk "str0" s
                                  ++ chunk "idx0" i)
                   /\ len i = 16 * len [Scene.Points].
Proof.
  apply (texcoord_export_without_polygons Scene.machine Scene.out
           [Scene.Points]);
    vm_compute; first [reflexivity | discriminate].
Defined.
